(** * mcp-servers maintenance scripts: a shallow embedding

    The repository holds four Python scripts that batch-normalise server
    definition records (JSON files) across git branches:

    - [fix_branches.py]: rebase every contributed branch, repair known
      defects of the changed records ([fix_definition]), commit and push;
    - [rename_files.py]: add the transport-tool suffix to file name, id
      and display name;
    - [fix_ids.py]: move community records under their GitHub org;
    - [inventory.py]: read-only report.

    The embedding keeps the shape of the scripts.  JSON values are an
    inductive type whose objects are association lists in insertion order
    (a Python [dict]); Python exceptions are values of [exn] and fallible
    code lives in the sum [exn + A]; everything that touches the outside
    world (the [git] subprocess, the files, [print]) is an operation of a
    small free monad [prog], run against an arbitrary [handler]. *)

From Stdlib Require Import List String Ascii Bool ZArith Lia Arith DecimalString.
Import ListNotations.
Open Scope string_scope.
Open Scope list_scope.

Set Implicit Arguments.
Set Warnings "-register-all".

(** ** Python strings

    Text is modelled as Rocq strings, that is as sequences of 8-bit
    characters; the helpers below follow [str] on ASCII text. *)
Module PyStr.

(** [c.isspace()] on ASCII: TAB..CR, FS..US and the blank. *)
Definition isspace (c : ascii) : bool :=
  let n := nat_of_ascii c in
  (Nat.leb 9 n && Nat.leb n 13) || (Nat.leb 28 n && Nat.leb n 32).

Fixpoint lstrip (s : string) : string :=
  match s with
  | String c r => if isspace c then lstrip r else s
  | EmptyString => EmptyString
  end.

(** Drops the trailing white space: a character stays when something
    that is not white space follows it or when it is not white space. *)
Fixpoint rstrip (s : string) : string :=
  match s with
  | String c r =>
      match rstrip r with
      | EmptyString => if isspace c then EmptyString else String c EmptyString
      | r' => String c r'
      end
  | EmptyString => EmptyString
  end.

(** [s.strip()] *)
Definition strip (s : string) : string := rstrip (lstrip s).

Definition lower_char (c : ascii) : ascii :=
  let n := nat_of_ascii c in
  if Nat.leb 65 n && Nat.leb n 90 then ascii_of_nat (n + 32) else c.

(** [s.lower()] *)
Fixpoint lower (s : string) : string :=
  match s with
  | String c r => String (lower_char c) (lower r)
  | EmptyString => EmptyString
  end.

(** [s.startswith(p)], by recursion on [p]. *)
Fixpoint has_prefix (p s : string) : bool :=
  match p with
  | EmptyString => true
  | String a p' =>
      match s with
      | EmptyString => false
      | String c s' => Ascii.eqb a c && has_prefix p' s'
      end
  end.

(** [sub in s] *)
Fixpoint contains (sub s : string) : bool :=
  has_prefix sub s ||
  match s with
  | String _ r => contains sub r
  | EmptyString => false
  end.

Fixpoint drop (n : nat) (s : string) : string :=
  match n, s with
  | S n', String _ r => drop n' r
  | _, _ => s
  end.

(** [s.replace(old, new)] for a non-empty [old]: every occurrence,
    left to right, without overlap.  [fuel] bounds the number of
    positions visited; [replace] gives it the length of [s]. *)
Fixpoint replace_from (fuel : nat) (old new s : string) : string :=
  match fuel with
  | O => s
  | S fuel' =>
      match s with
      | EmptyString => EmptyString
      | String c r =>
          if has_prefix old s
          then new ++ replace_from fuel' old new (drop (String.length old) s)
          else String c (replace_from fuel' old new r)
      end
  end.

Definition replace (old new s : string) : string :=
  replace_from (String.length s) old new s.

(** [s.endswith(suffix)] *)
Definition endswith (s suffix : string) : bool :=
  Nat.leb (String.length suffix) (String.length s) &&
  String.eqb (drop (String.length s - String.length suffix) s) suffix.

(** [s.split('\n')]: always at least one piece. *)
Fixpoint split_lines (s : string) : list string :=
  match s with
  | EmptyString => [EmptyString]
  | String c r =>
      if Ascii.eqb c "010"%char then EmptyString :: split_lines r
      else match split_lines r with
           | l :: ls => String c l :: ls
           | [] => [String c EmptyString]
           end
  end.

(** [sep.join(l)] *)
Fixpoint join (sep : string) (l : list string) : string :=
  match l with
  | [] => EmptyString
  | [x] => x
  | x :: r => x ++ sep ++ join sep r
  end.

(** [x in l] for a list or tuple of strings. *)
Definition mem (x : string) (l : list string) : bool :=
  existsb (String.eqb x) l.

End PyStr.

(** ** JSON values as [json.load] returns them

    Objects keep their keys in insertion order.  Numbers are kept as
    integers: the scripts never compute with a number, they only find
    that it is not a string, has no [get] and cannot be iterated. *)
Inductive json : Type :=
| JNull
| JBool (b : bool)
| JNum (n : Z)
| JStr (s : string)
| JArr (items : list json)
| JObj (fields : list (string * json)).

(** ** Exceptions the scripts can meet *)
Inductive exn : Type :=
| KeyError (key : string)                  (* d[key] on a dict without key *)
| AttributeError (obj : json) (attr : string) (* obj.attr on a non-dict      *)
| TypeErrorNotIterable (obj : json)        (* for x in obj                  *)
| TypeErrorItemAssign (obj : json)         (* obj[k] = v on a non-dict      *)
| TypeErrorSubscript (obj : json)          (* obj[k] on a non-dict          *)
| TypeErrorUnhashable (obj : json)         (* obj in some_dict              *)
| TypeErrorConcat (obj : json)             (* obj + 'text'                  *)
| CalledProcessError (code : Z)            (* subprocess.check_output       *)
| EnvError (msg : string).                 (* raised by open / json.load    *)

(** The parts of the Python runtime the scripts call and the repository
    does not define: [repr] of a value that is not a string (inside an
    f-string), the text of the built-in exceptions, and the two [os.path]
    functions. *)
Record pylib : Type := PyLib {
  py_repr : json -> string;
  py_exc_text : exn -> string;
  os_path_join : string -> string -> string;
  os_path_basename : string -> string
}.

Module Dict.

(** [key in d] / [d.get(key)] *)
Fixpoint get (k : string) (d : list (string * json)) : option json :=
  match d with
  | [] => None
  | (k', v) :: r => if String.eqb k' k then Some v else get k r
  end.

(** [d[key] = v]: an existing key keeps its place, a new one goes last. *)
Fixpoint set (k : string) (v : json) (d : list (string * json))
  : list (string * json) :=
  match d with
  | [] => [(k, v)]
  | (k', v') :: r =>
      if String.eqb k' k then (k', v) :: r else (k', v') :: set k v r
  end.

End Dict.

(** ** Results of fallible code *)
Definition res (A : Type) : Type := (exn + A)%type.

Definition raise {A : Type} (e : exn) : res A := inl e.
Definition ok {A : Type} (a : A) : res A := inr a.

Definition rbind {A B : Type} (m : res A) (k : A -> res B) : res B :=
  match m with
  | inl e => inl e
  | inr a => k a
  end.

Declare Scope res_scope.
Delimit Scope res_scope with res.
Notation "x <- m ;; k" := (rbind m (fun x => k))
  (at level 61, m at next level, right associativity) : res_scope.
Notation "' pat <- m ;; k" := (rbind m (fun x => match x with pat => k end))
  (at level 61, pat pattern, m at next level, right associativity) : res_scope.

(** ** Python operations on JSON values *)
Module Py.

(** [obj.get(key, default)] *)
Definition get (obj : json) (k : string) (default : json) : res json :=
  match obj with
  | JObj d => ok (match Dict.get k d with Some v => v | None => default end)
  | _ => raise (AttributeError obj "get")
  end.

(** [obj[key]] on a dict read from JSON. *)
Definition getitem (obj : json) (k : string) : res json :=
  match obj with
  | JObj d => match Dict.get k d with
              | Some v => ok v
              | None => raise (KeyError k)
              end
  | _ => raise (TypeErrorSubscript obj)
  end.

(** [obj[key] = v] *)
Definition setitem (obj : json) (k : string) (v : json) : res json :=
  match obj with
  | JObj d => ok (JObj (Dict.set k v d))
  | _ => raise (TypeErrorItemAssign obj)
  end.

(** The object bound to [k] in [obj] has been mutated in place and is
    now [v].  When [k] is unbound the mutated object was the default of
    a [get], which [obj] does not reference: [obj] does not change. *)
Definition mutated (obj : json) (k : string) (v : json) : json :=
  match obj with
  | JObj d => match Dict.get k d with
              | Some _ => JObj (Dict.set k v d)
              | None => obj
              end
  | _ => obj
  end.

(** [v == s] for a string literal [s] *)
Definition eq_str (v : json) (s : string) : bool :=
  match v with
  | JStr s' => String.eqb s' s
  | _ => false
  end.

(** [v in l] for a list of string literals *)
Definition in_strs (v : json) (l : list string) : bool :=
  match v with
  | JStr s => PyStr.mem s l
  | _ => false
  end.

(** [v in table] for a dict with string keys: the value found, if any.
    Lists and dicts cannot be hashed. *)
Definition lookup {A : Type} (v : json) (table : list (string * A))
  : res (option A) :=
  match v with
  | JStr s =>
      ok (match find (fun kv => String.eqb (fst kv) s) table with
          | Some kv => Some (snd kv)
          | None => None
          end)
  | JArr _ | JObj _ => raise (TypeErrorUnhashable v)
  | _ => ok None
  end.

(** Truth value of [v] in a condition. *)
Definition truthy (v : json) : bool :=
  match v with
  | JNull => false
  | JBool b => b
  | JNum n => negb (Z.eqb n 0)
  | JStr s => negb (String.eqb s "")
  | JArr l => match l with [] => false | _ => true end
  | JObj d => match d with [] => false | _ => true end
  end.

(** [f"{v}"] *)
Definition str (lib : pylib) (v : json) : string :=
  match v with
  | JStr s => s
  | JNull => "None"
  | JBool true => "True"
  | JBool false => "False"
  | _ => py_repr lib v
  end.

(** [str(e)] for a caught exception.  [str(KeyError(k))] is the [repr]
    of the key, quoted; the environment's errors carry their text. *)
Definition exc_str (lib : pylib) (e : exn) : string :=
  match e with
  | KeyError k => ("'" ++ k ++ "'")%string
  | EnvError msg => msg
  | _ => py_exc_text lib e
  end.

End Py.

(** ** fix_branches.py: the Fix Engine on a parsed record *)
Module FixEngine.

Definition REPO_DIR : string := "d:\mcpmux\mcp-servers".

Definition ICON_FIXES : list (string * string) :=
  [ ("community.filesystem", "https://avatars.githubusercontent.com/u/182288589?v=4");
    ("community.puppeteer", "https://avatars.githubusercontent.com/u/182288589?v=4");
    ("community.sqlite", "https://avatars.githubusercontent.com/u/182288589?v=4");
    ("community.fetch", "https://avatars.githubusercontent.com/u/182288589?v=4");
    ("community.memory", "https://avatars.githubusercontent.com/u/182288589?v=4");
    ("community.sequential-thinking", "https://avatars.githubusercontent.com/u/182288589?v=4");
    ("community.postgresql", "https://www.postgresql.org/media/img/about/press/elephant.png");
    ("community.gitlab", "https://avatars.githubusercontent.com/u/1086321?v=4");
    ("community.google-maps", "https://avatars.githubusercontent.com/u/1342004?v=4") ].

Definition REPO_FIXES : list (string * string) :=
  [ ("com.hubspot-mcp", "https://github.com/HubSpot/mcp-server");
    ("com.resend-mcp", "https://github.com/resend/resend-mcp");
    ("com.pagerduty-mcp", "https://github.com/PagerDuty/pagerduty-mcp-server") ].

Definition DOC_FIXES : list (string * string) :=
  [ ("community.postgresql",
     "https://github.com/modelcontextprotocol/servers/tree/main/src/postgres#readme") ].

(** [PACKAGE_FIXES[server_id]['args']] *)
Definition PACKAGE_FIXES : list (string * list string) :=
  [ ("com.pagerduty-mcp", ["pagerduty-mcp"]) ].

Definition STYTCH_REPO : string := "https://github.com/stytchauth/stytch-mcp".

Definition VALID_INPUT_TYPES : list string :=
  ["text"; "number"; "boolean"; "url"; "select"; "file_path"; "directory_path"].

Section WithRuntime.
Variable lib : pylib.

Local Open Scope res_scope.

(** The body of [for inp in inputs], on one element: the element as
    the loop leaves it and the fix it appended, if any. *)
Definition fix_input (inp : json) : res (json * list string) :=
  t <- Py.get inp "type" JNull ;;
  if negb (Py.in_strs t VALID_INPUT_TYPES) then
    let old_type := t in
    inp' <- Py.setitem inp "type" (JStr "text") ;;
    i <- Py.getitem inp' "id" ;;
    ok (inp', [("input type '" ++ Py.str lib old_type ++ "' -> 'text' for "
                  ++ Py.str lib i)%string])
  else ok (inp, []).

(** The loop over the elements of a list, in order; the first
    exception ends it. *)
Fixpoint fix_input_list (l : list json) : res (list json * list string) :=
  match l with
  | [] => ok ([], [])
  | inp :: r =>
      '(inp', f1) <- fix_input inp ;;
      '(r', f2) <- fix_input_list r ;;
      ok (inp' :: r', f1 ++ f2)
  end.

(** [for inp in inputs: ...] on whatever [inputs] is.  Iterating a
    string yields its characters and iterating a dict yields its
    keys, all of them strings without a [get]; an empty one is
    iterated without effect. *)
Definition fix_inputs (inputs : json) : res (json * list string) :=
  match inputs with
  | JArr l => '(l', f) <- fix_input_list l ;; ok (JArr l', f)
  | JStr EmptyString => ok (inputs, [])
  | JStr (String c _) =>
      raise (AttributeError (JStr (String c EmptyString)) "get")
  | JObj [] => ok (inputs, [])
  | JObj ((k, _) :: _) => raise (AttributeError (JStr k) "get")
  | _ => raise (TypeErrorNotIterable inputs)
  end.

(** A link repair: [links = data.get('links', {})], compare, assign,
    and bind [data['links']] again. *)
Definition fix_link (data : json) (field url entry : string)
  : res (json * list string) :=
  links <- Py.get data "links" (JObj []) ;;
  cur <- Py.get links field JNull ;;
  if negb (Py.eq_str cur url) then
    links' <- Py.setitem links field (JStr url) ;;
    data' <- Py.setitem data "links" links' ;;
    ok (data', [entry])
  else ok (data, []).

(** [# Fix invalid input types].  [transport], [metadata] and
    [inputs] are references into [data] when the keys exist and fresh
    defaults otherwise; [Py.mutated] carries the in-place change of
    the inputs up to [data].  Also returns [transport], which the
    last block uses again. *)
Definition fix_input_types (data : json) : res (json * json * list string) :=
  transport <- Py.get data "transport" (JObj []) ;;
  metadata <- Py.get transport "metadata" (JObj []) ;;
  inputs <- Py.get metadata "inputs" (JArr []) ;;
  '(inputs, fixes) <- fix_inputs inputs ;;
  let metadata := Py.mutated metadata "inputs" inputs in
  let transport := Py.mutated transport "metadata" metadata in
  ok (Py.mutated data "transport" transport, transport, fixes).

(** [# Fix MCP org icon for non-MCP-org projects] *)
Definition fix_icon (data server_id : json) : res (json * list string) :=
  icon <- Py.get data "icon" (JStr "") ;;
  in_table <- Py.lookup server_id ICON_FIXES ;;
  match in_table with
  | Some new_icon =>
      if negb (Py.eq_str icon new_icon) then
        data' <- Py.setitem data "icon" (JStr new_icon) ;;
        ok (data', ["icon updated"])
      else ok (data, [])
  | None => ok (data, [])
  end.

(** [# Fix known repo URLs] *)
Definition fix_repo_url (data server_id : json) : res (json * list string) :=
  in_table <- Py.lookup server_id REPO_FIXES ;;
  match in_table with
  | Some url => fix_link data "repository" url "repo URL fixed"
  | None => ok (data, [])
  end.

(** [# Fix known doc URLs] *)
Definition fix_doc_url (data server_id : json) : res (json * list string) :=
  in_table <- Py.lookup server_id DOC_FIXES ;;
  match in_table with
  | Some url => fix_link data "documentation" url "doc URL fixed"
  | None => ok (data, [])
  end.

(** [# Fix stytch repo]: no comparison with the current link. *)
Definition fix_stytch (data server_id : json) : res (json * list string) :=
  if Py.eq_str server_id "com.stytch-mcp" then
    links <- Py.get data "links" (JObj []) ;;
    links' <- Py.setitem links "repository" (JStr STYTCH_REPO) ;;
    data' <- Py.setitem data "links" links' ;;
    ok (data', ["repo URL: org page -> specific repo"])
  else ok (data, []).

(** [# Fix pagerduty package]: assigns into [transport], the object
    read at the top of the function; no comparison either. *)
Definition fix_package (data transport server_id : json)
  : res (json * list string) :=
  in_table <- Py.lookup server_id PACKAGE_FIXES ;;
  match in_table with
  | Some args =>
      transport' <- Py.setitem transport "args" (JArr (map JStr args)) ;;
      ok (Py.mutated data "transport" transport', ["fixed package name"])
  | None => ok (data, [])
  end.

(** [fix_definition] between [json.load] and the final write: the
    record as the function leaves it in memory, and [fixes]. *)
Definition fix_data (data server_id : json) : res (json * list string) :=
  '(data, transport, fixes1) <- fix_input_types data ;;
  '(data, fixes2) <- fix_icon data server_id ;;
  '(data, fixes3) <- fix_repo_url data server_id ;;
  '(data, fixes4) <- fix_doc_url data server_id ;;
  '(data, fixes5) <- fix_stytch data server_id ;;
  '(data, fixes6) <- fix_package data transport server_id ;;
  ok (data, fixes1 ++ fixes2 ++ fixes3 ++ fixes4 ++ fixes5 ++ fixes6).

End WithRuntime.

End FixEngine.

(** ** The outside world: subprocesses, files, the terminal *)

(** [subprocess.run] takes a shell line ([shell=True]) or an argument
    vector. *)
Inductive command : Type :=
| Shell (line : string)
| Argv (args : list string).

(** [subprocess.CompletedProcess] *)
Record completed : Type := Completed {
  returncode : Z;
  stdout : string;
  stderr : string
}.

(** Programs over the operations the scripts perform.  [JsonLoad] is
    [with open(path) as f: json.load(f)] and answers the parsed value or
    the exception; [JsonDump] is [with open(path, 'w') as f:
    json.dump(data, f, indent=2); f.write('\n')] and answers the exception,
    if any. *)
Inductive prog (A : Type) : Type :=
| Ret (a : A)
| Subprocess (c : command) (k : completed -> prog A)
| JsonLoad (path : string) (k : res json -> prog A)
| JsonDump (path : string) (data : json) (k : option exn -> prog A)
| PathExists (path : string) (k : bool -> prog A)
| Print (line : string) (k : prog A).

Arguments Ret {A} a.
Arguments Subprocess {A} c k.
Arguments JsonLoad {A} path k.
Arguments JsonDump {A} path data k.
Arguments PathExists {A} path k.
Arguments Print {A} line k.

Fixpoint pbind {A B : Type} (m : prog A) (f : A -> prog B) : prog B :=
  match m with
  | Ret a => f a
  | Subprocess c k => Subprocess c (fun r => pbind (k r) f)
  | JsonLoad p k => JsonLoad p (fun r => pbind (k r) f)
  | JsonDump p d k => JsonDump p d (fun r => pbind (k r) f)
  | PathExists p k => PathExists p (fun r => pbind (k r) f)
  | Print l k => Print l (pbind k f)
  end.

Declare Scope prog_scope.
Delimit Scope prog_scope with prog.
Notation "x <- m ;; k" := (pbind m (fun x => k))
  (at level 61, m at next level, right associativity) : prog_scope.
Notation "' pat <- m ;; k" := (pbind m (fun x => match x with pat => k end))
  (at level 61, pat pattern, m at next level, right associativity) : prog_scope.
Notation "m ;; k" := (pbind m (fun _ => k))
  (at level 61, right associativity) : prog_scope.

Definition subprocess_run (c : command) : prog completed := Subprocess c Ret.
Definition json_load (path : string) : prog (res json) := JsonLoad path Ret.
Definition json_dump (path : string) (d : json) : prog (option exn) :=
  JsonDump path d Ret.
Definition path_exists (path : string) : prog bool := PathExists path Ret.
Definition print (line : string) : prog unit := Print line (Ret tt).

(** What an observer of a run sees: each operation with its answer. *)
Inductive event : Type :=
| EvRun (c : command) (r : completed)
| EvLoad (path : string) (r : res json)
| EvDump (path : string) (data : json) (r : option exn)
| EvExists (path : string) (r : bool)
| EvPrint (line : string).

(** An environment answers the operations from its state [W].  Reading
    a file or testing a path does not change the state. *)
Record handler (W : Type) : Type := Handler {
  on_run : command -> W -> completed * W;
  on_load : string -> W -> res json;
  on_dump : string -> json -> W -> option exn * W;
  on_exists : string -> W -> bool
}.

(** Running a program: its value, the final state and the trace. *)
Fixpoint exec {W A : Type} (h : handler W) (p : prog A) (w : W)
  : A * W * list event :=
  match p with
  | Ret a => (a, w, [])
  | Subprocess c k =>
      let '(r, w1) := on_run h c w in
      let '(a, w2, tr) := exec h (k r) w1 in
      (a, w2, EvRun c r :: tr)
  | JsonLoad p k =>
      let r := on_load h p w in
      let '(a, w2, tr) := exec h (k r) w in
      (a, w2, EvLoad p r :: tr)
  | JsonDump p d k =>
      let '(r, w1) := on_dump h p d w in
      let '(a, w2, tr) := exec h (k r) w1 in
      (a, w2, EvDump p d r :: tr)
  | PathExists p k =>
      let r := on_exists h p w in
      let '(a, w2, tr) := exec h (k r) w in
      (a, w2, EvExists p r :: tr)
  | Print l k =>
      let '(a, w2, tr) := exec h k w in
      (a, w2, EvPrint l :: tr)
  end.

Definition value_of {W A : Type} (x : A * W * list event) : A := fst (fst x).
Definition world_of {W A : Type} (x : A * W * list event) : W := snd (fst x).
Definition trace_of {W A : Type} (x : A * W * list event) : list event := snd x.

(** Characters a Rocq string literal cannot hold directly. *)
Definition dquote : string := String (ascii_of_nat 34) EmptyString.
Definition newline : string := String (ascii_of_nat 10) EmptyString.

(** [f"{n}"] for a length or an index. *)
Definition str_of_nat (n : nat) : string :=
  NilEmpty.string_of_uint (Nat.to_uint n).

(** ** fix_branches.py: the branch pipeline *)
Module FixBranches.
Import FixEngine.

(** One entry of the dict [process_branch] returns; an absent key is
    [None]. *)
Record branch_result : Type := BranchResult {
  r_branch : string;
  r_fix_branch : option string;
  r_status : string;
  r_error : option string;
  r_fixes : option (list (string * string));
  r_files : option (list string)
}.

Section WithRuntime.
Variable lib : pylib.

Local Open Scope prog_scope.

(** [run(cmd, cwd=REPO_DIR, check=True)]: [(None, stderr)] when
    checking and the command failed, else [(stdout, stderr)], both
    stripped. *)
Definition run (cmd : string) (check : bool)
  : prog (option string * string) :=
  result <- subprocess_run (Shell cmd) ;;
  if check && negb (Z.eqb (returncode result) 0)
  then Ret (None, PyStr.strip (stderr result))
  else Ret (Some (PyStr.strip (stdout result)), PyStr.strip (stderr result)).

(** [fix_definition(filepath, server_id)]: the fixes, or the
    exception that escapes. *)
Definition fix_definition (filepath : string) (server_id : json)
  : prog (res (list string)) :=
  loaded <- json_load filepath ;;
  match loaded with
  | inl e => Ret (raise e)
  | inr data =>
      match fix_data lib data server_id with
      | inl e => Ret (raise e)
      | inr (data', fixes) =>
          match fixes with
          | [] => Ret (ok fixes)
          | _ :: _ =>
              written <- json_dump filepath data' ;;
              match written with
              | Some e => Ret (raise e)
              | None => Ret (ok fixes)
              end
          end
      end
  end.

(** [not out] for the first component of [run]. *)
Definition falsy (out : option string) : bool :=
  match out with
  | None => true
  | Some s => String.eqb s ""
  end.

(** [[f(x) for x in s.split('\n') if x.strip()]] *)
Definition nonblank_lines (s : string) : list string :=
  filter (fun l => negb (String.eqb (PyStr.strip l) ""))
         (PyStr.split_lines s).

Definition get_remote_branches : prog (list string) :=
  '(out, _) <- run ("git for-each-ref --format=" ++ dquote
                    ++ "%(refname:short)" ++ dquote ++ " " ++ dquote
                    ++ "refs/remotes/origin/claude/add-*" ++ dquote) true ;;
  match out with
  | None => Ret []
  | Some text =>
      if String.eqb text "" then Ret []
      else Ret (map (fun b => PyStr.replace "origin/" "" (PyStr.strip b))
                    (nonblank_lines (PyStr.strip text)))
  end.

(** The entry the [except Exception as e] clause appends. *)
Definition parse_error (f : string) (e : exn) : string * string :=
  (f, ("PARSE_ERROR: " ++ Py.exc_str lib e)%string).

(** The body of [for f in diff_files]: what it adds to [all_fixes]. *)
Definition process_file (f : string) : prog (list (string * string)) :=
  let filepath := os_path_join lib REPO_DIR f in
  present <- path_exists filepath ;;
  if present && PyStr.endswith f ".json" then
    loaded <- json_load filepath ;;
    match loaded with
    | inl e => Ret [parse_error f e]
    | inr data =>
        match Py.get data "id" (JStr "") with
        | inl e => Ret [parse_error f e]
        | inr server_id =>
            fixes <- fix_definition filepath server_id ;;
            match fixes with
            | inl e => Ret [parse_error f e]
            | inr [] => Ret []
            | inr fixes => Ret (map (fun entry => (f, entry)) fixes)
            end
        end
    end
  else Ret [].

Fixpoint process_files (diff_files : list string)
         (all_fixes : list (string * string))
  : prog (list (string * string)) :=
  match diff_files with
  | [] => Ret all_fixes
  | f :: rest =>
      added <- process_file f ;;
      process_files rest (all_fixes ++ added)
  end.

Definition short_name (branch_name : string) : string :=
  PyStr.replace "-nYwV7" ""
    (PyStr.replace "-mcp-nYwV7" ""
       (PyStr.replace "claude/add-" "" branch_name)).

Definition fix_branch_name (branch_name : string) : string :=
  ("fix/" ++ short_name branch_name)%string.

Definition checkout_main : string := "git checkout main".
Definition delete_branch (b : string) : string :=
  ("git branch -D " ++ b)%string.
Definition push_command (b : string) : string :=
  ("git push -u origin " ++ b ++ " --force")%string.

(** [# Commit fixes if any] *)
Definition commit_fixes (all_fixes : list (string * string)) : prog unit :=
  match all_fixes with
  | [] => Ret tt
  | _ :: _ =>
      run "git add -A" true ;;
      let fix_desc := PyStr.join "; " (map snd (firstn 5 all_fixes)) in
      let commit_msg :=
        ("fix: update server definition (" ++ fix_desc ++ ")")%string in
      run ("git commit -m " ++ dquote ++ commit_msg ++ dquote) true ;;
      Ret tt
  end.

(** [process_branch(branch_name)] *)
Definition process_branch (branch_name : string) : prog branch_result :=
  let fix_branch := fix_branch_name branch_name in
  (* Create fix branch from the remote branch, rebased on main *)
  run (delete_branch fix_branch) false ;;
  '(out, err) <- run ("git checkout -b " ++ fix_branch ++ " origin/"
                      ++ branch_name) true ;;
  match out with
  | None =>
      Ret (BranchResult branch_name None "ERROR"
             (Some ("checkout failed: " ++ err)%string) None None)
  | Some _ =>
  (* Rebase onto main *)
  '(out, err) <- run "git rebase main" true ;;
  match out with
  | None =>
      run "git rebase --abort" false ;;
      run checkout_main false ;;
      run (delete_branch fix_branch) false ;;
      Ret (BranchResult branch_name None "REBASE_CONFLICT" (Some err)
             None None)
  | Some _ =>
  (* Find the server definition files that differ from main *)
  '(out, _) <- run "git diff main --name-only -- servers/" true ;;
  if falsy out then
    run checkout_main false ;;
    run (delete_branch fix_branch) false ;;
    Ret (BranchResult branch_name None "NO_CHANGES"
           (Some "No server files differ from main") None None)
  else
  let diff_files :=
    nonblank_lines (PyStr.strip (match out with Some t => t | None => "" end)) in
  all_fixes <- process_files diff_files [] ;;
  commit_fixes all_fixes ;;
  (* Push *)
  '(out, err) <- run (push_command fix_branch) true ;;
  let result :=
    if match out with None => true | Some _ => false end
       && PyStr.contains "error" (PyStr.lower err)
    then BranchResult branch_name (Some fix_branch) "PUSH_ERROR"
           (Some err) (Some all_fixes) None
    else BranchResult branch_name (Some fix_branch) "PUSHED"
           None (Some all_fixes) (Some diff_files) in
  (* Back to main *)
  run checkout_main true ;;
  Ret result
  end
  end.

(** [f"{s:20s}"] *)
Fixpoint spaces (n : nat) : string :=
  match n with
  | O => EmptyString
  | S n' => String " " (spaces n')
  end.
Definition ljust (width : nat) (s : string) : string :=
  (s ++ spaces (width - String.length s))%string.

Fixpoint print_fixes (l : list (string * string)) : prog unit :=
  match l with
  | [] => Ret tt
  | (_, entry) :: r => print ("    Fix: " ++ entry) ;; print_fixes r
  end.

(** [for i, branch in enumerate(branches)], from index [i]. *)
Fixpoint process_all (total i : nat) (branches : list string)
         (results : list branch_result) : prog (list branch_result) :=
  match branches with
  | [] => Ret results
  | branch :: rest =>
      print (newline ++ "[" ++ str_of_nat (i + 1) ++ "/" ++ str_of_nat total
             ++ "] Processing " ++ branch ++ "...") ;;
      result <- process_branch branch ;;
      print ("  Status: " ++ r_status result) ;;
      match r_fixes result with
       | Some (x :: l) => print_fixes (x :: l)
       | _ => Ret tt
       end ;;
      process_all total (S i) rest (results ++ [result])
  end.

Fixpoint print_summary (results : list branch_result) : prog unit :=
  match results with
  | [] => Ret tt
  | r :: rest =>
      let fixes := List.length (match r_fixes r with Some l => l | None => [] end) in
      print ("  " ++ ljust 20 (r_status r) ++ " " ++ r_branch r ++ " ("
             ++ str_of_nat fixes ++ " fixes)") ;;
      print_summary rest
  end.

(** The script body under [if __name__ == "__main__"]. *)
Definition main : prog (list branch_result) :=
  (* Ensure we're on main *)
  run checkout_main true ;;
  branches <- get_remote_branches ;;
  print ("Found " ++ str_of_nat (List.length branches)
         ++ " branches to process") ;;
  results <- process_all (List.length branches) 0 branches [] ;;
  print (newline ++ newline ++ "=== SUMMARY ===") ;;
  print_summary results ;;
  Ret results.

End WithRuntime.

End FixBranches.

(** ** rename_files.py: the transport suffix *)
Module RenameFiles.

Definition SKIP_BRANCHES : list string := [].

Definition HTTP_ONLY_FILES : list string :=
  [ "com.asana-mcp.json"; "com.clerk-mcp.json";
    "com.cloudflare-observability.json"; "com.figma-mcp.json";
    "com.honeycomb-mcp.json"; "io.intercom-mcp.json"; "io.sanity-mcp.json";
    "com.stytch-mcp.json"; "com.vercel-mcp.json"; "town.val-mcp.json";
    "com.apify-mcp-http.json"; "com.linear-mcp-http.json";
    "com.square-mcp-http.json"; "com.vercel-mcp-http.json";
    "com.mongodb-mcp-npx.json"; "com.mongodb-mcp-docker.json" ].

Definition KNOWN_SUFFIXES : list string :=
  ["-npx"; "-uvx"; "-docker"; "-http"; "-cli"].

(** [get_tool_suffix(transport)]; [JNull] is [None]. *)
Definition get_tool_suffix (transport : json) : res json :=
  (t <- Py.get transport "type" JNull ;;
   if Py.eq_str t "http" then ok (JStr "http")
   else
     cmd <- Py.get transport "command" (JStr "") ;;
     if Py.in_strs cmd ["npx"; "uvx"; "docker"] then ok cmd
     else if Py.eq_str cmd "snyk" then ok (JStr "cli")
     else ok (if Py.truthy cmd then cmd else JNull))%res.

(** [s.lstrip('* ')] *)
Fixpoint lstrip_star (s : string) : string :=
  match s with
  | String c r =>
      if Ascii.eqb c "*"%char || Ascii.eqb c " "%char then lstrip_star r
      else s
  | EmptyString => EmptyString
  end.

(** [sorted(l)] on strings: insertion by code point order. *)
Fixpoint insert_sorted (x : string) (l : list string) : list string :=
  match l with
  | [] => [x]
  | y :: r => if String.leb x y then x :: l else y :: insert_sorted x r
  end.
Definition sorted (l : list string) : list string :=
  fold_right insert_sorted [] l.

(** One renaming: [(basename, new_basename, new_id)]. *)
Definition renaming : Type := (string * string * json)%type.

Section WithRuntime.
Variable lib : pylib.

Local Open Scope prog_scope.

(** [run(args)] *)
Definition run (args : list string) : prog completed :=
  subprocess_run (Argv args).

(** [defn['id'] + f'-{suffix}'] *)
Definition add_suffix (id suffix : json) : res json :=
  match id with
  | JStr s => ok (JStr (s ++ "-" ++ Py.str lib suffix))
  | _ => raise (TypeErrorConcat id)
  end.

Definition labelled_name (old_name suffix : json) : json :=
  if Py.eq_str suffix "npx" then JStr (Py.str lib old_name ++ " (npx)")
  else if Py.eq_str suffix "uvx" then JStr (Py.str lib old_name ++ " (uvx)")
  else if Py.eq_str suffix "docker" then
    JStr (Py.str lib old_name ++ " (Docker)")
  else if Py.eq_str suffix "cli" then JStr (Py.str lib old_name ++ " (CLI)")
  else old_name.

(** The pure part of one iteration, from the parsed record to the
    values it computes: [(suffix, new_basename, new_path, new_id,
    defn)] with [defn] already updated. *)
Definition plan_rename (name_no_ext : string) (defn suffix : json)
  : res (string * string * json * json) :=
  (let new_basename := (name_no_ext ++ "-" ++ Py.str lib suffix ++ ".json")%string in
   let new_path := ("servers/" ++ new_basename)%string in
   id <- Py.getitem defn "id" ;;
   new_id <- add_suffix id suffix ;;
   old_name <- Py.get defn "name" (JStr "") ;;
   let new_name := labelled_name old_name suffix in
   defn <- Py.setitem defn "id" new_id ;;
   defn <- Py.setitem defn "name" new_name ;;
   ok (new_basename, new_path, new_id, defn))%res.

(** The body of [for f in new_files]: the renaming it appends, if
    any, or the exception that ends the script. *)
Definition rename_file (branch f : string)
  : prog (res (option renaming)) :=
  let basename := os_path_basename lib f in
  if PyStr.mem basename HTTP_ONLY_FILES then Ret (ok None) else
  (* Check if already has suffix *)
  let name_no_ext := PyStr.replace ".json" "" basename in
  if existsb (PyStr.endswith name_no_ext) KNOWN_SUFFIXES then Ret (ok None) else
  (* Read and parse *)
  loaded <- json_load f ;;
  match loaded with
  | inl _ =>
      print ("SKIP " ++ branch ++ "/" ++ basename ++ ": can't parse") ;;
      Ret (ok None)
  | inr defn =>
  match (transport <- Py.get defn "transport" (JObj []) ;;
         get_tool_suffix transport)%res with
  | inl e => Ret (raise e)
  | inr suffix =>
  if negb (Py.truthy suffix) then
    print ("SKIP " ++ branch ++ "/" ++ basename ++ ": unknown tool") ;;
    Ret (ok None)
  else
  (* For HTTP-only servers (no stdio), skip suffix *)
  if Py.eq_str suffix "http" && negb (PyStr.mem basename HTTP_ONLY_FILES)
  then Ret (ok None) else
  match plan_rename name_no_ext defn suffix with
  | inl e => Ret (raise e)
  | inr (new_basename, new_path, new_id, defn) =>
      written <- json_dump f defn ;;
      match written with
      | Some e => Ret (raise e)
      | None =>
          (* Git mv *)
          mv <- run ["git"; "mv"; f; new_path] ;;
          if negb (Z.eqb (returncode mv) 0) then
            print ("ERROR " ++ branch ++ ": git mv " ++ f ++ " -> "
                   ++ new_path ++ " failed: " ++ stderr mv) ;;
            Ret (ok None)
          else Ret (ok (Some (basename, new_basename, new_id)))
      end
  end
  end
  end.

Fixpoint rename_files (branch : string) (new_files : list string)
         (renames : list renaming) : prog (res (list renaming)) :=
  match new_files with
  | [] => Ret (ok renames)
  | f :: rest =>
      r <- rename_file branch f ;;
      match r with
      | inl e => Ret (raise e)
      | inr None => rename_files branch rest renames
      | inr (Some x) => rename_files branch rest (renames ++ [x])
      end
  end.

Definition commit_message (renames : list renaming) : string :=
  fold_left
    (fun msg '(old, new, nid) =>
       (msg ++ "- " ++ old ++ " -> " ++ new ++ " (id: " ++ Py.str lib nid
            ++ ")" ++ newline)%string)
    renames
    ("fix: rename server files with transport suffix" ++ newline ++ newline)%string.

Fixpoint report (branch : string) (renames : list renaming)
         (results : list (string * string * string))
  : prog (list (string * string * string)) :=
  match renames with
  | [] => Ret results
  | (old, new, _) :: rest =>
      print ("OK " ++ branch ++ ": " ++ old ++ " -> " ++ new) ;;
      report branch rest (results ++ [(branch, old, new)])
  end.

(** The body of [for branch in sorted(branches)]. *)
Definition rename_branch (main_files : list string) (branch : string)
           (results : list (string * string * string))
  : prog (res (list (string * string * string))) :=
  if PyStr.mem branch SKIP_BRANCHES then Ret (ok results) else
  (* Get new files in this branch *)
  files_out <- run ["git"; "ls-tree"; "-r"; "--name-only"; branch; "--";
                    "servers/"] ;;
  if negb (Z.eqb (returncode files_out) 0) then Ret (ok results) else
  let all_files := PyStr.split_lines (PyStr.strip (stdout files_out)) in
  let new_files :=
    filter (fun f => negb (PyStr.mem f main_files)
                     && PyStr.endswith f ".json") all_files in
  match new_files with
  | [] => Ret (ok results)
  | _ :: _ =>
  (* Check out branch *)
  co <- run ["git"; "checkout"; branch] ;;
  if negb (Z.eqb (returncode co) 0) then
    print ("SKIP " ++ branch ++ ": checkout failed") ;; Ret (ok results)
  else
  r <- rename_files branch new_files [] ;;
  match r with
  | inl e => Ret (raise e)
  | inr [] => Ret (ok results)
  | inr renames =>
      (* Stage and commit *)
      run ["git"; "add"; "-A"] ;;
      commit <- run ["git"; "commit"; "-s";
                     "--author=Mohammod Al Amin Ashik <maa.ashik00@gmail.com>";
                     "-m"; commit_message renames] ;;
      if negb (Z.eqb (returncode commit) 0) then
        print ("ERROR " ++ branch ++ ": commit failed: " ++ stderr commit) ;;
        Ret (ok results)
      else
      (* Push *)
      push <- run ["git"; "push"; "origin"; branch] ;;
      if negb (Z.eqb (returncode push) 0) then
        print ("ERROR " ++ branch ++ ": push failed: " ++ stderr push) ;;
        Ret (ok results)
      else
        results <- report branch renames results ;;
        Ret (ok results)
  end
  end.

Fixpoint rename_branches (main_files branches : list string)
         (results : list (string * string * string))
  : prog (res (list (string * string * string))) :=
  match branches with
  | [] => Ret (ok results)
  | branch :: rest =>
      r <- rename_branch main_files branch results ;;
      match r with
      | inl e => Ret (raise e)
      | inr results => rename_branches main_files rest results
      end
  end.

(** [main()] *)
Definition main : prog (res (list (string * string * string))) :=
  (* Get main files to skip *)
  ls <- run ["git"; "ls-tree"; "-r"; "--name-only"; "main"; "--"; "servers/"] ;;
  let main_files := PyStr.split_lines (PyStr.strip (stdout ls)) in
  listed <- run ["git"; "branch"; "--list"; "fix/*"] ;;
  let branches := PyStr.split_lines (PyStr.strip (stdout listed)) in
  let branches :=
    map (fun b => lstrip_star (PyStr.strip b))
        (filter (fun b => negb (String.eqb (PyStr.strip b) "")) branches) in
  r <- rename_branches main_files (sorted branches) [] ;;
  match r with
  | inl e => Ret (raise e)
  | inr results =>
      (* Switch back to main *)
      run ["git"; "checkout"; "main"] ;;
      print (newline ++ "=== SUMMARY ===") ;;
      print ("Renamed " ++ str_of_nat (List.length results) ++ " files across "
             ++ str_of_nat (List.length
                  (nodup string_dec (map (fun r => fst (fst r)) results)))
             ++ " branches") ;;
      Ret (ok results)
  end.

End WithRuntime.

End RenameFiles.

(** ** fix_ids.py: community records move under their GitHub org *)
Module FixIds.

Definition COMMUNITY_REMAP : list (string * string) :=
  [ ("community.postgresql-uvx", "crystaldba.postgres-mcp-uvx");
    ("community.airtable-npx", "domdomegg.airtable-mcp-npx");
    ("community.axiom-npx", "thetabird.axiom-mcp-npx");
    ("community.coda-npx", "orellazri.coda-mcp-npx");
    ("community.jira-npx", "aashari.jira-mcp-npx");
    ("community.1password-npx", "cakerepository.1password-mcp-npx") ].

Definition remap (basename : string) : option string :=
  match find (fun kv => String.eqb (fst kv) basename) COMMUNITY_REMAP with
  | Some kv => Some (snd kv)
  | None => None
  end.

(** One entry of [renames_done]: [(basename, new_id, old_id)]. *)
Definition remapping : Type := (string * string * json)%type.

Section WithRuntime.
Variable lib : pylib.

Local Open Scope prog_scope.

(** [subprocess.check_output(args, text=True)] *)
Definition check_output (args : list string) : prog (res string) :=
  r <- subprocess_run (Argv args) ;;
  if Z.eqb (returncode r) 0 then Ret (ok (stdout r))
  else Ret (raise (CalledProcessError (returncode r))).

Definition stem (f : string) : string :=
  PyStr.replace ".json" "" (os_path_basename lib f).

(** The body of the second [for f in new_files]. *)
Definition remap_file (f : string) : prog (res (option remapping)) :=
  let basename := stem f in
  match remap basename with
  | None => Ret (ok None)
  | Some new_id =>
      let new_filename := ("servers/" ++ new_id ++ ".json")%string in
      (* Read and update *)
      loaded <- json_load f ;;
      match loaded with
      | inl e => Ret (raise e)
      | inr defn =>
          match (old_id <- Py.getitem defn "id" ;;
                 defn' <- Py.setitem defn "id" (JStr new_id) ;;
                 ok (old_id, defn'))%res with
          | inl e => Ret (raise e)
          | inr (old_id, defn') =>
              written <- json_dump f defn' ;;
              match written with
              | Some e => Ret (raise e)
              | None =>
                  (* Git mv *)
                  subprocess_run (Argv ["git"; "mv"; f; new_filename]) ;;
                  Ret (ok (Some (basename, new_id, old_id)))
              end
          end
      end
  end.

Fixpoint remap_files (new_files : list string)
         (renames_done : list remapping) : prog (res (list remapping)) :=
  match new_files with
  | [] => Ret (ok renames_done)
  | f :: rest =>
      r <- remap_file f ;;
      match r with
      | inl e => Ret (raise e)
      | inr None => remap_files rest renames_done
      | inr (Some x) => remap_files rest (renames_done ++ [x])
      end
  end.

Definition commit_message (renames_done : list remapping) : string :=
  fold_left
    (fun msg '(_, new, old_id) =>
       (msg ++ "- " ++ Py.str lib old_id ++ " -> " ++ new ++ newline)%string)
    renames_done
    ("fix: use GitHub org as ID domain for community definitions"
       ++ newline ++ newline)%string.

Fixpoint report (branch : string) (pushed : bool)
         (renames_done : list remapping)
         (results : list (string * json * string))
  : prog (list (string * json * string)) :=
  match renames_done with
  | [] => Ret results
  | (_, new, old_id) :: rest =>
      let status := if pushed then "OK" else "PUSH_FAIL" in
      print (status ++ " " ++ branch ++ ": " ++ Py.str lib old_id ++ " -> "
             ++ new) ;;
      report branch pushed rest (results ++ [(branch, old_id, new)])
  end.

(** The body of [for branch in sorted(branches)]. *)
Definition remap_branch (main_files : list string) (branch : string)
           (results : list (string * json * string))
  : prog (res (list (string * json * string))) :=
  files_out <- subprocess_run
    (Argv ["git"; "ls-tree"; "-r"; "--name-only"; branch; "--"; "servers/"]) ;;
  if negb (Z.eqb (returncode files_out) 0) then Ret (ok results) else
  let all_files := PyStr.split_lines (PyStr.strip (stdout files_out)) in
  let new_files :=
    filter (fun f => negb (PyStr.mem f main_files)
                     && PyStr.endswith f ".json") all_files in
  match new_files with
  | [] => Ret (ok results)
  | _ :: _ =>
  (* Check if any file needs ID remap *)
  let needs_fix :=
    existsb (fun f => match remap (stem f) with Some _ => true | None => false end)
            new_files in
  if negb needs_fix then Ret (ok results) else
  (* Checkout *)
  subprocess_run (Argv ["git"; "checkout"; branch]) ;;
  r <- remap_files new_files [] ;;
  match r with
  | inl e => Ret (raise e)
  | inr [] => Ret (ok results)
  | inr renames_done =>
      subprocess_run (Argv ["git"; "add"; "-A"]) ;;
      subprocess_run
        (Argv ["git"; "commit"; "-s";
               "--author=Mohammod Al Amin Ashik <maa.ashik00@gmail.com>";
               "-m"; commit_message renames_done]) ;;
      push <- subprocess_run (Argv ["git"; "push"; "origin"; branch]) ;;
      results <- report branch (Z.eqb (returncode push) 0) renames_done results ;;
      Ret (ok results)
  end
  end.

Fixpoint remap_branches (main_files branches : list string)
         (results : list (string * json * string))
  : prog (res (list (string * json * string))) :=
  match branches with
  | [] => Ret (ok results)
  | branch :: rest =>
      r <- remap_branch main_files branch results ;;
      match r with
      | inl e => Ret (raise e)
      | inr results => remap_branches main_files rest results
      end
  end.

(** The script, top to bottom. *)
Definition main : prog (res (list (string * json * string))) :=
  ls <- check_output ["git"; "ls-tree"; "-r"; "--name-only"; "main"; "--";
                      "servers/"] ;;
  match ls with
  | inl e => Ret (raise e)
  | inr ls =>
  let main_files := PyStr.split_lines (PyStr.strip ls) in
  listed <- check_output ["git"; "branch"; "--list"; "fix/*"] ;;
  match listed with
  | inl e => Ret (raise e)
  | inr listed =>
  let branches := PyStr.split_lines (PyStr.strip listed) in
  let branches :=
    map (fun b => RenameFiles.lstrip_star (PyStr.strip b))
        (filter (fun b => negb (String.eqb (PyStr.strip b) "")) branches) in
  r <- remap_branches main_files (RenameFiles.sorted branches) [] ;;
  match r with
  | inl e => Ret (raise e)
  | inr results =>
      subprocess_run (Argv ["git"; "checkout"; "main"]) ;;
      print (newline ++ "=== Fixed " ++ str_of_nat (List.length results)
             ++ " community definition IDs ===") ;;
      Ret (ok results)
  end
  end
  end.

End WithRuntime.

End FixIds.

(** ** A simulated repository

    A small deterministic stand-in for git and the file system, used to
    run the scripts on concrete scenarios.  The state is the checked-out
    branch, the local branches, whether a rebase is stopped on a conflict,
    whether tracked files are modified, and the working tree; the
    remaining fields script how the remote side answers. *)
Module Sim.

Record world : Type := World {
  head : string;
  locals : list string;
  rebasing : bool;
  dirty : bool;
  tree : list (string * res json);
  refs : string;               (* what [git for-each-ref] prints      *)
  remotes : list string;       (* remote branches that exist          *)
  conflicting : list string;   (* local branches whose rebase stops   *)
  changed : string;            (* what [git diff --name-only] prints  *)
  listing : string;            (* what [git ls-tree] prints           *)
  push_answer : completed      (* how the remote answers a push       *)
}.

Definition with_state (w : world) (h : string) (l : list string)
           (r d : bool) (t : list (string * res json)) : world :=
  World h l r d t (refs w) (remotes w) (conflicting w) (changed w)
        (listing w) (push_answer w).

Definition done (out : string) : completed := Completed 0 out "".
Definition failed (code : Z) (err : string) : completed :=
  Completed code "" err.

Fixpoint lookup_file (p : string) (t : list (string * res json))
  : option (res json) :=
  match t with
  | [] => None
  | (q, c) :: r => if String.eqb q p then Some c else lookup_file p r
  end.

Fixpoint write_file (p : string) (c : res json) (t : list (string * res json))
  : list (string * res json) :=
  match t with
  | [] => [(p, c)]
  | (q, c') :: r =>
      if String.eqb q p then (q, c) :: r else (q, c') :: write_file p c r
  end.

Definition remove_file (p : string) (t : list (string * res json))
  : list (string * res json) :=
  filter (fun qc => negb (String.eqb (fst qc) p)) t.

(** The text before the first blank. *)
Fixpoint first_word (s : string) : string :=
  match s with
  | EmptyString => EmptyString
  | String c r => if Ascii.eqb c " "%char then EmptyString
                  else String c (first_word r)
  end.

Definition shell (line : string) (w : world) : completed * world :=
  if PyStr.has_prefix "git branch -D " line then
    let b := PyStr.drop 14 line in
    if PyStr.mem b (locals w) && negb (String.eqb b (head w)) then
      (done ("Deleted branch " ++ b),
       with_state w (head w)
         (filter (fun x => negb (String.eqb x b)) (locals w))
         (rebasing w) (dirty w) (tree w))
    else (failed 1 ("error: branch '" ++ b ++ "' not found."), w)
  else if PyStr.has_prefix "git checkout -b " line then
    let b := first_word (PyStr.drop 16 line) in
    let from := PyStr.drop (16 + String.length b + 8) line in
    if PyStr.mem from (remotes w) && negb (PyStr.mem b (locals w)) then
      (done "", with_state w b (b :: locals w) (rebasing w) (dirty w) (tree w))
    else (failed 128 ("fatal: '" ++ from ++ "' is not a commit"), w)
  else if String.eqb line "git rebase main" then
    if PyStr.mem (head w) (conflicting w) then
      (failed 1 "CONFLICT (content): Merge conflict in servers",
       with_state w (head w) (locals w) true true (tree w))
    else (done "Successfully rebased", w)
  else if String.eqb line "git rebase --abort" then
    if rebasing w then
      (done "", with_state w (head w) (locals w) false false (tree w))
    else (failed 128 "fatal: No rebase in progress?", w)
  else if String.eqb line "git checkout main" then
    if dirty w then
      (failed 1 "error: Your local changes would be overwritten by checkout",
       w)
    else (done "", with_state w "main" (locals w) (rebasing w) false (tree w))
  else if PyStr.has_prefix "git diff main --name-only" line then
    (done (changed w), w)
  else if String.eqb line "git add -A" then (done "", w)
  else if PyStr.has_prefix "git commit -m " line then
    if dirty w then
      (done "", with_state w (head w) (locals w) (rebasing w) false (tree w))
    else (failed 1 "nothing to commit, working tree clean", w)
  else if PyStr.has_prefix "git push -u origin " line then (push_answer w, w)
  else if PyStr.has_prefix "git for-each-ref " line then (done (refs w), w)
  else (failed 127 "command not found", w).

Definition argv (args : list string) (w : world) : completed * world :=
  match args with
  | ["git"; "mv"; a; b] =>
      match lookup_file a (tree w), lookup_file b (tree w) with
      | Some c, None =>
          (done "", with_state w (head w) (locals w) (rebasing w) true
                      (write_file b c (remove_file a (tree w))))
      | Some _, Some _ => (failed 128 "fatal: destination exists", w)
      | None, _ => (failed 128 "fatal: bad source", w)
      end
  | "git" :: "ls-tree" :: _ => (done (listing w), w)
  | ["git"; "checkout"; b] =>
      if PyStr.mem b (locals w) || String.eqb b "main" then
        (done "", with_state w b (locals w) (rebasing w) (dirty w) (tree w))
      else (failed 1 "error: pathspec did not match", w)
  | ["git"; "add"; "-A"] => (done "", w)
  | "git" :: "commit" :: _ =>
      if dirty w then
        (done "", with_state w (head w) (locals w) (rebasing w) false (tree w))
      else (failed 1 "nothing to commit, working tree clean", w)
  | "git" :: "push" :: _ => (push_answer w, w)
  | _ => (failed 127 "command not found", w)
  end.

Definition git : handler world :=
  Handler
    (fun c w => match c with Shell l => shell l w | Argv a => argv a w end)
    (fun p w => match lookup_file p (tree w) with
                | Some c => c
                | None => raise (EnvError "[Errno 2] No such file or directory")
                end)
    (fun p d w => (None, with_state w (head w) (locals w) (rebasing w) true
                           (write_file p (ok d) (tree w))))
    (fun p w => match lookup_file p (tree w) with
                | Some _ => true
                | None => false
                end).

Definition has_branch (w : world) (b : string) : bool :=
  PyStr.mem b (locals w).

Definition clean (w : world) : bool :=
  negb (dirty w) && negb (rebasing w).

(** The part of a path after the last slash. *)
Fixpoint after_slash (s : string) : string :=
  match s with
  | EmptyString => EmptyString
  | String c r =>
      if PyStr.contains "/" r then after_slash r
      else if Ascii.eqb c "/"%char then r else s
  end.

(** A runtime for the scenarios: paths stay relative to the repository
    root, and values are shown by a fixed placeholder. *)
Definition runtime : pylib :=
  PyLib (fun _ => "<repr>") (fun _ => "<exception>") (fun _ f => f)
        after_slash.

(** A repository on [main] with a clean tree. *)
Definition repo (t : list (string * res json)) (refs : string)
           (remotes conflicting : list string) (changed listing : string)
           (push_answer : completed) : world :=
  World "main" [] false false t refs remotes conflicting changed listing
        push_answer.

End Sim.

(** ** Notions used to state the properties *)

(** [f] applied to the object bound to [k] in [obj] (or to [default]),
    with the in-place change carried back to [obj]: the shape of one
    level of [data.get(k, default)] followed by a mutation below it. *)
Definition through (k : string) (default : json)
           (f : json -> res (json * list string)) (obj : json)
  : res (json * list string) :=
  (child <- Py.get obj k default ;;
   '(child', fixes) <- f child ;;
   ok (Py.mutated obj k child', fixes))%res.

(** The inputs a record declares: the items of
    [transport.metadata.inputs] when that is a list. *)
Definition field_of (k : string) (obj : json) : json :=
  match obj with
  | JObj d => match Dict.get k d with Some v => v | None => JNull end
  | _ => JNull
  end.

Definition record_inputs (data : json) : list json :=
  match field_of "inputs" (field_of "metadata" (field_of "transport" data)) with
  | JArr l => l
  | _ => []
  end.

(** The declared type of an input is in the enumeration. *)
Definition type_valid (inp : json) : bool :=
  Py.in_strs (field_of "type" inp) FixEngine.VALID_INPUT_TYPES.

(** [data["links"][field]] is the string [url]. *)
Definition link_is (d : list (string * json)) (field url : string) : Prop :=
  exists ld, Dict.get "links" d = Some (JObj ld)
             /\ Dict.get field ld = Some (JStr url).

(** The items of a JSON list; nothing for any other value. *)
Definition items (v : json) : list json :=
  match v with
  | JArr l => l
  | _ => []
  end.

(** What the specification asks of the input-type repair, in its own
    words: an input whose type is outside the enumeration gets the type
    [text] ... *)
Definition coerced (inp : json) : json :=
  if type_valid inp then inp
  else match inp with
       | JObj d => JObj (Dict.set "type" (JStr "text") d)
       | _ => inp
       end.

(** ... and one entry names it by its own identifier. *)
Definition input_entry (lib : pylib) (inp : json) : string :=
  "input type '" ++ Py.str lib (field_of "type" inp) ++ "' -> 'text' for "
    ++ Py.str lib (field_of "id" inp).

(** The input carries an identifier. *)
Definition has_id (inp : json) : Prop :=
  exists d i, inp = JObj d /\ Dict.get "id" d = Some i.

(** Every offending input of the list carries one. *)
Definition offenders_named (l : list json) : Prop :=
  forall inp, In inp l -> type_valid inp = false -> has_id inp.

Definition input_entries (lib : pylib) (l : list json) : list string :=
  map (input_entry lib) (filter (fun inp => negb (type_valid inp)) l).

(** Nothing is left to repair below the transport object [tt]: its
    metadata, when present, is an object whose inputs, when present, pass
    the input-type block unchanged and without a fix. *)
Definition metadata_settled (lib : pylib) (tt : list (string * json)) : Prop :=
  match Dict.get "metadata" tt with
  | None => True
  | Some (JObj md) =>
      match Dict.get "inputs" md with
      | None => True
      | Some i => FixEngine.fix_inputs lib i = ok (i, [])
      end
  | Some _ => False
  end.

(** [data.get('icon', '')] is the string [u]. *)
Definition icon_is (d : list (string * json)) (u : string) : Prop :=
  Py.eq_str (match Dict.get "icon" d with Some v => v | None => JStr "" end) u
  = true.

(** The local [transport] of [fix_definition] is the object bound in the
    record, or the empty default when the record has no transport. *)
Definition attached (d tt : list (string * json)) : Prop :=
  Dict.get "transport" d = Some (JObj tt)
  \/ (Dict.get "transport" d = None /\ tt = []).

(** The entries of the two blocks that do not compare before they
    assign: they are appended on every run. *)
Definition unconditional_fixes (server_id : json) : list string :=
  (if Py.eq_str server_id "com.stytch-mcp"
   then ["repo URL: org page -> specific repo"] else [])
  ++ match Py.lookup server_id FixEngine.PACKAGE_FIXES with
     | inr (Some _) => ["fixed package name"]
     | _ => []
     end.

(** The entries the blocks after the input-type repair can append. *)
Definition later_entries : list string :=
  ["icon updated"; "repo URL fixed"; "doc URL fixed";
   "repo URL: org page -> specific repo"; "fixed package name"].

(** A record on which every block of the Fix Engine has done its work
    for the identifier [sid]. *)
Inductive settled (lib : pylib) (sid : json) (d : list (string * json)) : Prop :=
| Settled (tt : list (string * json)) (oi orp od : option string)
          (op : option (list string)) :
    Py.lookup sid FixEngine.ICON_FIXES = ok oi ->
    Py.lookup sid FixEngine.REPO_FIXES = ok orp ->
    Py.lookup sid FixEngine.DOC_FIXES = ok od ->
    Py.lookup sid FixEngine.PACKAGE_FIXES = ok op ->
    attached d tt ->
    metadata_settled lib tt ->
    (forall u, oi = Some u -> icon_is d u) ->
    (forall u, orp = Some u -> link_is d "repository" u) ->
    (forall u, od = Some u -> link_is d "documentation" u) ->
    (Py.eq_str sid "com.stytch-mcp" = true ->
     link_is d "repository" FixEngine.STYTCH_REPO) ->
    (forall a, op = Some a ->
               Dict.get "transport" d = None
               \/ Dict.get "args" tt = Some (JArr (map JStr a))) ->
    settled lib sid d.

(** Records the engine can process to the end: objects where it calls
    [get], a list of input objects where it iterates, an identifier on
    every input it has to name, an identifier that can be looked up. *)
Definition obj_or_absent (o : option json) : bool :=
  match o with
  | None | Some (JObj _) => true
  | Some _ => false
  end.

Definition input_ok (inp : json) : bool :=
  match inp with
  | JObj d => type_valid inp
              || match Dict.get "id" d with Some _ => true | None => false end
  | _ => false
  end.

Definition hashable (v : json) : bool :=
  match v with
  | JArr _ | JObj _ => false
  | _ => true
  end.

Definition well_formed (data server_id : json) : bool :=
  match data with
  | JObj d =>
      match Dict.get "transport" d with
      | None => true
      | Some (JObj td) =>
          match Dict.get "metadata" td with
          | None => true
          | Some (JObj md) =>
              match Dict.get "inputs" md with
              | None => true
              | Some (JArr l) => forallb input_ok l
              | Some _ => false
              end
          | Some _ => false
          end
      | Some _ => false
      end
      && obj_or_absent (Dict.get "links" d)
      && hashable server_id
  | _ => false
  end.

(** The fix list [fix_definition] holds in memory once the record has
    been loaded and repaired; [None] when loading or repairing raised. *)
Definition computed_fixes {W : Type} (h : handler W) (lib : pylib)
           (path : string) (sid : json) (w : W) : option (list string) :=
  match on_load h path w with
  | inr data =>
      match FixEngine.fix_data lib data sid with
      | inr (_, fixes) => Some fixes
      | inl _ => None
      end
  | inl _ => None
  end.

Definition is_dump (e : event) : bool :=
  match e with
  | EvDump _ _ _ => true
  | _ => false
  end.

(** An input without [id] whose type is outside the enumeration. *)
Definition unnamed_offender (inp : json) : bool :=
  match inp with
  | JObj d => negb (type_valid inp)
              && match Dict.get "id" d with Some _ => false | None => true end
  | _ => false
  end.

Definition is_obj (v : json) : bool :=
  match v with
  | JObj _ => true
  | _ => false
  end.

(** [data["transport"]["metadata"]["inputs"]] is the list [l], through
    objects all the way. *)
Definition declares_inputs (data : json) (l : list json) : Prop :=
  exists d td md,
    data = JObj d
    /\ Dict.get "transport" d = Some (JObj td)
    /\ Dict.get "metadata" td = Some (JObj md)
    /\ Dict.get "inputs" md = Some (JArr l).

(** ** Scenarios *)
Module Scenario.

(** The stytch record, its repository link on the organisation page. *)
Definition stytch_record : json :=
  JObj [("id", JStr "com.stytch-mcp");
        ("links", JObj [("repository", JStr "https://github.com/stytchauth")])].

Definition stytch_fixed : json :=
  JObj [("id", JStr "com.stytch-mcp");
        ("links", JObj [("repository", JStr FixEngine.STYTCH_REPO)])].

(** A record with one input of the unknown type [dir]. *)
Definition dir_record : json :=
  JObj [("id", JStr "community.example");
        ("transport",
         JObj [("type", JStr "stdio"); ("command", JStr "npx");
               ("metadata",
                JObj [("inputs",
                       JArr [JObj [("id", JStr "path"); ("type", JStr "dir")]])])])].

Definition dir_fixed : json :=
  JObj [("id", JStr "community.example");
        ("transport",
         JObj [("type", JStr "stdio"); ("command", JStr "npx");
               ("metadata",
                JObj [("inputs",
                       JArr [JObj [("id", JStr "path"); ("type", JStr "text")]])])])].

(** The same, but the input has no [id]. *)
Definition unnamed_record : json :=
  JObj [("id", JStr "community.example");
        ("transport",
         JObj [("metadata",
                JObj [("inputs", JArr [JObj [("type", JStr "dir")]])])])].

(** Two inputs of the unknown type [dir]: the first has an [id], the
    second has none. *)
Definition half_named_record : json :=
  JObj [("id", JStr "community.example");
        ("transport",
         JObj [("metadata",
                JObj [("inputs",
                       JArr [JObj [("id", JStr "path"); ("type", JStr "dir")];
                             JObj [("type", JStr "dir")]])])])].

(** A stdio record launched by [node], a command the rename script
    has no suffix for. *)
Definition node_record : json :=
  JObj [("id", JStr "com.x-mcp"); ("name", JStr "X");
        ("transport", JObj [("type", JStr "stdio"); ("command", JStr "node")])].

Definition node_renamed : json :=
  JObj [("id", JStr "com.x-mcp-node"); ("name", JStr "X");
        ("transport", JObj [("type", JStr "stdio"); ("command", JStr "node")])].

(** A stdio record launched by [npx]. *)
Definition npx_record : json :=
  JObj [("id", JStr "com.y-mcp"); ("name", JStr "Y");
        ("transport", JObj [("type", JStr "stdio"); ("command", JStr "npx")])].

Definition npx_renamed : json :=
  JObj [("id", JStr "com.y-mcp-npx"); ("name", JStr "Y (npx)");
        ("transport", JObj [("type", JStr "stdio"); ("command", JStr "npx")])].

(** A stdio record launched by [npx] that has no [id]. *)
Definition anonymous_record : json :=
  JObj [("name", JStr "A");
        ("transport", JObj [("type", JStr "stdio"); ("command", JStr "npx")])].

(** A remote record: the transport is an http url. *)
Definition http_record : json :=
  JObj [("id", JStr "com.h-mcp"); ("name", JStr "H");
        ("transport", JObj [("type", JStr "http");
                            ("url", JStr "https://h.example/mcp")])].

(** A community record that the remap table moves under its GitHub
    org. *)
Definition jira_record : json :=
  JObj [("id", JStr "community.jira-npx"); ("name", JStr "Jira (npx)")].

Definition jira_remapped : json :=
  JObj [("id", JStr "aashari.jira-mcp-npx"); ("name", JStr "Jira (npx)")].

(** A stdio record without a command. *)
Definition bare_record : json :=
  JObj [("id", JStr "com.z-mcp"); ("name", JStr "Z");
        ("transport", JObj [("type", JStr "stdio")])].

End Scenario.

(** ** What the pipeline expects of git

    [head_of] is the checked-out branch, [has_branch] tells whether a
    local branch exists, [clean] that no tracked file is modified and no
    operation is in progress.  The contract speaks of the clean-up
    commands only: a rebase that was aborted leaves a clean tree; a
    checkout of [main] that succeeds lands on [main] and keeps a clean
    tree clean; deleting a branch moves nothing else, and removes the
    branch when it succeeds; a failed [checkout -b] stays where it was. *)
Record backend_contract {W : Type} (h : handler W) (head_of : W -> string)
       (has_branch : W -> string -> bool) (clean : W -> bool) : Prop := {
  abort_restores : forall w,
    returncode (fst (on_run h (Shell "git rebase --abort") w)) = 0%Z ->
    clean (snd (on_run h (Shell "git rebase --abort") w)) = true;
  checkout_main_lands : forall w,
    returncode (fst (on_run h (Shell "git checkout main") w)) = 0%Z ->
    head_of (snd (on_run h (Shell "git checkout main") w)) = "main"
    /\ (clean w = true ->
        clean (snd (on_run h (Shell "git checkout main") w)) = true);
  delete_keeps : forall b w,
    head_of (snd (on_run h (Shell ("git branch -D " ++ b)) w)) = head_of w
    /\ clean (snd (on_run h (Shell ("git branch -D " ++ b)) w)) = clean w
    /\ (returncode (fst (on_run h (Shell ("git branch -D " ++ b)) w)) = 0%Z ->
        has_branch (snd (on_run h (Shell ("git branch -D " ++ b)) w)) b = false);
  failed_checkout_stays : forall args w,
    returncode (fst (on_run h (Shell ("git checkout -b " ++ args)) w)) <> 0%Z ->
    head_of (snd (on_run h (Shell ("git checkout -b " ++ args)) w)) = head_of w
}.

(** ** What git prints for the enumeration

    [git for-each-ref --format="%(refname:short)"] prints the short name
    of every ref that matches the pattern, each followed by a line feed,
    in ascending order of ref name.  A ref name has no white space and no
    control character; the pattern [refs/remotes/origin/claude/add-*]
    does not match across a slash, so no name holds [origin/] again. *)
Definition enumerate_command : string :=
  ("git for-each-ref --format=" ++ dquote ++ "%(refname:short)" ++ dquote
     ++ " " ++ dquote ++ "refs/remotes/origin/claude/add-*" ++ dquote)%string.

Fixpoint no_blank (s : string) : bool :=
  match s with
  | EmptyString => true
  | String c r => negb (PyStr.isspace c) && no_blank r
  end.

Definition ref_name (n : string) : bool :=
  negb (String.eqb n "") && no_blank n && negb (PyStr.contains "origin/" n).

Fixpoint ref_lines (names : list string) : string :=
  match names with
  | [] => EmptyString
  | n :: r => ("origin/" ++ n ++ newline ++ ref_lines r)%string
  end.

(** The same lines without the last line feed. *)
Definition joined (names : list string) : string :=
  PyStr.join newline (map (append "origin/") names).

(** Strictly ascending in the order of the character codes. *)
Fixpoint ascending (l : list string) : bool :=
  match l with
  | a :: (b :: _) as r => String.ltb a b && ascending r
  | _ => true
  end.

(** The line of the summary for one result. *)
Definition summary_event (r : FixBranches.branch_result) : event :=
  EvPrint ("  " ++ FixBranches.ljust 20 (FixBranches.r_status r) ++ " "
             ++ FixBranches.r_branch r ++ " ("
             ++ str_of_nat (List.length (match FixBranches.r_fixes r with
                                         | Some l => l
                                         | None => []
                                         end))
             ++ " fixes)")%string.

(** The script's test on the answer of the push, on the raw answer:
    the push failed and its stripped diagnostic mentions [error]. *)
Definition push_error_seen (p : completed) : bool :=
  negb (Z.eqb (returncode p) 0)
  && PyStr.contains "error" (PyStr.lower (PyStr.strip (stderr p))).

Module Worlds.
Import Scenario.

(** One changed record with an input that cannot be named. *)
Definition bad_input : Sim.world :=
  Sim.repo [("servers/bad.json", ok unnamed_record)] "" ["claude/add-bad"] []
           "servers/bad.json" "" (Sim.done "").

(** One changed record whose second offending input cannot be
    named. *)
Definition half_named : Sim.world :=
  Sim.repo [("servers/half.json", ok half_named_record)] ""
           ["claude/add-half"] [] "servers/half.json" "" (Sim.done "").

(** The stytch record as a first run of the engine has left it. *)
Definition stytch_settled : Sim.world :=
  Sim.repo [("servers/com.stytch-mcp.json", ok stytch_fixed)] ""
           ["claude/add-stytch"] [] "servers/com.stytch-mcp.json" ""
           (Sim.done "").

(** The remote refuses the push and says so without the word
    [error]. *)
Definition push_refused : Sim.world :=
  Sim.repo [("servers/x.json", ok dir_record)] "" ["claude/add-x"] []
           "servers/x.json" ""
           (Sim.failed 128 "fatal: unable to access 'https://github.com/': timed out").

(** The remote rejects the push with git's usual [error:] line. *)
Definition push_rejected : Sim.world :=
  Sim.repo [("servers/x.json", ok dir_record)] "" ["claude/add-x"] []
           "servers/x.json" ""
           (Sim.failed 1 "error: failed to push some refs to 'origin'").

(** The rebase of the contributed branch stops on a conflict. *)
Definition conflict : Sim.world :=
  Sim.repo [("servers/x.json", ok dir_record)] "" ["claude/add-x"] ["fix/x"]
           "servers/x.json" "" (Sim.done "").

(** The contributed branch is gone from the remote. *)
Definition no_remote : Sim.world :=
  Sim.repo [] "" [] [] "" "" (Sim.done "").

(** The contributed branch changes nothing under [servers/]. *)
Definition nothing_changed : Sim.world :=
  Sim.repo [] "" ["claude/add-x"] [] "" "" (Sim.done "").

(** Two contributed branches, listed as git lists them: one short
    ref name per line, in ascending order. *)
Definition two_branches : Sim.world :=
  Sim.repo [] ("origin/claude/add-a" ++ newline ++ "origin/claude/add-b"
                 ++ newline)
           ["claude/add-a"; "claude/add-b"] [] "" "" (Sim.done "").

(** A fix branch with the [node] record as its new file. *)
Definition node_tool : Sim.world :=
  Sim.repo [("servers/com.x-mcp.json", ok node_record)] "" [] []
           "" "servers/com.x-mcp.json" (Sim.done "").

(** The [npx] record, and a file already at the name it would move
    to: [git mv] refuses. *)
Definition move_blocked : Sim.world :=
  Sim.repo [("servers/com.y-mcp.json", ok npx_record);
            ("servers/com.y-mcp-npx.json", ok npx_record)] "" [] []
           "" "servers/com.y-mcp.json" (Sim.done "").

(** A fix branch with the record that has no [id], the http record,
    and a file that is no JSON. *)
Definition mixed_files : Sim.world :=
  Sim.repo [("servers/com.a-mcp.json", ok anonymous_record);
            ("servers/com.h-mcp.json", ok http_record);
            ("servers/com.y-mcp.json", ok npx_record);
            ("servers/com.broken.json",
             raise (EnvError "Expecting value: line 1 column 1 (char 0)"))]
           "" [] [] "" "" (Sim.done "").

(** A fix branch with the community jira record; the name it would
    move to is taken. *)
Definition remap_blocked : Sim.world :=
  Sim.repo [("servers/community.jira-npx.json", ok jira_record);
            ("servers/aashari.jira-mcp-npx.json", ok jira_record)]
           "" [] [] "" "" (Sim.done "").

(** A local fix branch [fix/x] with the [node] record, listed by
    [git ls-tree]; the remote accepts the push. *)
Definition local_branch : Sim.world :=
  Sim.World "main" ["fix/x"] false false
            [("servers/com.x-mcp.json", ok node_record)] "" [] []
            "" "servers/com.x-mcp.json" (Sim.done "").

(** One changed record to repair; the remote accepts the push. *)
Definition one_record : Sim.world :=
  Sim.repo [("servers/x.json", ok dir_record)] "" ["claude/add-x"] []
           "servers/x.json" "" (Sim.done "").

(** The same git, in a checkout where commits are refused because no
    identity is configured: [git commit] fails and leaves the tree as
    it is. *)
Definition refusing_commits : handler Sim.world :=
  Handler
    (fun c w =>
       match c with
       | Shell l =>
           if PyStr.has_prefix "git commit" l
           then (Sim.failed 128 "fatal: unable to auto-detect email address", w)
           else Sim.shell l w
       | Argv a => Sim.argv a w
       end)
    (on_load Sim.git) (on_dump Sim.git) (on_exists Sim.git).

(** A local fix branch with the community jira record; the remote
    rejects the push. *)
Definition remap_unpushed : Sim.world :=
  Sim.World "main" ["fix/jira"] false false
            [("servers/community.jira-npx.json", ok jira_record)] "" [] []
            "" "servers/community.jira-npx.json"
            (Sim.failed 1 "error: failed to push some refs to 'origin'").

(** A repository where [git for-each-ref] prints nothing. *)
Definition no_branches : Sim.world :=
  Sim.repo [] "" [] [] "" "" (Sim.done "").

(** A fix branch with the record that names no command. *)
Definition no_command : Sim.world :=
  Sim.repo [("servers/com.z-mcp.json", ok bare_record)] "" [] []
           "" "servers/com.z-mcp.json" (Sim.done "").

End Worlds.

(** ** What the rename scripts expect of the file store

    A record that was written is read back, and a [git mv] that fails
    leaves every file as it was. *)
Record store_contract {W : Type} (h : handler W) : Prop := {
  read_after_write : forall p d w,
    fst (on_dump h p d w) = None ->
    on_load h p (snd (on_dump h p d w)) = inr d;
  failed_move_keeps_files : forall a b w p,
    returncode (fst (on_run h (Argv ["git"; "mv"; a; b]) w)) <> 0%Z ->
    on_load h p (snd (on_run h (Argv ["git"; "mv"; a; b]) w)) = on_load h p w
}.

(** What [run] makes of the answer of the subprocess. *)
Definition run_answer (check : bool) (r : completed) : option string * string :=
  if check && negb (Z.eqb (returncode r) 0)
  then (None, PyStr.strip (stderr r))
  else (Some (PyStr.strip (stdout r)), PyStr.strip (stderr r)).

(** A program that starts no subprocess. *)
Fixpoint quiet {A : Type} (p : prog A) : Prop :=
  match p with
  | Ret _ => True
  | Subprocess _ _ => False
  | JsonLoad _ k => forall r, quiet (k r)
  | JsonDump _ _ k => forall r, quiet (k r)
  | PathExists _ k => forall r, quiet (k r)
  | Print _ k => quiet k
  end.

(** ** Notions used by the further properties *)

(** [obj.get(k)] when [obj] is an object. *)
Definition key_of (k : string) (obj : json) : option json :=
  match obj with
  | JObj d => Dict.get k d
  | _ => None
  end.

(** The transport object of a record, the empty object when there is
    none: [data.get('transport', {})]. *)
Definition transport_of (data : json) : json :=
  match key_of "transport" data with
  | Some t => t
  | None => JObj []
  end.

(** * Properties *)

Unset Implicit Arguments.

(** ** Dictionaries *)
Module DictFacts.

Lemma get_set_same k v d : Dict.get k (Dict.set k v d) = Some v.
Proof.
  induction d as [|[k' v'] d IH]; simpl.
  - now rewrite String.eqb_refl.
  - destruct (String.eqb k' k) eqn:E; simpl; rewrite E; auto.
Qed.

Lemma get_set_other k k' v d :
  k <> k' -> Dict.get k' (Dict.set k v d) = Dict.get k' d.
Proof.
  intros Hne. induction d as [|[k0 v0] d IH]; simpl.
  - destruct (String.eqb k k') eqn:E; auto.
    apply String.eqb_eq in E. contradiction.
  - destruct (String.eqb k0 k) eqn:E; simpl.
    + apply String.eqb_eq in E. subst k0.
      destruct (String.eqb k k') eqn:E'; auto.
      apply String.eqb_eq in E'. contradiction.
    + now rewrite IH.
Qed.

Lemma set_same k v d : Dict.get k d = Some v -> Dict.set k v d = d.
Proof.
  induction d as [|[k' v'] d IH]; simpl; [discriminate|].
  destruct (String.eqb k' k) eqn:E.
  - intros [= ->]. reflexivity.
  - intros H. now rewrite IH.
Qed.

Lemma set_set k v v' d : Dict.set k v (Dict.set k v' d) = Dict.set k v d.
Proof.
  induction d as [|[k0 v0] d IH]; simpl.
  - now rewrite String.eqb_refl.
  - destruct (String.eqb k0 k) eqn:E; simpl; rewrite E; [reflexivity|].
    now rewrite IH.
Qed.

End DictFacts.

(** ** The Fix Engine, block by block *)
Module FixEngineFacts.
Import FixEngine DictFacts.

Ltac inv_ok :=
  repeat match goal with
         | H : inl _ = inr _ |- _ => discriminate H
         | H : raise _ = ok _ |- _ => discriminate H
         | H : ok _ = ok _ |- _ => apply (f_equal (fun x => match x with inr a => Some a | inl _ => None end)) in H; simpl in H; injection H as H
         | H : (_, _) = (_, _) |- _ => injection H as ? ?
         end; subst.

Section WithRuntime.
Variable lib : pylib.

Lemma fix_input_spec inp inp' f :
  fix_input lib inp = ok (inp', f) ->
  inp' = coerced inp
  /\ f = (if type_valid inp then [] else [input_entry lib inp])
  /\ type_valid inp' = true
  /\ fix_input lib inp' = ok (inp', [])
  /\ (type_valid inp = false -> has_id inp).
Proof.
  unfold fix_input, coerced, type_valid, input_entry.
  destruct inp as [| | | | |d]; simpl; try discriminate.
  destruct (Py.in_strs (match Dict.get "type" d with
                        | Some v => v | None => JNull end)
                       VALID_INPUT_TYPES) eqn:V; simpl.
  - intros H. inv_ok. simpl. rewrite V. repeat split; auto. discriminate.
  - rewrite get_set_other by discriminate.
    destruct (Dict.get "id" d) as [i|] eqn:I; simpl; [|discriminate].
    intros H. inv_ok. simpl. rewrite get_set_same. simpl.
    repeat split; auto. intros _. exists d, i. auto.
Qed.

Lemma fix_input_list_spec l : forall l' f,
  fix_input_list lib l = ok (l', f) ->
  l' = map coerced l
  /\ f = input_entries lib l
  /\ forallb type_valid l' = true
  /\ fix_input_list lib l' = ok (l', [])
  /\ offenders_named l.
Proof.
  induction l as [|inp l IH]; simpl; intros l' f H.
  - inv_ok. simpl. repeat split; auto. intros ? [].
  - destruct (fix_input lib inp) as [e|[inp1 f1]] eqn:E1; simpl in H;
      [discriminate|].
    destruct (fix_input_list lib l) as [e|[l1 f2]] eqn:E2; simpl in H;
      [discriminate|].
    inv_ok.
    apply fix_input_spec in E1 as (-> & -> & V1 & I1 & N1).
    destruct (IH _ _ eq_refl) as (-> & -> & V2 & I2 & N2).
    simpl. rewrite V1, V2, I1. simpl. rewrite I2. simpl.
    repeat split; auto.
    + unfold input_entries. simpl.
      destruct (type_valid inp); reflexivity.
    + intros x [<-|Hx]; auto.
Qed.

Lemma fix_inputs_spec i i' f :
  fix_inputs lib i = ok (i', f) ->
  items i' = map coerced (items i)
  /\ f = input_entries lib (items i)
  /\ forallb type_valid (items i') = true
  /\ fix_inputs lib i' = ok (i', [])
  /\ offenders_named (items i).
Proof.
  destruct i as [| | |s|l|d]; simpl; try discriminate.
  - destruct s; [|discriminate]. intros H. inv_ok. simpl.
    repeat split; auto. intros ? [].
  - destruct (fix_input_list lib l) as [e|[l1 f1]] eqn:E; simpl;
      [discriminate|].
    intros H. inv_ok.
    apply fix_input_list_spec in E as (-> & -> & V & I & N).
    simpl. rewrite I. simpl. auto.
  - destruct d as [|[k v] d]; [|discriminate].
    intros H. inv_ok. simpl. repeat split; auto. intros ? [].
Qed.

(** The input-type block: what it returns, what it leaves alone,
    and that nothing is left for a second pass. *)
Lemma fix_input_types_spec data d1 tr fx :
  fix_input_types lib data = ok (d1, tr, fx) ->
  exists d dd tt,
    data = JObj d /\ d1 = JObj dd /\ tr = JObj tt
    /\ (forall k, k <> "transport" -> Dict.get k dd = Dict.get k d)
    /\ (Dict.get "transport" dd = Some tr
        \/ (Dict.get "transport" dd = None /\ tt = []))
    /\ metadata_settled lib tt
    /\ record_inputs d1 = map coerced (record_inputs data)
    /\ fx = input_entries lib (record_inputs data)
    /\ forallb type_valid (record_inputs d1) = true
    /\ offenders_named (record_inputs data).
Proof.
  assert (N0 : offenders_named []) by (intros ? []).
  unfold fix_input_types.
  destruct data as [| | | | |d]; simpl; try discriminate.
  destruct (Dict.get "transport" d) as [t|] eqn:T; simpl.
  2:{ intros H. inv_ok. exists d, d, []. unfold record_inputs. simpl.
      rewrite T. simpl. unfold metadata_settled. simpl. intuition. }
  destruct t as [| | | | |td]; simpl; try discriminate.
  destruct (Dict.get "metadata" td) as [m|] eqn:M; simpl.
  2:{ intros H. inv_ok. exists d, d, td.
      rewrite (set_same _ _ _ T).
      unfold record_inputs, metadata_settled. simpl.
      rewrite T. simpl. rewrite M. simpl. intuition. }
  destruct m as [| | | | |md]; simpl; try discriminate.
  destruct (Dict.get "inputs" md) as [i|] eqn:I; simpl.
  2:{ intros H. inv_ok. exists d, d, td.
      rewrite (set_same _ _ _ M), (set_same _ _ _ T).
      unfold record_inputs, metadata_settled. simpl.
      rewrite T. simpl. rewrite M. simpl. rewrite I. simpl. intuition. }
  destruct (fix_inputs lib i) as [e|[i' f]] eqn:F; simpl; [discriminate|].
  intros H. inv_ok.
  apply fix_inputs_spec in F as (Hi & -> & V & F' & N).
  eexists d, _, _. repeat split.
  - intros k Hk. apply get_set_other. congruence.
  - left. apply get_set_same.
  - unfold metadata_settled. rewrite get_set_same, get_set_same. exact F'.
  - unfold record_inputs. simpl. rewrite T, get_set_same. simpl.
    rewrite M, get_set_same. simpl. rewrite I, get_set_same.
    destruct i'; destruct i; simpl in *; auto; try discriminate;
      try (symmetry in Hi; apply map_eq_nil in Hi; now subst).
  - unfold record_inputs. simpl. rewrite T. simpl. rewrite M. simpl.
    rewrite I. destruct i; reflexivity.
  - unfold record_inputs. simpl. rewrite get_set_same. simpl.
    rewrite get_set_same. simpl. rewrite get_set_same.
    destruct i'; auto.
  - unfold record_inputs. simpl. rewrite T. simpl. rewrite M. simpl.
    rewrite I. destruct i; auto.
Qed.

(** A record whose transport is settled passes the block silently. *)
Lemma fix_input_types_settled dd tt :
  metadata_settled lib tt ->
  Dict.get "transport" dd = Some (JObj tt)
  \/ (Dict.get "transport" dd = None /\ tt = []) ->
  fix_input_types lib (JObj dd) = ok (JObj dd, JObj tt, []).
Proof.
  unfold metadata_settled, fix_input_types. intros S [T|[T ->]]; simpl;
    rewrite T; simpl; [|reflexivity].
  destruct (Dict.get "metadata" tt) as [m|] eqn:M; simpl.
  2:{ now rewrite (set_same _ _ _ T). }
  destruct m as [| | | | |md]; try contradiction. simpl.
  destruct (Dict.get "inputs" md) as [i|] eqn:I; simpl.
  2:{ now rewrite (set_same _ _ _ M), (set_same _ _ _ T). }
  rewrite S. simpl.
  now rewrite (set_same _ _ _ I), (set_same _ _ _ M), (set_same _ _ _ T).
Qed.

Lemma record_inputs_frame d d' :
  Dict.get "transport" d' = Dict.get "transport" d ->
  record_inputs (JObj d') = record_inputs (JObj d).
Proof. unfold record_inputs. simpl. now intros ->. Qed.

(** *** The icon block *)
Lemma fix_icon_spec d sid data' fx :
  fix_icon (JObj d) sid = ok (data', fx) ->
  exists d' oi,
    Py.lookup sid ICON_FIXES = ok oi /\ data' = JObj d'
    /\ (forall k, k <> "icon" -> Dict.get k d' = Dict.get k d)
    /\ (forall u, oi = Some u -> icon_is d' u)
    /\ incl fx ["icon updated"].
Proof.
  unfold fix_icon, icon_is. simpl.
  destruct (Py.lookup sid ICON_FIXES) as [e|oi]; simpl; [discriminate|].
  destruct oi as [u|].
  - destruct (Py.eq_str _ u) eqn:E; simpl; intros H; inv_ok.
    + exists d, (Some u). repeat split; auto.
      * intros u' [= <-]. exact E.
      * apply incl_nil_l.
    + exists (Dict.set "icon" (JStr u) d), (Some u). repeat split.
      * intros k Hk. apply get_set_other. congruence.
      * intros u' [= <-]. rewrite get_set_same. simpl.
        apply String.eqb_refl.
      * apply incl_refl.
  - intros H. inv_ok. exists d, None. repeat split; auto.
    + discriminate.
    + apply incl_nil_l.
Qed.

Lemma fix_icon_silent d sid oi :
  Py.lookup sid ICON_FIXES = ok oi ->
  (forall u, oi = Some u -> icon_is d u) ->
  fix_icon (JObj d) sid = ok (JObj d, []).
Proof.
  unfold fix_icon, icon_is. simpl. intros -> H. simpl.
  destruct oi as [u|]; [|reflexivity].
  now rewrite (H u eq_refl).
Qed.

(** *** The link blocks *)
Lemma link_is_set d ld field url :
  link_is (Dict.set "links" (JObj (Dict.set field (JStr url) ld)) d) field url.
Proof. exists (Dict.set field (JStr url) ld). now rewrite !get_set_same. Qed.

Lemma link_is_other d ld field url f' u' :
  f' <> field ->
  match Dict.get "links" d with Some v => v | None => JObj [] end = JObj ld ->
  link_is d f' u' ->
  link_is (Dict.set "links" (JObj (Dict.set field (JStr url) ld)) d) f' u'.
Proof.
  intros Hne Hl (ld' & L & F). rewrite L in Hl. injection Hl as <-.
  exists (Dict.set field (JStr url) ld'). rewrite get_set_same.
  split; [reflexivity|]. rewrite get_set_other by congruence. exact F.
Qed.

Lemma fix_link_spec d field url e data' fx :
  fix_link (JObj d) field url e = ok (data', fx) ->
  exists d',
    data' = JObj d' /\ link_is d' field url
    /\ (forall k, k <> "links" -> Dict.get k d' = Dict.get k d)
    /\ (forall f' u', f' <> field -> link_is d f' u' -> link_is d' f' u')
    /\ incl fx [e].
Proof.
  unfold fix_link. simpl.
  destruct (match Dict.get "links" d with Some v => v | None => JObj [] end)
    as [| | | | |ld] eqn:L; simpl; try discriminate.
  destruct (Py.eq_str _ url) eqn:E; simpl; intros H; inv_ok.
  - exists d. repeat split; auto; [|apply incl_nil_l].
    destruct (Dict.get "links" d) as [v|] eqn:G.
    + subst v. exists ld. split; [exact G|].
      destruct (Dict.get field ld) as [[| | |s| |]|]; simpl in E;
        try discriminate.
      apply String.eqb_eq in E. now subst.
    + injection L as <-. simpl in E. discriminate.
  - eexists. repeat split.
    + apply link_is_set.
    + intros k Hk. apply get_set_other. congruence.
    + intros f' u' Hne. now apply link_is_other.
    + apply incl_refl.
Qed.

Lemma fix_link_silent d field url e :
  link_is d field url -> fix_link (JObj d) field url e = ok (JObj d, []).
Proof.
  intros (ld & L & F). unfold fix_link. simpl. rewrite L. simpl.
  rewrite F. simpl. now rewrite String.eqb_refl.
Qed.

Lemma fix_stytch_spec d sid data' fx :
  fix_stytch (JObj d) sid = ok (data', fx) ->
  exists d',
    data' = JObj d'
    /\ (forall k, k <> "links" -> Dict.get k d' = Dict.get k d)
    /\ (forall f' u', f' <> "repository" ->
                      link_is d f' u' -> link_is d' f' u')
    /\ (Py.eq_str sid "com.stytch-mcp" = true ->
        link_is d' "repository" STYTCH_REPO)
    /\ (Py.eq_str sid "com.stytch-mcp" = false -> d' = d)
    /\ fx = (if Py.eq_str sid "com.stytch-mcp"
             then ["repo URL: org page -> specific repo"] else []).
Proof.
  unfold fix_stytch.
  destruct (Py.eq_str sid "com.stytch-mcp"); simpl.
  - destruct (match Dict.get "links" d with Some v => v | None => JObj [] end)
      as [| | | | |ld] eqn:L; simpl; try discriminate.
    intros H. inv_ok. eexists. repeat split.
    + intros k Hk. apply get_set_other. congruence.
    + intros f' u' Hne. now apply link_is_other.
    + intros _. apply link_is_set.
    + discriminate.
  - intros H. inv_ok. exists d. repeat split; auto. discriminate.
Qed.

Lemma fix_stytch_again d sid :
  (Py.eq_str sid "com.stytch-mcp" = true ->
   link_is d "repository" STYTCH_REPO) ->
  fix_stytch (JObj d) sid
  = ok (JObj d, if Py.eq_str sid "com.stytch-mcp"
                then ["repo URL: org page -> specific repo"] else []).
Proof.
  unfold fix_stytch. destruct (Py.eq_str sid "com.stytch-mcp"); auto.
  intros H. destruct (H eq_refl) as (ld & L & F). simpl. rewrite L. simpl.
  now rewrite (set_same _ _ _ F), (set_same _ _ _ L).
Qed.

Lemma link_is_frame d d' field url :
  Dict.get "links" d' = Dict.get "links" d ->
  link_is d field url -> link_is d' field url.
Proof. intros E (ld & L & F). exists ld. now rewrite E. Qed.

Lemma icon_is_frame d d' u :
  Dict.get "icon" d' = Dict.get "icon" d -> icon_is d u -> icon_is d' u.
Proof. unfold icon_is. now intros ->. Qed.

Lemma attached_frame d d' tt :
  Dict.get "transport" d' = Dict.get "transport" d ->
  attached d tt -> attached d' tt.
Proof. unfold attached. now intros ->. Qed.

Lemma fix_repo_url_spec d sid data' fx :
  fix_repo_url (JObj d) sid = ok (data', fx) ->
  exists d' o,
    Py.lookup sid REPO_FIXES = ok o /\ data' = JObj d'
    /\ (forall k, k <> "links" -> Dict.get k d' = Dict.get k d)
    /\ (forall u, o = Some u -> link_is d' "repository" u)
    /\ (forall f' u', f' <> "repository" ->
                      link_is d f' u' -> link_is d' f' u')
    /\ incl fx ["repo URL fixed"].
Proof.
  unfold fix_repo_url.
  destruct (Py.lookup sid REPO_FIXES) as [?|[u|]]; simpl; try discriminate.
  - intros H. apply fix_link_spec in H as (d' & -> & L & Fr & Ot & I).
    exists d', (Some u). repeat split; auto. now intros ? [= <-].
  - intros H. inv_ok. exists d, None. repeat split; auto.
    + discriminate.
    + apply incl_nil_l.
Qed.

Lemma fix_repo_url_silent d sid o :
  Py.lookup sid REPO_FIXES = ok o ->
  (forall u, o = Some u -> link_is d "repository" u) ->
  fix_repo_url (JObj d) sid = ok (JObj d, []).
Proof.
  unfold fix_repo_url. intros -> H. simpl. destruct o as [u|]; auto.
  apply fix_link_silent. auto.
Qed.

Lemma fix_doc_url_spec d sid data' fx :
  fix_doc_url (JObj d) sid = ok (data', fx) ->
  exists d' o,
    Py.lookup sid DOC_FIXES = ok o /\ data' = JObj d'
    /\ (forall k, k <> "links" -> Dict.get k d' = Dict.get k d)
    /\ (forall u, o = Some u -> link_is d' "documentation" u)
    /\ (forall f' u', f' <> "documentation" ->
                      link_is d f' u' -> link_is d' f' u')
    /\ incl fx ["doc URL fixed"].
Proof.
  unfold fix_doc_url.
  destruct (Py.lookup sid DOC_FIXES) as [?|[u|]]; simpl; try discriminate.
  - intros H. apply fix_link_spec in H as (d' & -> & L & Fr & Ot & I).
    exists d', (Some u). repeat split; auto. now intros ? [= <-].
  - intros H. inv_ok. exists d, None. repeat split; auto.
    + discriminate.
    + apply incl_nil_l.
Qed.

Lemma fix_doc_url_silent d sid o :
  Py.lookup sid DOC_FIXES = ok o ->
  (forall u, o = Some u -> link_is d "documentation" u) ->
  fix_doc_url (JObj d) sid = ok (JObj d, []).
Proof.
  unfold fix_doc_url. intros -> H. simpl. destruct o as [u|]; auto.
  apply fix_link_silent. auto.
Qed.

(** The stytch identifier is in no link table. *)
Lemma stytch_not_in_repo_fixes sid :
  Py.eq_str sid "com.stytch-mcp" = true ->
  Py.lookup sid REPO_FIXES = ok None.
Proof.
  destruct sid; simpl; try discriminate.
  intros E. apply String.eqb_eq in E. now subst.
Qed.

(** *** The package block *)
Lemma fix_package_spec d tt sid data' fx :
  fix_package (JObj d) (JObj tt) sid = ok (data', fx) ->
  attached d tt -> metadata_settled lib tt ->
  exists d' tt' op,
    Py.lookup sid PACKAGE_FIXES = ok op /\ data' = JObj d'
    /\ (forall k, k <> "transport" -> Dict.get k d' = Dict.get k d)
    /\ attached d' tt' /\ metadata_settled lib tt'
    /\ fx = match op with Some _ => ["fixed package name"] | None => [] end
    /\ (forall a, op = Some a ->
                  Dict.get "transport" d' = None
                  \/ Dict.get "args" tt' = Some (JArr (map JStr a)))
    /\ record_inputs (JObj d') = record_inputs (JObj d).
Proof.
  unfold fix_package.
  destruct (Py.lookup sid PACKAGE_FIXES) as [?|[a|]]; simpl;
    try discriminate.
  - intros H Att St. inv_ok. destruct Att as [T|[T ->]]; rewrite T.
    + exists (Dict.set "transport"
                (JObj (Dict.set "args" (JArr (map JStr a)) tt)) d),
        (Dict.set "args" (JArr (map JStr a)) tt), (Some a).
      repeat split; auto.
      * intros k Hk. apply get_set_other. congruence.
      * left. apply get_set_same.
      * unfold metadata_settled in *.
        now rewrite get_set_other by discriminate.
      * intros a' [= <-]. right. apply get_set_same.
      * unfold record_inputs. simpl. rewrite get_set_same, T. simpl.
        now rewrite get_set_other by discriminate.
    + exists d, [], (Some a). repeat split; auto.
      right. auto.
  - intros H Att St. inv_ok. exists d, tt, None. repeat split; auto.
    discriminate.
Qed.

Lemma fix_package_again d tt sid op :
  Py.lookup sid PACKAGE_FIXES = ok op ->
  attached d tt ->
  (forall a, op = Some a ->
             Dict.get "transport" d = None
             \/ Dict.get "args" tt = Some (JArr (map JStr a))) ->
  fix_package (JObj d) (JObj tt) sid
  = ok (JObj d, match op with Some _ => ["fixed package name"] | None => [] end).
Proof.
  unfold fix_package. intros -> Att H. simpl.
  destruct op as [a|]; [|reflexivity]. simpl.
  destruct Att as [T|[T ->]]; rewrite T; [|reflexivity].
  destruct (H a eq_refl) as [N|A]; [congruence|].
  now rewrite (set_same _ _ _ A), (set_same _ _ _ T).
Qed.

(** *** The whole engine *)

(** A run that returns leaves a settled record; its inputs are the
    coerced inputs of the record it was given, and its fixes start
    with one entry per offending input. *)
Lemma fix_data_summary data sid d1 f1 :
  fix_data lib data sid = ok (d1, f1) ->
  exists dfin rest,
    d1 = JObj dfin /\ settled lib sid dfin
    /\ record_inputs d1 = map coerced (record_inputs data)
    /\ forallb type_valid (record_inputs d1) = true
    /\ f1 = input_entries lib (record_inputs data) ++ rest
    /\ incl rest later_entries
    /\ offenders_named (record_inputs data).
Proof.
  unfold fix_data. intros H.
  destruct (fix_input_types lib data) as [?|[[da tr] fx1]] eqn:S1;
    simpl in H; [discriminate|].
  apply fix_input_types_spec in S1
    as (d & dd & tt & -> & -> & -> & Fr1 & Att & St & RI & -> & V & N).
  destruct (fix_icon (JObj dd) sid) as [?|[db fx2]] eqn:S2;
    simpl in H; [discriminate|].
  apply fix_icon_spec in S2 as (d2 & oi & Li & -> & Fr2 & Ic & I2).
  destruct (fix_repo_url (JObj d2) sid) as [?|[dc fx3]] eqn:S3;
    simpl in H; [discriminate|].
  apply fix_repo_url_spec in S3 as (d3 & orp & Lr & -> & Fr3 & Rp & Ot3 & I3).
  destruct (fix_doc_url (JObj d3) sid) as [?|[de fx4]] eqn:S4;
    simpl in H; [discriminate|].
  apply fix_doc_url_spec in S4 as (d4 & od & Ld & -> & Fr4 & Dc & Ot4 & I4).
  destruct (fix_stytch (JObj d4) sid) as [?|[df fx5]] eqn:S5;
    simpl in H; [discriminate|].
  apply fix_stytch_spec in S5 as (d5 & -> & Fr5 & Ot5 & Sy & Sn & ->).
  destruct (fix_package (JObj d5) (JObj tt) sid) as [?|[dg fx6]] eqn:S6;
    simpl in H; [discriminate|].
  assert (T5 : Dict.get "transport" d5 = Dict.get "transport" dd).
  { rewrite Fr5, Fr4, Fr3, Fr2 by discriminate. reflexivity. }
  apply fix_package_spec in S6
    as (d6 & tt6 & op & Lp & -> & Fr6 & Att6 & St6 & -> & Ar & RI6);
    [|destruct Att as [A|[A ->]]; [left|right]; rewrite T5; auto|exact St].
  inv_ok.
  exists d6, (fx2 ++ fx3 ++ fx4
              ++ (if Py.eq_str sid "com.stytch-mcp"
                  then ["repo URL: org page -> specific repo"] else [])
              ++ match op with Some _ => ["fixed package name"] | None => [] end).
  split; [reflexivity|]. split; [|split; [|split; [|split; [|split]]]].
  - apply Settled with (tt := tt6) (oi := oi) (orp := orp) (od := od)
                       (op := op); auto.
    + intros u Hu. apply (icon_is_frame d2).
      * rewrite Fr6, Fr5, Fr4, Fr3 by discriminate. reflexivity.
      * auto.
    + intros u Hu. apply (link_is_frame d5); [apply Fr6; discriminate|].
      destruct (Py.eq_str sid "com.stytch-mcp") eqn:E.
      * rewrite (stytch_not_in_repo_fixes _ E) in Lr. inv_ok. discriminate.
      * rewrite (Sn eq_refl). apply Ot4; [discriminate|]. auto.
    + intros u Hu. apply (link_is_frame d5); [apply Fr6; discriminate|].
      apply Ot5; [discriminate|]. auto.
    + intros E. apply (link_is_frame d5); [apply Fr6; discriminate|]. auto.
  - rewrite RI6, <- RI. apply record_inputs_frame.
    rewrite T5. reflexivity.
  - rewrite RI6. rewrite (record_inputs_frame dd d5 T5). exact V.
  - reflexivity.
  - unfold later_entries. repeat apply incl_app.
    + intros x Hx. apply I2 in Hx. simpl in *. intuition.
    + intros x Hx. apply I3 in Hx. simpl in *. intuition.
    + intros x Hx. apply I4 in Hx. simpl in *. intuition.
    + destruct (Py.eq_str sid _); intros x Hx; simpl in *; intuition.
    + destruct op; intros x Hx; simpl in *; intuition.
  - exact N.
Qed.

(** On a settled record only the two blocks that never compare
    append anything, and the record stays as it is. *)
Lemma fix_data_settled sid d :
  settled lib sid d ->
  fix_data lib (JObj d) sid = ok (JObj d, unconditional_fixes sid).
Proof.
  intros [tt oi orp od op Li Lr Ld Lp Att St Ic Rp Dc Sy Ar].
  unfold fix_data, unconditional_fixes.
  rewrite (fix_input_types_settled d tt St Att). simpl.
  rewrite (fix_icon_silent d sid oi Li Ic). simpl.
  rewrite (fix_repo_url_silent d sid orp Lr Rp). simpl.
  rewrite (fix_doc_url_silent d sid od Ld Dc). simpl.
  rewrite (fix_stytch_again d sid Sy). simpl.
  rewrite (fix_package_again d tt sid op Lp Att Ar). simpl.
  rewrite Lp. reflexivity.
Qed.

(** *** The engine returns on well-formed records *)

Lemma lookup_hashable {A} sid (table : list (string * A)) :
  hashable sid = true -> exists o, Py.lookup sid table = ok o.
Proof. destruct sid; simpl; try discriminate; eauto. Qed.

Lemma fix_input_list_total l :
  forallb input_ok l = true ->
  exists l' f, fix_input_list lib l = ok (l', f).
Proof.
  induction l as [|inp l IH]; simpl; [eauto|].
  intros H. apply andb_true_iff in H as [H1 H2].
  destruct (IH H2) as (l' & f & ->).
  destruct inp as [| | | | |d]; try discriminate.
  unfold fix_input, input_ok, type_valid in *. simpl in *.
  destruct (Py.in_strs _ VALID_INPUT_TYPES); simpl; [eauto|].
  rewrite get_set_other by discriminate.
  destruct (Dict.get "id" d); simpl; [eauto|discriminate].
Qed.

Lemma fix_input_types_total d :
  well_formed (JObj d) JNull = true ->
  exists d1 tr fx, fix_input_types lib (JObj d) = ok (d1, tr, fx).
Proof.
  unfold well_formed, fix_input_types. simpl.
  destruct (Dict.get "transport" d) as [[| | | | |td]|]; simpl;
    try discriminate; [|eauto].
  destruct (Dict.get "metadata" td) as [[| | | | |md]|]; simpl;
    try discriminate; [|eauto].
  destruct (Dict.get "inputs" md) as [[| | | |l|]|]; simpl;
    try discriminate; [|eauto].
  intros H. rewrite !andb_true_iff in H. destruct H as [[H _] _].
  destruct (fix_input_list_total l H) as (l' & f & ->). simpl. eauto.
Qed.

Lemma fix_link_total d field url e :
  obj_or_absent (Dict.get "links" d) = true ->
  exists d' fx, fix_link (JObj d) field url e = ok (JObj d', fx)
                /\ obj_or_absent (Dict.get "links" d') = true.
Proof.
  unfold fix_link. simpl. intros H.
  destruct (Dict.get "links" d) as [[| | | | |ld]|] eqn:L;
    try discriminate H; simpl.
  - destruct (Py.eq_str _ url); simpl; eexists _, _; split;
      try reflexivity; rewrite ?get_set_same, ?L; reflexivity.
  - eexists _, _; split; [reflexivity|]. now rewrite get_set_same.
Qed.

Lemma fix_icon_total d sid :
  hashable sid = true ->
  exists d' fx, fix_icon (JObj d) sid = ok (JObj d', fx).
Proof.
  intros Hh. unfold fix_icon. simpl.
  destruct (lookup_hashable sid ICON_FIXES Hh) as (oi & ->). simpl.
  destruct oi as [u|]; [|eauto].
  destruct (negb _); simpl; eauto.
Qed.

Lemma fix_stytch_total d sid :
  obj_or_absent (Dict.get "links" d) = true ->
  exists d' fx, fix_stytch (JObj d) sid = ok (JObj d', fx).
Proof.
  unfold fix_stytch. intros H.
  destruct (Py.eq_str sid "com.stytch-mcp"); simpl; [|eauto].
  destruct (Dict.get "links" d) as [[| | | | |ld]|]; simpl;
    try discriminate; eauto.
Qed.

Lemma fix_package_total d tt sid :
  hashable sid = true ->
  exists d' fx, fix_package (JObj d) (JObj tt) sid = ok (d', fx).
Proof.
  intros Hh. unfold fix_package.
  destruct (lookup_hashable sid PACKAGE_FIXES Hh) as (op & ->). simpl.
  destruct op; simpl; eauto.
Qed.

Lemma fix_data_total data sid :
  well_formed data sid = true ->
  exists d1 f1, fix_data lib data sid = ok (d1, f1).
Proof.
  intros W. destruct data as [| | | | |d]; try discriminate.
  assert (Hh : hashable sid = true).
  { simpl in W. rewrite !andb_true_iff in W. tauto. }
  assert (Hl : obj_or_absent (Dict.get "links" d) = true).
  { simpl in W. rewrite !andb_true_iff in W. tauto. }
  assert (W0 : well_formed (JObj d) JNull = true).
  { simpl in *. rewrite !andb_true_iff in *. tauto. }
  unfold fix_data.
  destruct (fix_input_types_total d W0) as (d1 & tr & fx1 & S1).
  rewrite S1. simpl.
  apply fix_input_types_spec in S1
    as (d0 & dd & tt & E & -> & -> & Fr1 & _). injection E as <-.
  rewrite <- (Fr1 "links") in Hl by discriminate.
  destruct (fix_icon_total dd sid Hh) as (d2 & fx2 & S2).
  rewrite S2. simpl.
  apply fix_icon_spec in S2 as (d2' & oi & _ & E & Fr2 & _).
  injection E as <-.
  rewrite <- (Fr2 "links") in Hl by discriminate.
  unfold fix_repo_url.
  destruct (lookup_hashable sid REPO_FIXES Hh) as (orp & ->). simpl.
  assert (exists d3 fx3,
             match orp with
             | Some url => fix_link (JObj d2) "repository" url "repo URL fixed"
             | None => ok (JObj d2, [])
             end = ok (JObj d3, fx3)
             /\ obj_or_absent (Dict.get "links" d3) = true)
    as (d3 & fx3 & -> & Hl3).
  { destruct orp; [apply fix_link_total; auto|eauto]. }
  simpl. unfold fix_doc_url.
  destruct (lookup_hashable sid DOC_FIXES Hh) as (od & ->). simpl.
  assert (exists d4 fx4,
             match od with
             | Some url => fix_link (JObj d3) "documentation" url "doc URL fixed"
             | None => ok (JObj d3, [])
             end = ok (JObj d4, fx4)
             /\ obj_or_absent (Dict.get "links" d4) = true)
    as (d4 & fx4 & -> & Hl4).
  { destruct od; [apply fix_link_total; auto|eauto]. }
  simpl.
  destruct (fix_stytch_total d4 sid Hl4) as (d5 & fx5 & ->). simpl.
  destruct (fix_package_total d5 tt sid Hh) as (d6 & fx6 & ->). simpl.
  eauto.
Qed.

(** A run that returns the record it was given has reported the
    entries of the two unconditional blocks and nothing else. *)
Lemma unchanged_means_unconditional data sid f :
  fix_data lib data sid = ok (data, f) -> f = unconditional_fixes sid.
Proof.
  intros H. pose proof H as H'.
  apply fix_data_summary in H' as (dfin & rest & -> & S & _).
  rewrite (fix_data_settled sid dfin S) in H.
  unfold ok in H. now injection H.
Qed.

End WithRuntime.

(** The two unconditional blocks are those of the identifiers
    [com.stytch-mcp] and [com.pagerduty-mcp]. *)
Lemma unconditional_fixes_nil sid :
  unconditional_fixes sid = []
  <-> Py.eq_str sid "com.stytch-mcp" = false
      /\ Py.eq_str sid "com.pagerduty-mcp" = false.
Proof.
  unfold unconditional_fixes.
  destruct sid as [| | |s| |]; try (simpl; now intuition).
  cbv [Py.eq_str Py.lookup PACKAGE_FIXES find fst snd ok].
  rewrite (String.eqb_sym "com.pagerduty-mcp" s).
  destruct (String.eqb s "com.stytch-mcp");
    destruct (String.eqb s "com.pagerduty-mcp"); cbn [app];
    split; intros; try discriminate; intuition discriminate.
Qed.

End FixEngineFacts.

(** ** Running programs *)
Module ExecFacts.

Section WithHandler.
Context {W : Type} (h : handler W).

Lemma exec_bind {A B} (m : prog A) (f : A -> prog B) (w : W) :
  exec h (pbind m f) w
  = let '(a, w1, t1) := exec h m w in
    let '(b, w2, t2) := exec h (f a) w1 in
    (b, w2, t1 ++ t2).
Proof.
  revert w. induction m as [a|c k IH|p k IH|p d k IH|p k IH|l k IH];
    intros w; simpl.
  - destruct (exec h (f a) w) as [[b w2] t2]. reflexivity.
  - destruct (on_run h c w) as [r w1]. rewrite IH.
    destruct (exec h (k r) w1) as [[a w2] t1].
    destruct (exec h (f a) w2) as [[b w3] t2]. reflexivity.
  - rewrite IH.
    destruct (exec h (k (on_load h p w)) w) as [[a w2] t1].
    destruct (exec h (f a) w2) as [[b w3] t2]. reflexivity.
  - destruct (on_dump h p d w) as [r w1]. rewrite IH.
    destruct (exec h (k r) w1) as [[a w2] t1].
    destruct (exec h (f a) w2) as [[b w3] t2]. reflexivity.
  - rewrite IH.
    destruct (exec h (k (on_exists h p w)) w) as [[a w2] t1].
    destruct (exec h (f a) w2) as [[b w3] t2]. reflexivity.
  - rewrite IH.
    destruct (exec h k w) as [[a w2] t1].
    destruct (exec h (f a) w2) as [[b w3] t2]. reflexivity.
Qed.

(** [run] is one subprocess and its answer, read as the script
    reads it. *)
Lemma exec_run cmd check w :
  exec h (FixBranches.run cmd check) w
  = let '(r, w1) := on_run h (Shell cmd) w in
    (if check && negb (Z.eqb (returncode r) 0)
     then (None, PyStr.strip (stderr r))
     else (Some (PyStr.strip (stdout r)), PyStr.strip (stderr r)),
     w1, [EvRun (Shell cmd) r]).
Proof.
  unfold FixBranches.run. simpl.
  destruct (on_run h (Shell cmd) w) as [r w1].
  destruct (check && negb (Z.eqb (returncode r) 0)); reflexivity.
Qed.

Lemma exec_print line w :
  exec h (print line) w = (tt, w, [EvPrint line]).
Proof. reflexivity. Qed.

End WithHandler.

End ExecFacts.

(** ** The branch pipeline, path by path *)
Module PipelineFacts.
Import FixBranches ExecFacts.

Section WithHandler.
Context {W : Type} (h : handler W) (lib : pylib).

Lemma exec_run_bind {A} cmd check (k : option string * string -> prog A)
      w r w1 :
  on_run h (Shell cmd) w = (r, w1) ->
  exec h (pbind (run cmd check) k) w
  = let '(a, w2, t) := exec h (k (run_answer check r)) w1 in
    (a, w2, EvRun (Shell cmd) r :: t).
Proof.
  intros E. rewrite exec_bind, exec_run, E. unfold run_answer.
  destruct (exec h (k _) w1) as [[a w2] t]. reflexivity.
Qed.

Lemma run_answer_ok check r :
  returncode r = 0%Z ->
  run_answer check r
  = (Some (PyStr.strip (stdout r)), PyStr.strip (stderr r)).
Proof. unfold run_answer. intros ->. now rewrite andb_false_r. Qed.

Lemma run_answer_failed r :
  returncode r <> 0%Z ->
  run_answer true r = (None, PyStr.strip (stderr r)).
Proof.
  unfold run_answer. intros H. apply Z.eqb_neq in H. now rewrite H.
Qed.

Section OneBranch.
Variables (b : string) (w w1 w2 : W) (r1 r2 : completed).
Let fixb := fix_branch_name b.
Let checkout_b := ("git checkout -b " ++ fixb ++ " origin/" ++ b)%string.
Hypothesis E1 : on_run h (Shell (delete_branch fixb)) w = (r1, w1).
Hypothesis E2 : on_run h (Shell checkout_b) w1 = (r2, w2).

Lemma path_checkout_error :
  returncode r2 <> 0%Z ->
  exec h (process_branch lib b) w
  = (BranchResult b None "ERROR"
       (Some ("checkout failed: " ++ PyStr.strip (stderr r2))%string)
       None None,
     w2,
     [EvRun (Shell (delete_branch fixb)) r1; EvRun (Shell checkout_b) r2]).
Proof.
  intros H2. unfold process_branch.
  rewrite (exec_run_bind _ _ _ _ _ _ E1).
  rewrite (exec_run_bind _ _ _ _ _ _ E2), (run_answer_failed _ H2).
  reflexivity.
Qed.

Variables (w3 : W) (r3 : completed).
Hypothesis H2 : returncode r2 = 0%Z.
Hypothesis E3 : on_run h (Shell "git rebase main") w2 = (r3, w3).

Lemma path_rebase_conflict r4 w4 r5 w5 r6 w6 :
  returncode r3 <> 0%Z ->
  on_run h (Shell "git rebase --abort") w3 = (r4, w4) ->
  on_run h (Shell checkout_main) w4 = (r5, w5) ->
  on_run h (Shell (delete_branch fixb)) w5 = (r6, w6) ->
  exec h (process_branch lib b) w
  = (BranchResult b None "REBASE_CONFLICT"
       (Some (PyStr.strip (stderr r3))) None None,
     w6,
     [EvRun (Shell (delete_branch fixb)) r1; EvRun (Shell checkout_b) r2;
      EvRun (Shell "git rebase main") r3;
      EvRun (Shell "git rebase --abort") r4;
      EvRun (Shell checkout_main) r5;
      EvRun (Shell (delete_branch fixb)) r6]).
Proof.
  intros H3 E4 E5 E6. unfold process_branch.
  rewrite (exec_run_bind _ _ _ _ _ _ E1).
  rewrite (exec_run_bind _ _ _ _ _ _ E2), (run_answer_ok _ _ H2).
  rewrite (exec_run_bind _ _ _ _ _ _ E3), (run_answer_failed _ H3).
  rewrite (exec_run_bind _ _ _ _ _ _ E4).
  rewrite (exec_run_bind _ _ _ _ _ _ E5).
  rewrite (exec_run_bind _ _ _ _ _ _ E6).
  reflexivity.
Qed.

Variables (w4 : W) (r4 : completed).
Hypothesis H3 : returncode r3 = 0%Z.
Hypothesis E4 :
  on_run h (Shell "git diff main --name-only -- servers/") w3 = (r4, w4).

Lemma path_no_changes r5 w5 r6 w6 :
  falsy (fst (run_answer true r4)) = true ->
  on_run h (Shell checkout_main) w4 = (r5, w5) ->
  on_run h (Shell (delete_branch fixb)) w5 = (r6, w6) ->
  exec h (process_branch lib b) w
  = (BranchResult b None "NO_CHANGES"
       (Some "No server files differ from main") None None,
     w6,
     [EvRun (Shell (delete_branch fixb)) r1; EvRun (Shell checkout_b) r2;
      EvRun (Shell "git rebase main") r3;
      EvRun (Shell "git diff main --name-only -- servers/") r4;
      EvRun (Shell checkout_main) r5;
      EvRun (Shell (delete_branch fixb)) r6]).
Proof.
  intros F E5 E6. unfold process_branch.
  rewrite (exec_run_bind _ _ _ _ _ _ E1).
  rewrite (exec_run_bind _ _ _ _ _ _ E2), (run_answer_ok _ _ H2).
  rewrite (exec_run_bind _ _ _ _ _ _ E3), (run_answer_ok _ _ H3).
  rewrite (exec_run_bind _ _ _ _ _ _ E4).
  destruct (run_answer true r4) as [out err]. simpl in F. rewrite F.
  rewrite (exec_run_bind _ _ _ _ _ _ E5).
  rewrite (exec_run_bind _ _ _ _ _ _ E6).
  reflexivity.
Qed.

Lemma path_push text all_fixes w5 t5 w6 t6 r7 w7 r8 w8 :
  let diff_files := nonblank_lines (PyStr.strip text) in
  fst (run_answer true r4) = Some text ->
  String.eqb text "" = false ->
  exec h (process_files lib diff_files []) w4 = (all_fixes, w5, t5) ->
  exec h (commit_fixes all_fixes) w5 = (tt, w6, t6) ->
  on_run h (Shell (push_command fixb)) w6 = (r7, w7) ->
  on_run h (Shell checkout_main) w7 = (r8, w8) ->
  exec h (process_branch lib b) w
  = (if push_error_seen r7
     then BranchResult b (Some fixb) "PUSH_ERROR"
            (Some (PyStr.strip (stderr r7))) (Some all_fixes) None
     else BranchResult b (Some fixb) "PUSHED" None (Some all_fixes)
            (Some diff_files),
     w8,
     [EvRun (Shell (delete_branch fixb)) r1; EvRun (Shell checkout_b) r2;
      EvRun (Shell "git rebase main") r3;
      EvRun (Shell "git diff main --name-only -- servers/") r4]
       ++ t5 ++ t6
       ++ [EvRun (Shell (push_command fixb)) r7;
           EvRun (Shell checkout_main) r8]).
Proof.
  intros diff_files F N E5 E6 E7 E8. unfold process_branch.
  rewrite (exec_run_bind _ _ _ _ _ _ E1).
  rewrite (exec_run_bind _ _ _ _ _ _ E2), (run_answer_ok _ _ H2).
  rewrite (exec_run_bind _ _ _ _ _ _ E3), (run_answer_ok _ _ H3).
  rewrite (exec_run_bind _ _ _ _ _ _ E4).
  destruct (run_answer true r4) as [out err]. simpl in F. subst out.
  cbn [falsy]. rewrite N.
  rewrite exec_bind. fold diff_files. rewrite E5.
  rewrite exec_bind, E6.
  rewrite (exec_run_bind _ _ _ _ _ _ E7).
  destruct (run_answer true r7) as [out7 err7] eqn:A.
  rewrite (exec_run_bind _ _ _ _ _ _ E8).
  unfold run_answer in A. unfold push_error_seen. cbn [andb] in A.
  destruct (negb (Z.eqb (returncode r7) 0)); injection A as <- <-;
    cbn [exec andb app].
  - destruct (PyStr.contains "error" (PyStr.lower (PyStr.strip (stderr r7))));
      reflexivity.
  - reflexivity.
Qed.

End OneBranch.

(** The loop over the changed files starts no subprocess. *)
Lemma quiet_bind {A B} (m : prog A) (f : A -> prog B) :
  quiet m -> (forall a, quiet (f a)) -> quiet (pbind m f).
Proof.
  intros Hm Hf. induction m; simpl in *; auto; contradiction.
Qed.

Lemma quiet_trace {A} (p : prog A) w c r :
  quiet p -> ~ In (EvRun c r) (trace_of (exec h p w)).
Proof.
  revert w. induction p as [a|c' k IH|q k IH|q d k IH|q k IH|l k IH];
    intros w Hq; simpl in *.
  - intros [].
  - contradiction.
  - specialize (IH (on_load h q w) w (Hq _)).
    destruct (exec h (k (on_load h q w)) w) as [[a w2] t].
    intros [E|Hin]; [discriminate|]. now apply IH.
  - destruct (on_dump h q d w) as [r' w1].
    specialize (IH r' w1 (Hq _)).
    destruct (exec h (k r') w1) as [[a w2] t].
    intros [E|Hin]; [discriminate|]. now apply IH.
  - specialize (IH (on_exists h q w) w (Hq _)).
    destruct (exec h (k (on_exists h q w)) w) as [[a w2] t].
    intros [E|Hin]; [discriminate|]. now apply IH.
  - specialize (IH w Hq).
    destruct (exec h k w) as [[a w2] t].
    intros [E|Hin]; [discriminate|]. now apply IH.
Qed.

Lemma quiet_fix_definition path sid : quiet (fix_definition lib path sid).
Proof.
  unfold fix_definition. simpl. intros [e|data]; simpl; auto.
  destruct (FixEngine.fix_data lib data sid) as [e|[d' [|fx fixes]]];
    simpl; auto.
  intros [e|]; simpl; auto.
Qed.

Lemma quiet_process_file f : quiet (process_file lib f).
Proof.
  unfold process_file. cbn -[fix_definition]. intros present.
  destruct (present && PyStr.endswith f ".json"); cbn -[fix_definition];
    auto.
  intros [e|data]; cbn -[fix_definition]; auto.
  destruct (Py.get data "id" (JStr "")) as [e|sid];
    cbn -[fix_definition]; auto.
  apply quiet_bind; [apply quiet_fix_definition|].
  intros [e|[|fx fixes]]; simpl; auto.
Qed.

Lemma quiet_process_files files : forall acc,
  quiet (process_files lib files acc).
Proof.
  induction files as [|f files IH]; intros acc; cbn [process_files quiet];
    auto.
  apply quiet_bind; [apply quiet_process_file|]. intros a. apply IH.
Qed.

(** What [commit_fixes] runs. *)
Lemma commit_fixes_runs all_fixes w c r :
  In (EvRun c r) (trace_of (exec h (commit_fixes all_fixes) w)) ->
  c = Shell "git add -A"
  \/ exists m, c = Shell ("git commit -m " ++ m)%string.
Proof.
  unfold commit_fixes. destruct all_fixes as [|x l]; [intros []|].
  rewrite exec_bind, exec_run.
  destruct (on_run h (Shell "git add -A") w) as [ra wa].
  rewrite exec_bind, exec_run.
  destruct (on_run h _ wa) as [rc wc]. cbn.
  intros [E|[E|[]]]; injection E as <- _; eauto.
Qed.

(** [commit_fixes] returns. *)
Lemma exec_commit_fixes all_fixes w :
  exists w' t, exec h (commit_fixes all_fixes) w = (tt, w', t).
Proof.
  destruct (exec h (commit_fixes all_fixes) w) as [[[] w'] t]. eauto.
Qed.

End WithHandler.

End PipelineFacts.

(** Splits a goal about [exec h (process_branch lib b) w] along the four
    ways the function can return, and replaces the run by its value on
    each of them. *)
Ltac branch_paths h lib b w :=
  let r1 := fresh "r1" in let w1 := fresh "w1" in let E1 := fresh "E1" in
  let r2 := fresh "r2" in let w2 := fresh "w2" in let E2 := fresh "E2" in
  let r3 := fresh "r3" in let w3 := fresh "w3" in let E3 := fresh "E3" in
  let r4 := fresh "r4" in let w4 := fresh "w4" in let E4 := fresh "E4" in
  let r5 := fresh "r5" in let w5 := fresh "w5" in let E5 := fresh "E5" in
  let r6 := fresh "r6" in let w6 := fresh "w6" in let E6 := fresh "E6" in
  let r7 := fresh "r7" in let w7 := fresh "w7" in let E7 := fresh "E7" in
  let r8 := fresh "r8" in let w8 := fresh "w8" in let E8 := fresh "E8" in
  let H2 := fresh "H2" in let H3 := fresh "H3" in let F := fresh "F" in
  let A := fresh "A" in let text := fresh "text" in let P := fresh "P" in
  let all_fixes := fresh "all_fixes" in let t5 := fresh "t5" in
  let t6 := fresh "t6" in
  destruct (on_run h (Shell (FixBranches.delete_branch
                               (FixBranches.fix_branch_name b))) w)
    as [r1 w1] eqn:E1;
  destruct (on_run h (Shell ("git checkout -b "
                               ++ FixBranches.fix_branch_name b
                               ++ " origin/" ++ b)%string) w1)
    as [r2 w2] eqn:E2;
  destruct (Z.eq_dec (returncode r2) 0) as [H2|H2];
  [ destruct (on_run h (Shell "git rebase main") w2) as [r3 w3] eqn:E3;
    destruct (Z.eq_dec (returncode r3) 0) as [H3|H3];
    [ destruct (on_run h (Shell "git diff main --name-only -- servers/") w3)
        as [r4 w4] eqn:E4;
      destruct (FixBranches.falsy (fst (run_answer true r4))) eqn:F;
      [ destruct (on_run h (Shell FixBranches.checkout_main) w4)
          as [r5 w5] eqn:E5;
        destruct (on_run h (Shell (FixBranches.delete_branch
                                     (FixBranches.fix_branch_name b))) w5)
          as [r6 w6] eqn:E6;
        pose proof (PipelineFacts.path_no_changes
                      h lib b w w1 w2 r1 r2 E1 E2 w3 r3 H2 E3 w4 r4 H3 E4
                      r5 w5 r6 w6 F E5 E6) as P
      | destruct (fst (run_answer true r4)) as [text|] eqn:A;
        [|discriminate F]; cbn [FixBranches.falsy] in F;
        destruct (exec h (FixBranches.process_files lib
                            (FixBranches.nonblank_lines (PyStr.strip text)) [])
                       w4) as [[all_fixes w5] t5] eqn:E5;
        destruct (PipelineFacts.exec_commit_fixes h all_fixes w5)
          as (w6 & t6 & E6);
        destruct (on_run h (Shell (FixBranches.push_command
                                     (FixBranches.fix_branch_name b))) w6)
          as [r7 w7] eqn:E7;
        destruct (on_run h (Shell FixBranches.checkout_main) w7)
          as [r8 w8] eqn:E8;
        pose proof (PipelineFacts.path_push
                      h lib b w w1 w2 r1 r2 E1 E2 w3 r3 H2 E3 w4 r4 H3 E4
                      text all_fixes w5 t5 w6 t6 r7 w7 r8 w8 A F E5 E6 E7 E8)
          as P ]
    | destruct (on_run h (Shell "git rebase --abort") w3) as [r4 w4] eqn:E4;
      destruct (on_run h (Shell FixBranches.checkout_main) w4)
        as [r5 w5] eqn:E5;
      destruct (on_run h (Shell (FixBranches.delete_branch
                                   (FixBranches.fix_branch_name b))) w5)
        as [r6 w6] eqn:E6;
      pose proof (PipelineFacts.path_rebase_conflict
                    h lib b w w1 w2 r1 r2 E1 E2 w3 r3 H2 E3
                    r4 w4 r5 w5 r6 w6 H3 E4 E5 E6) as P ]
  | pose proof (PipelineFacts.path_checkout_error
                  h lib b w w1 w2 r1 r2 E1 E2 H2) as P ];
  cbv zeta in P; rewrite P in *; clear P.

(** ** The simulated repository honours the contract *)
Module SimFacts.

Lemma mem_filter_out b l :
  PyStr.mem b (filter (fun x => negb (String.eqb x b)) l) = false.
Proof.
  unfold PyStr.mem. induction l as [|x l IH]; simpl; auto.
  destruct (String.eqb x b) eqn:E; simpl; auto.
  rewrite String.eqb_sym, E. exact IH.
Qed.

Lemma on_run_shell line w : on_run Sim.git (Shell line) w = Sim.shell line w.
Proof. reflexivity. Qed.

Lemma shell_abort w :
  Sim.shell "git rebase --abort" w
  = if Sim.rebasing w
    then (Sim.done "",
          Sim.with_state w (Sim.head w) (Sim.locals w) false false (Sim.tree w))
    else (Sim.failed 128 "fatal: No rebase in progress?", w).
Proof. reflexivity. Qed.

Lemma shell_checkout_main w :
  Sim.shell "git checkout main" w
  = if Sim.dirty w
    then (Sim.failed 1
            "error: Your local changes would be overwritten by checkout", w)
    else (Sim.done "",
          Sim.with_state w "main" (Sim.locals w) (Sim.rebasing w) false
                         (Sim.tree w)).
Proof. reflexivity. Qed.

Lemma shell_delete b w :
  Sim.shell ("git branch -D " ++ b) w
  = if PyStr.mem b (Sim.locals w) && negb (String.eqb b (Sim.head w))
    then (Sim.done ("Deleted branch " ++ b),
          Sim.with_state w (Sim.head w)
            (filter (fun x => negb (String.eqb x b)) (Sim.locals w))
            (Sim.rebasing w) (Sim.dirty w) (Sim.tree w))
    else (Sim.failed 1 ("error: branch '" ++ b ++ "' not found."), w).
Proof. reflexivity. Qed.

Lemma shell_checkout_b args w :
  returncode (fst (Sim.shell ("git checkout -b " ++ args) w)) <> 0%Z ->
  snd (Sim.shell ("git checkout -b " ++ args) w) = w.
Proof.
  unfold Sim.shell.
  change (PyStr.has_prefix "git branch -D " ("git checkout -b " ++ args))
    with false.
  change (PyStr.has_prefix "git checkout -b " ("git checkout -b " ++ args))
    with true.
  cbv iota.
  match goal with
  | |- context [if ?c then _ else _] => destruct c
  end; cbn; [intros H; now contradiction H|reflexivity].
Qed.

Lemma sim_contract :
  backend_contract Sim.git Sim.head Sim.has_branch Sim.clean.
Proof.
  split.
  - intros w. rewrite on_run_shell, shell_abort. unfold Sim.clean.
    destruct (Sim.rebasing w); cbn; [reflexivity|discriminate].
  - intros w. rewrite on_run_shell, shell_checkout_main. unfold Sim.clean.
    destruct (Sim.dirty w) eqn:D; cbn; [discriminate|].
    intros _. split; [reflexivity|]. cbn. auto.
  - intros b w. rewrite on_run_shell, shell_delete.
    unfold Sim.clean, Sim.has_branch.
    destruct (PyStr.mem b (Sim.locals w) && negb (String.eqb b (Sim.head w)));
      cbn; repeat split; auto; try discriminate.
    intros _. apply mem_filter_out.
  - intros args w H. rewrite on_run_shell in *.
    now rewrite (shell_checkout_b args w H).
Qed.

End SimFacts.

(** ** The simulated file store honours its contract *)
Module SimStoreFacts.

Lemma lookup_write_same p c t :
  Sim.lookup_file p (Sim.write_file p c t) = Some c.
Proof.
  induction t as [|[q c'] t IH]; simpl.
  - now rewrite String.eqb_refl.
  - destruct (String.eqb q p) eqn:E; simpl; rewrite E; auto.
Qed.

Lemma sim_store_contract : store_contract Sim.git.
Proof.
  split.
  - intros p d w _. cbn. now rewrite lookup_write_same.
  - intros a b w p. cbn.
    destruct (Sim.lookup_file a (Sim.tree w)) as [c|];
      [destruct (Sim.lookup_file b (Sim.tree w))|]; cbn; auto.
    intros H. now contradiction H.
Qed.

End SimStoreFacts.

(** ** The listing of the remote branches *)

Section ListingFacts.
Local Open Scope string_scope.

Lemma rstrip_no_blank s : no_blank s = true -> PyStr.rstrip s = s.
Proof.
  induction s as [|c r IH]; [reflexivity|]. cbn [no_blank PyStr.rstrip].
  intros H. apply andb_prop in H as [Hc Hr]. rewrite (IH Hr).
  destruct r; [|reflexivity]. apply negb_true_iff in Hc. now rewrite Hc.
Qed.

Lemma rstrip_append a b :
  PyStr.rstrip b <> "" -> PyStr.rstrip (a ++ b) = a ++ PyStr.rstrip b.
Proof.
  intros Hb. induction a as [|c a IH]; [reflexivity|].
  cbn [append PyStr.rstrip]. rewrite IH.
  destruct (a ++ PyStr.rstrip b) eqn:E; [|reflexivity].
  destruct a; cbn in E; [contradiction|discriminate].
Qed.

Lemma rstrip_newline a : PyStr.rstrip (a ++ newline) = PyStr.rstrip a.
Proof.
  induction a as [|c a IH]; [reflexivity|].
  cbn [append PyStr.rstrip]. now rewrite IH.
Qed.

Lemma no_blank_append a b :
  no_blank a = true -> no_blank b = true -> no_blank (a ++ b) = true.
Proof.
  induction a as [|c a IH]; cbn; [auto|]. intros H Hb.
  apply andb_prop in H as [-> Ha]. cbn. auto.
Qed.

Lemma ref_name_line n :
  ref_name n = true -> no_blank ("origin/" ++ n) = true.
Proof.
  unfold ref_name. intros H. apply andb_prop in H as [H _].
  apply andb_prop in H as [_ H]. now apply (no_blank_append "origin/" n).
Qed.


Lemma append_assoc (a b c : string) : (a ++ b) ++ c = a ++ (b ++ c).
Proof. induction a as [|x a IH]; cbn; [reflexivity|now rewrite IH]. Qed.

Lemma joined_cons n m r :
  joined (n :: m :: r) = ("origin/" ++ n ++ newline) ++ joined (m :: r).
Proof.
  unfold joined. cbn [map PyStr.join]. now rewrite !append_assoc.
Qed.

Lemma joined_not_empty n r : joined (n :: r) <> "".
Proof. unfold joined. destruct r; cbn; discriminate. Qed.

Lemma rstrip_joined names :
  names <> [] -> forallb ref_name names = true ->
  PyStr.rstrip (joined names) = joined names.
Proof.
  induction names as [|n [|m r] IH]; intros Hne H; [contradiction| |].
  - cbn in H. apply andb_prop in H as [H _].
    apply rstrip_no_blank. now apply ref_name_line.
  - cbn [forallb] in H. apply andb_prop in H as [_ H].
    rewrite joined_cons, rstrip_append; rewrite IH; auto; try discriminate.
    apply joined_not_empty.
Qed.


Lemma rstrip_ref_lines names :
  names <> [] -> forallb ref_name names = true ->
  PyStr.rstrip (ref_lines names) = joined names.
Proof.
  induction names as [|n [|m r] IH]; intros Hne H; [contradiction| |].
  - cbn in H. apply andb_prop in H as [H _].
    change (ref_lines [n]) with ("origin/" ++ n ++ newline).
    rewrite <- append_assoc, rstrip_newline.
    apply rstrip_no_blank. now apply ref_name_line.
  - cbn [forallb] in H. apply andb_prop in H as [_ H].
    change (ref_lines (n :: m :: r))
      with ("origin/" ++ n ++ newline ++ ref_lines (m :: r)).
    rewrite joined_cons.
    rewrite <- (append_assoc n newline), <- (append_assoc "origin/").
    rewrite rstrip_append; rewrite IH; auto; try discriminate.
    apply joined_not_empty.
Qed.

Lemma strip_ref_lines names :
  names <> [] -> forallb ref_name names = true ->
  PyStr.strip (ref_lines names) = joined names.
Proof.
  intros Hne H. unfold PyStr.strip.
  replace (PyStr.lstrip (ref_lines names)) with (ref_lines names)
    by (destruct names; [contradiction|reflexivity]).
  now apply rstrip_ref_lines.
Qed.

Lemma strip_joined names :
  names <> [] -> forallb ref_name names = true ->
  PyStr.strip (joined names) = joined names.
Proof.
  intros Hne H. unfold PyStr.strip.
  replace (PyStr.lstrip (joined names)) with (joined names)
    by (destruct names as [|n [|m r]]; [contradiction|reflexivity|reflexivity]).
  now apply rstrip_joined.
Qed.

Lemma not_blank_not_newline c :
  PyStr.isspace c = false -> Ascii.eqb c "010"%char = false.
Proof.
  intros H. destruct (Ascii.eqb_spec c "010"%char) as [->|]; [|reflexivity].
  discriminate H.
Qed.

Lemma split_lines_no_blank a : no_blank a = true -> PyStr.split_lines a = [a].
Proof.
  induction a as [|c a IH]; [reflexivity|]. cbn [no_blank PyStr.split_lines].
  intros H. apply andb_prop in H as [Hc Ha]. apply negb_true_iff in Hc.
  now rewrite (not_blank_not_newline c Hc), (IH Ha).
Qed.

Lemma split_lines_append a b :
  no_blank a = true ->
  PyStr.split_lines (a ++ newline ++ b) = a :: PyStr.split_lines b.
Proof.
  induction a as [|c a IH]; [reflexivity|].
  cbn [no_blank append PyStr.split_lines].
  intros H. apply andb_prop in H as [Hc Ha]. apply negb_true_iff in Hc.
  now rewrite (not_blank_not_newline c Hc), (IH Ha).
Qed.

Lemma split_lines_joined names :
  names <> [] -> forallb ref_name names = true ->
  PyStr.split_lines (joined names) = map (append "origin/") names.
Proof.
  induction names as [|n [|m r] IH]; intros Hne H; [contradiction| |].
  - cbn in H. apply andb_prop in H as [H _].
    apply split_lines_no_blank. now apply ref_name_line.
  - cbn [forallb] in H. apply andb_prop in H as [Hn H].
    rewrite joined_cons, append_assoc, append_assoc.
    rewrite <- (append_assoc "origin/" n).
    rewrite split_lines_append by now apply ref_name_line.
    rewrite IH; auto; discriminate.
Qed.

Lemma replace_from_absent old new fuel s :
  PyStr.contains old s = false -> PyStr.replace_from fuel old new s = s.
Proof.
  revert s. induction fuel as [|fuel IH]; intros s H; [reflexivity|].
  destruct s as [|c r]; [reflexivity|].
  cbn [PyStr.replace_from]. cbn [PyStr.contains] in H.
  apply orb_false_elim in H as [Hp Hr]. rewrite Hp. now rewrite IH.
Qed.


Lemma has_prefix_append p s : PyStr.has_prefix p (p ++ s) = true.
Proof.
  induction p as [|a p IH]; [reflexivity|]. cbn. now rewrite Ascii.eqb_refl.
Qed.

Lemma drop_append (a b : string) : PyStr.drop (String.length a) (a ++ b) = b.
Proof. induction a as [|c a IH]; cbn; [now destruct b|exact IH]. Qed.

Lemma replace_from_prefix fuel a p s :
  PyStr.replace_from (S fuel) (String a p) "" (String a p ++ s)
  = PyStr.replace_from fuel (String a p) "" s.
Proof.
  change (String a p ++ s) with (String a (p ++ s)).
  cbn [PyStr.replace_from].
  change (String a (p ++ s)) with (String a p ++ s).
  now rewrite has_prefix_append, drop_append.
Qed.

Lemma line_to_branch n :
  ref_name n = true ->
  PyStr.strip ("origin/" ++ n) = "origin/" ++ n
  /\ PyStr.replace "origin/" "" ("origin/" ++ n) = n.
Proof.
  intros H. split.
  - unfold PyStr.strip. change (PyStr.lstrip ("origin/" ++ n)) with ("origin/" ++ n).
    apply rstrip_no_blank. now apply ref_name_line.
  - unfold ref_name in H. apply andb_prop in H as [_ H].
    apply negb_true_iff in H.
    unfold PyStr.replace.
    change (String.length ("origin/" ++ n)) with (S (6 + String.length n)).
    rewrite replace_from_prefix.
    now apply replace_from_absent.
Qed.

(** The lines of a listing, as the enumeration filters and maps
    them. *)
Lemma lines_to_branches names :
  forallb ref_name names = true ->
  map (fun b => PyStr.replace "origin/" "" (PyStr.strip b))
      (filter (fun l => negb (String.eqb (PyStr.strip l) ""))
              (map (append "origin/") names))
  = names.
Proof.
  induction names as [|n r IH]; [reflexivity|].
  cbn [forallb map filter]. intros H. apply andb_prop in H as [Hn H].
  destruct (line_to_branch n Hn) as [Hs Hr]. rewrite Hs.
  change (("origin/" ++ n =? "")%string) with false.
  cbn [negb map]. now rewrite Hs, Hr, IH.
Qed.

End ListingFacts.

Module EnumerationFacts.
Import FixBranches ExecFacts.

Section WithHandler.
Context {W : Type} (h : handler W) (lib : pylib).

(** What [get_remote_branches] makes of git's listing: the names, in
    the order of the listing. *)
Lemma enumerate_listing w r w1 names :
  on_run h (Shell enumerate_command) w = (r, w1) ->
  returncode r = 0%Z ->
  stdout r = ref_lines names ->
  forallb ref_name names = true ->
  exec h get_remote_branches w
  = (names, w1, [EvRun (Shell enumerate_command) r]).
Proof.
  intros Hr Hc Hs Hn. unfold get_remote_branches, run.
  cbn [pbind subprocess_run exec].
  change (Shell _) with (Shell enumerate_command). rewrite Hr, Hc, Hs.
  cbn [Z.eqb negb andb pbind exec].
  destruct names as [|n names]; [reflexivity|].
  assert (Hne : n :: names <> []) by discriminate.
  rewrite (strip_ref_lines _ Hne Hn), (strip_joined _ Hne Hn).
  destruct (String.eqb_spec (joined (n :: names)) "") as [E|_];
    [now apply joined_not_empty in E|].
  unfold nonblank_lines. rewrite (split_lines_joined _ Hne Hn).
  cbn [exec]. now rewrite (lines_to_branches _ Hn).
Qed.

(** A failed enumeration is an empty one. *)
Lemma enumerate_failed w r w1 :
  on_run h (Shell enumerate_command) w = (r, w1) ->
  returncode r <> 0%Z ->
  exec h get_remote_branches w
  = ([], w1, [EvRun (Shell enumerate_command) r]).
Proof.
  intros Hr Hc. unfold get_remote_branches, run.
  cbn [pbind subprocess_run exec].
  change (Shell _) with (Shell enumerate_command). rewrite Hr.
  apply Z.eqb_neq in Hc. rewrite Hc. reflexivity.
Qed.

Lemma exec_print_summary results w :
  exec h (print_summary results) w = (tt, w, map summary_event results).
Proof.
  induction results as [|r results IH]; [reflexivity|].
  cbn [print_summary]. rewrite exec_bind, exec_print, IH. reflexivity.
Qed.

End WithHandler.

End EnumerationFacts.

(** * The specification's claims about the Fix Engine *)

Section FixEngineClaims.
Import FixEngine FixEngineFacts DictFacts.

(** C1, as the specification states it, fails: the stytch record is
    repaired by a first pass, and a second pass over the repaired
    record reports the org-page repair once more. *)
Lemma second_pass_stytch_fires_again :
  fix_data Sim.runtime Scenario.stytch_record (JStr "com.stytch-mcp")
  = ok (Scenario.stytch_fixed, ["repo URL: org page -> specific repo"])
  /\ fix_data Sim.runtime Scenario.stytch_fixed (JStr "com.stytch-mcp")
     = ok (Scenario.stytch_fixed, ["repo URL: org page -> specific repo"])
  /\ fix_data Sim.runtime Scenario.stytch_fixed (JStr "com.stytch-mcp")
     <> ok (Scenario.stytch_fixed, []).
Proof. repeat split; try reflexivity. discriminate. Qed.

(** C1, amended: whenever a first pass of the Fix Engine returns, a
    second pass over its record returns the same record, and its fix
    list holds exactly the entries of the two blocks that assign without
    comparing (the stytch org-page repair and the package-argument
    repair); it is empty for every other identifier. *)
Theorem second_pass_only_unconditional lib data sid d1 f1 :
  fix_data lib data sid = ok (d1, f1) ->
  fix_data lib d1 sid = ok (d1, unconditional_fixes sid)
  /\ (unconditional_fixes sid = []
      <-> Py.eq_str sid "com.stytch-mcp" = false
          /\ Py.eq_str sid "com.pagerduty-mcp" = false).
Proof.
  intros H. split.
  - apply fix_data_summary in H as (dfin & rest & -> & S & _).
    now apply fix_data_settled.
  - unfold unconditional_fixes.
    destruct sid as [| | |s| |]; try (simpl; now intuition).
    cbv [Py.eq_str Py.lookup PACKAGE_FIXES find fst snd ok].
    rewrite (String.eqb_sym "com.pagerduty-mcp" s).
    destruct (String.eqb s "com.stytch-mcp");
      destruct (String.eqb s "com.pagerduty-mcp"); cbn [app];
      split; intros; try discriminate; intuition discriminate.
Qed.

Lemma second_pass_only_unconditional_witness :
  fix_data Sim.runtime Scenario.dir_record (JStr "community.example")
  = ok (Scenario.dir_fixed, ["input type 'dir' -> 'text' for path"])
  /\ fix_data Sim.runtime Scenario.dir_fixed (JStr "community.example")
     = ok (Scenario.dir_fixed, []).
Proof.
  split; [reflexivity|].
  exact (proj1 (second_pass_only_unconditional
                  Sim.runtime Scenario.dir_record (JStr "community.example")
                  Scenario.dir_fixed
                  ["input type 'dir' -> 'text' for path"] eq_refl)).
Defined.

(** C7, as the specification states it, fails: the second offending
    input of the record has no [id], so the engine raises at it; the
    record is not written, and its first input, which has an [id], keeps
    the type [dir] in the file. *)
Lemma named_offender_left_unrepaired :
  let inp := JObj [("id", JStr "path"); ("type", JStr "dir")] in
  let x := exec Sim.git (FixBranches.process_file Sim.runtime "servers/half.json")
                Worlds.half_named in
  fix_data Sim.runtime Scenario.half_named_record (JStr "community.example")
  = raise (KeyError "id")
  /\ value_of x = [("servers/half.json", "PARSE_ERROR: 'id'")]
  /\ on_load Sim.git "servers/half.json" (world_of x)
     = inr Scenario.half_named_record
  /\ In inp (record_inputs Scenario.half_named_record)
  /\ type_valid inp = false.
Proof. vm_compute. repeat split. left. reflexivity. Qed.

(** C7, amended: on every record it can process to the end (objects
    where it calls [get], a list of input objects, an identifier on
    every input whose type is outside the enumeration) the Fix Engine
    returns; and whenever it returns, the inputs of its record are the
    inputs it was given with every type outside the enumeration
    rewritten to [text]; every offending input has an identifier and
    gets one entry, in order, of the form
    [input type '<old>' -> 'text' for <id>], ahead of the entries of the
    other blocks; and every input of the result has a type of the
    enumeration. *)
Theorem input_types_coerced lib data sid :
  (well_formed data sid = true ->
   exists d1 f1, fix_data lib data sid = ok (d1, f1))
  /\ forall d1 f1,
      fix_data lib data sid = ok (d1, f1) ->
      record_inputs d1 = map coerced (record_inputs data)
      /\ (forall inp, In inp (record_inputs data) -> type_valid inp = false ->
                      has_id inp /\ field_of "type" (coerced inp) = JStr "text")
      /\ (forall inp, In inp (record_inputs d1) -> type_valid inp = true)
      /\ exists rest,
          f1 = input_entries lib (record_inputs data) ++ rest
          /\ incl rest later_entries.
Proof.
  split; [apply fix_data_total|].
  intros d1 f1 H.
  apply fix_data_summary in H as (dfin & rest & -> & _ & RI & V & -> & I & N).
  split; [exact RI|]. split; [|split].
  - intros inp Hin Hv. destruct (N inp Hin Hv) as (d & i & -> & Hi).
    split; [exists d, i; auto|].
    unfold coerced. rewrite Hv. simpl. now rewrite get_set_same.
  - intros inp Hin. rewrite forallb_forall in V. auto.
  - exists rest. auto.
Qed.

Lemma input_types_coerced_witness :
  exists d1 f1,
    fix_data Sim.runtime Scenario.dir_record (JStr "community.example")
    = ok (d1, f1)
    /\ record_inputs d1 = [JObj [("id", JStr "path"); ("type", JStr "text")]]
    /\ exists rest, f1 = "input type 'dir' -> 'text' for path" :: rest.
Proof.
  destruct (input_types_coerced Sim.runtime Scenario.dir_record
              (JStr "community.example")) as [T C].
  destruct (T eq_refl) as (d1 & f1 & E).
  destruct (C d1 f1 E) as (RI & _ & _ & rest & F & _).
  exists d1, f1. split; [exact E|]. split; [exact RI|].
  exists rest. exact F.
Defined.

End FixEngineClaims.

Section FixDefinitionClaims.
Import FixEngine FixBranches FixEngineFacts ExecFacts.
Context {W : Type} (h : handler W) (lib : pylib).

(** C8, amended: [fix_definition] writes the record back if and
    only if the fix list it has computed is not empty; what it writes is
    the repaired record, to the path it read; with an empty fix list the
    run consists of the read alone and leaves the world as it was; and
    when what it writes is the very record it has read, the fix list
    holds the entries of the two unconditional blocks only, so the
    identifier is [com.stytch-mcp] or [com.pagerduty-mcp]: no other
    unmodified record is written. *)
Theorem write_back_iff_fixes path sid w :
  let x := exec h (fix_definition lib path sid) w in
  ((exists p d r, In (EvDump p d r) (trace_of x))
   <-> (exists f, computed_fixes h lib path sid w = Some f /\ f <> []))
  /\ (forall p d r, In (EvDump p d r) (trace_of x) ->
        p = path
        /\ exists data f, on_load h path w = inr data
                          /\ fix_data lib data sid = ok (d, f))
  /\ (computed_fixes h lib path sid w = Some [] ->
      x = (ok [], w, [EvLoad path (on_load h path w)]))
  /\ (forall p d r, In (EvDump p d r) (trace_of x) ->
        on_load h path w = inr d ->
        computed_fixes h lib path sid w = Some (unconditional_fixes sid)
        /\ (Py.eq_str sid "com.stytch-mcp" = true
            \/ Py.eq_str sid "com.pagerduty-mcp" = true)).
Proof.
  unfold fix_definition, computed_fixes. simpl.
  destruct (on_load h path w) as [e|data] eqn:L; simpl.
  { split; [split|split; [|split]].
    - intros (p & d & r & [Hin|[]]). discriminate.
    - intros (f & Hf & _). discriminate.
    - intros p d r [Hin|[]]. discriminate.
    - discriminate.
    - intros p d r [Hin|[]]. discriminate. }
  destruct (fix_data lib data sid) as [e|[d' fixes]] eqn:F; simpl.
  { split; [split|split; [|split]].
    - intros (p & d & r & [Hin|[]]). discriminate.
    - intros (f & Hf & _). discriminate.
    - intros p d r [Hin|[]]. discriminate.
    - discriminate.
    - intros p d r [Hin|[]]. discriminate. }
  destruct fixes as [|fx fixes]; simpl.
  { split; [split|split; [|split]].
    - intros (p & d & r & [Hin|[]]). discriminate.
    - intros (f & [= <-] & Hne). now contradiction Hne.
    - intros p d r [Hin|[]]. discriminate.
    - reflexivity.
    - intros p d r [Hin|[]]. discriminate. }
  assert (U : forall d, d = d' -> @inr exn json data = inr d ->
              Some (fx :: fixes) = Some (unconditional_fixes sid)
              /\ (Py.eq_str sid "com.stytch-mcp" = true
                  \/ Py.eq_str sid "com.pagerduty-mcp" = true)).
  { intros d -> E. injection E as ->.
    apply unchanged_means_unconditional in F.
    split; [now rewrite F|].
    destruct (Py.eq_str sid "com.stytch-mcp") eqn:E1; [now left|].
    destruct (Py.eq_str sid "com.pagerduty-mcp") eqn:E2; [now right|].
    rewrite (proj2 (unconditional_fixes_nil sid) (conj E1 E2)) in F.
    discriminate F. }
  destruct (on_dump h path d' w) as [[e|] w1]; simpl.
  - split; [split|split; [|split]].
    + intros _. exists (fx :: fixes). split; [reflexivity|discriminate].
    + intros _. exists path, d', (Some e). right. left. reflexivity.
    + intros p d r [H|[H|[]]]; [discriminate|]. injection H as <- <- <-.
      split; [reflexivity|]. exists data, (fx :: fixes). auto.
    + discriminate.
    + intros p d r [H|[H|[]]]; [discriminate|]. injection H as _ <- _.
      now apply U.
  - split; [split|split; [|split]].
    + intros _. exists (fx :: fixes). split; [reflexivity|discriminate].
    + intros _. exists path, d', None. right. left. reflexivity.
    + intros p d r [H|[H|[]]]; [discriminate|]. injection H as <- <- <-.
      split; [reflexivity|]. exists data, (fx :: fixes). auto.
    + discriminate.
    + intros p d r [H|[H|[]]]; [discriminate|]. injection H as _ <- _.
      now apply U.
Qed.

(** The first offending input without identifier ends the loop over
    the inputs with a [KeyError]. *)
Lemma fix_input_list_unnamed l :
  forallb is_obj l = true -> existsb unnamed_offender l = true ->
  fix_input_list lib l = raise (KeyError "id").
Proof.
  induction l as [|inp l IH]; simpl; [discriminate|].
  intros Ho Hu. apply andb_true_iff in Ho as [Ho1 Ho2].
  destruct inp as [| | | | |d]; try discriminate.
  unfold fix_input, unnamed_offender, type_valid in *. simpl in *.
  destruct (Py.in_strs _ VALID_INPUT_TYPES); simpl in *.
  - now rewrite (IH Ho2 Hu).
  - rewrite DictFacts.get_set_other by discriminate.
    destruct (Dict.get "id" d); simpl in *; [|reflexivity].
    now rewrite (IH Ho2 Hu).
Qed.

Lemma fix_data_unnamed data l sid :
  declares_inputs data l ->
  forallb is_obj l = true -> existsb unnamed_offender l = true ->
  fix_data lib data sid = raise (KeyError "id").
Proof.
  intros (d & td & md & -> & T & M & I) Ho Hu.
  unfold fix_data, fix_input_types. simpl. rewrite T. simpl.
  rewrite M. simpl. rewrite I. simpl.
  now rewrite (fix_input_list_unnamed l Ho Hu).
Qed.

(** C10: a record with an input that is outside the enumeration and
    has no [id] (all inputs being objects) makes the Fix Engine raise
    [KeyError('id')] without writing; the orchestrator's loop over the
    changed files catches it, records [PARSE_ERROR: 'id'] for that file
    and goes on with the remaining files from the same world. *)
Theorem unnamed_offender_is_parse_error f w data l :
  let filepath := os_path_join lib REPO_DIR f in
  on_exists h filepath w = true ->
  PyStr.endswith f ".json" = true ->
  on_load h filepath w = inr data ->
  declares_inputs data l ->
  forallb is_obj l = true ->
  existsb unnamed_offender l = true ->
  (forall sid, fix_data lib data sid = raise (KeyError "id"))
  /\ (forall sid, exec h (fix_definition lib filepath sid) w
                  = (raise (KeyError "id"), w, [EvLoad filepath (inr data)]))
  /\ exec h (process_file lib f) w
     = ([(f, "PARSE_ERROR: 'id'")], w,
        [EvExists filepath true; EvLoad filepath (inr data);
         EvLoad filepath (inr data)])
  /\ forall rest acc,
      exec h (process_files lib (f :: rest) acc) w
      = let '(r, w', t) :=
          exec h (process_files lib rest (acc ++ [(f, "PARSE_ERROR: 'id'")])) w in
        (r, w', [EvExists filepath true; EvLoad filepath (inr data);
                 EvLoad filepath (inr data)] ++ t).
Proof.
  intros filepath He Hj Hl Hd Ho Hu.
  assert (F : forall sid, fix_data lib data sid = raise (KeyError "id")).
  { intros sid. now apply (fix_data_unnamed data l). }
  assert (D : forall sid, exec h (fix_definition lib filepath sid) w
                          = (raise (KeyError "id"), w,
                             [EvLoad filepath (inr data)])).
  { intros sid. unfold fix_definition. simpl. rewrite Hl. simpl.
    rewrite F. reflexivity. }
  assert (P : exec h (process_file lib f) w
              = ([(f, "PARSE_ERROR: 'id'")], w,
                 [EvExists filepath true; EvLoad filepath (inr data);
                  EvLoad filepath (inr data)])).
  { unfold process_file. fold filepath.
    cbn -[fix_definition]. rewrite He, Hj. cbn -[fix_definition].
    rewrite Hl.
    destruct Hd as (d & td & md & -> & _). cbn -[fix_definition].
    rewrite exec_bind.
    rewrite (D (match Dict.get "id" d with Some v => v | None => JStr "" end)).
    reflexivity. }
  repeat split; auto.
  intros rest acc. cbn [process_files]. rewrite exec_bind, P.
  destruct (exec h (process_files lib rest _) w) as [[r w'] t].
  reflexivity.
Qed.

End FixDefinitionClaims.

(** * The specification's claims about the branch pipeline *)

Section PipelineClaims.
Import FixBranches ExecFacts PipelineFacts.
Context {W : Type} (h : handler W) (lib : pylib).

(** Every result names the branch it was computed for. *)
Lemma process_branch_names_branch b w :
  r_branch (value_of (exec h (process_branch lib b) w)) = b.
Proof.
  branch_paths h lib b w; try reflexivity.
  unfold value_of. cbn [fst]. destruct (push_error_seen r7); reflexivity.
Qed.

(** No other command of the pipeline is the push. *)
Ltac not_the_push :=
  match goal with
  | E : EvRun (Shell _) _ = EvRun (Shell (push_command _)) _ |- _ =>
      exfalso; injection E as E _;
      unfold push_command, delete_branch, checkout_main in E;
      cbn in E; discriminate E
  end.

(** C4, amended: if the push of a branch answers [p], the result of
    the branch is [PUSH_ERROR], carrying the stripped diagnostic of [p],
    exactly when [p] failed and that diagnostic contains [error] in any
    letter case; in every other case, a failed push without that word
    included, the result is [PUSHED] and carries no diagnostic. *)
Theorem push_status_follows_diagnostic b w p :
  let x := exec h (process_branch lib b) w in
  In (EvRun (Shell (push_command (fix_branch_name b))) p) (trace_of x) ->
  r_status (value_of x)
  = (if push_error_seen p then "PUSH_ERROR" else "PUSHED")
  /\ r_error (value_of x)
     = (if push_error_seen p then Some (PyStr.strip (stderr p)) else None).
Proof.
  intros x Hin. subst x. revert Hin.
  branch_paths h lib b w; unfold trace_of, value_of; cbn [fst snd];
    intros Hin.
  - (* NO_CHANGES *)
    repeat (destruct Hin as [Hin|Hin]; [not_the_push|]). contradiction.
  - (* the push is reached *)
    cbn [app] in Hin.
    do 4 (destruct Hin as [Hin|Hin]; [not_the_push|]).
    apply in_app_or in Hin as [Hin|Hin].
    { exfalso. revert Hin.
      change t5 with (trace_of (all_fixes, w5, t5)). rewrite <- E5.
      apply quiet_trace, quiet_process_files. }
    apply in_app_or in Hin as [Hin|Hin].
    { exfalso.
      change t6 with (trace_of (tt, w6, t6)) in Hin. rewrite <- E6 in Hin.
      apply commit_fixes_runs in Hin as [E|(m & E)];
        injection E as E; unfold push_command in E; cbn in E;
        discriminate E. }
    destruct Hin as [Hin|[Hin|[]]].
    + injection Hin as <-. destruct (push_error_seen r7); auto.
    + exfalso. injection Hin as E _. unfold push_command, checkout_main in E.
      cbn in E. discriminate E.
  - (* REBASE_CONFLICT *)
    repeat (destruct Hin as [Hin|Hin]; [not_the_push|]). contradiction.
  - (* ERROR *)
    repeat (destruct Hin as [Hin|Hin]; [not_the_push|]). contradiction.
Qed.

(** The loop over the branches appends one result per branch, in the
    order of the list it is given. *)
Lemma process_all_order branches : forall total i results w,
  map r_branch (value_of (exec h (process_all lib total i branches results) w))
  = map r_branch results ++ branches.
Proof.
  induction branches as [|b branches IH]; intros total i results w.
  - cbn. now rewrite app_nil_r.
  - cbn [process_all]. rewrite exec_bind, exec_print. cbv beta iota zeta.
    rewrite exec_bind.
    pose proof (process_branch_names_branch b w) as Hb.
    destruct (exec h (process_branch lib b) w) as [[res w1] t1].
    unfold value_of in Hb. cbn [fst] in Hb.
    rewrite exec_bind, exec_print. cbv beta iota zeta.
    rewrite exec_bind.
    destruct (exec h _ w1) as [[[] w2] t2].
    specialize (IH total (S i) (results ++ [res]) w2).
    destruct (exec h (process_all lib total (S i) branches (results ++ [res])) w2)
      as [[rs w3] t3].
    unfold value_of in *. cbn [fst] in *.
    rewrite IH, map_app, <- app_assoc. cbn. now rewrite Hb.
Qed.

(** The orchestrator processes the branches in the order in which
    [get_remote_branches] enumerates them, one result per branch. *)
Lemma processed_in_enumeration_order w :
  let w1 := snd (on_run h (Shell checkout_main) w) in
  map r_branch (value_of (exec h (main lib) w))
  = value_of (exec h get_remote_branches w1).
Proof.
  unfold main. rewrite exec_bind, exec_run.
  destruct (on_run h (Shell checkout_main) w) as [r0 w1].
  cbv beta iota zeta. cbn [snd]. rewrite exec_bind.
  destruct (exec h get_remote_branches w1) as [[branches w2] t2].
  rewrite exec_bind, exec_print. cbv beta iota zeta.
  rewrite exec_bind.
  pose proof (process_all_order branches (List.length branches) 0 [] w2) as Ho.
  destruct (exec h (process_all lib (List.length branches) 0 branches []) w2)
    as [[results w3] t3].
  rewrite exec_bind, exec_print. cbv beta iota zeta.
  rewrite exec_bind.
  destruct (exec h (print_summary results) w3) as [[[] w4] t4].
  unfold value_of in *. cbn [fst exec] in *. exact Ho.
Qed.

(** The run ends with the summary: its header, then one line per
    result, in the order of the results. *)
Lemma main_ends_with_summary w :
  let x := exec h (main lib) w in
  exists t,
    trace_of x
    = t ++ EvPrint (newline ++ newline ++ "=== SUMMARY ===")
           :: map summary_event (value_of x).
Proof.
  unfold main. rewrite exec_bind, exec_run.
  destruct (on_run h (Shell checkout_main) w) as [r0 w1].
  cbv beta iota zeta. rewrite exec_bind.
  destruct (exec h get_remote_branches w1) as [[branches w2] t2].
  rewrite exec_bind, exec_print. cbv beta iota zeta.
  rewrite exec_bind.
  destruct (exec h (process_all lib (List.length branches) 0 branches []) w2)
    as [[results w3] t3].
  rewrite exec_bind, exec_print. cbv beta iota zeta.
  rewrite exec_bind, EnumerationFacts.exec_print_summary.
  unfold trace_of, value_of. cbn [fst snd exec].
  exists ([EvRun (Shell checkout_main) r0] ++ t2
          ++ [EvPrint ("Found " ++ str_of_nat (List.length branches)
                         ++ " branches to process")] ++ t3).
  rewrite app_nil_r, <- !app_assoc. reflexivity.
Qed.


End PipelineClaims.

Section BackendClaims.
Import FixBranches ExecFacts PipelineFacts.
Context {W : Type} (h : handler W) (head_of : W -> string)
        (has_branch : W -> string -> bool) (clean : W -> bool).
Hypothesis K : backend_contract h head_of has_branch clean.
Variable lib : pylib.

(** C5: when the checkout succeeded and the rebase onto trunk fails,
    the pipeline runs [git rebase --abort], then [git checkout main],
    then [git branch -D] on the fix branch, and only then returns
    [REBASE_CONFLICT] with the stripped diagnostic of the rebase; when
    git carries out these three commands, trunk is checked out, the fix
    branch is gone and no tracked file is modified. *)
Theorem rebase_conflict_rolls_back b w r1 w1 r2 w2 r3 w3 r4 w4 r5 w5 r6 w6 :
  let fixb := fix_branch_name b in
  let checkout_b := ("git checkout -b " ++ fixb ++ " origin/" ++ b)%string in
  on_run h (Shell (delete_branch fixb)) w = (r1, w1) ->
  on_run h (Shell checkout_b) w1 = (r2, w2) ->
  returncode r2 = 0%Z ->
  on_run h (Shell "git rebase main") w2 = (r3, w3) ->
  returncode r3 <> 0%Z ->
  on_run h (Shell "git rebase --abort") w3 = (r4, w4) ->
  on_run h (Shell checkout_main) w4 = (r5, w5) ->
  on_run h (Shell (delete_branch fixb)) w5 = (r6, w6) ->
  exec h (process_branch lib b) w
  = (BranchResult b None "REBASE_CONFLICT" (Some (PyStr.strip (stderr r3)))
       None None,
     w6,
     [EvRun (Shell (delete_branch fixb)) r1; EvRun (Shell checkout_b) r2;
      EvRun (Shell "git rebase main") r3;
      EvRun (Shell "git rebase --abort") r4;
      EvRun (Shell checkout_main) r5;
      EvRun (Shell (delete_branch fixb)) r6])
  /\ (returncode r4 = 0%Z -> returncode r5 = 0%Z -> returncode r6 = 0%Z ->
      head_of w6 = "main" /\ has_branch w6 fixb = false /\ clean w6 = true).
Proof.
  intros fixb checkout_b E1 E2 H2 E3 H3 E4 E5 E6. split.
  - exact (path_rebase_conflict h lib b w w1 w2 r1 r2 E1 E2 w3 r3 H2 E3
             r4 w4 r5 w5 r6 w6 H3 E4 E5 E6).
  - intros H4 H5 H6.
    pose proof (abort_restores K w3) as Ka.
    pose proof (checkout_main_lands K w4) as Kc.
    pose proof (delete_keeps K fixb w5) as Kd.
    unfold checkout_main, delete_branch in *.
    rewrite E4 in Ka. rewrite E5 in Kc. rewrite E6 in Kd.
    cbn [fst snd] in *.
    destruct (Kc H5) as [Hh Hc]. destruct Kd as (Dh & Dc & Db).
    rewrite Dh, Dc. auto.
Qed.


End BackendClaims.

(** * The claims on the simulated repository *)

Section PipelineScenarios.
Import FixBranches.

(** C4, as the specification states it, fails: the remote refuses the
    push with a [fatal:] line, and the branch is reported [PUSHED]. *)
Lemma failed_push_reported_pushed :
  let x := exec Sim.git (process_branch Sim.runtime "claude/add-x")
                Worlds.push_refused in
  In (EvRun (Shell "git push -u origin fix/x --force")
            (Sim.failed 128
               "fatal: unable to access 'https://github.com/': timed out"))
     (trace_of x)
  /\ r_status (value_of x) = "PUSHED"
  /\ r_error (value_of x) = None.
Proof.
  vm_compute. repeat split. do 10 right. left. reflexivity.
Qed.

Lemma push_status_follows_diagnostic_witness :
  let x := exec Sim.git (process_branch Sim.runtime "claude/add-x")
                Worlds.push_rejected in
  r_status (value_of x) = "PUSH_ERROR"
  /\ r_error (value_of x)
     = Some "error: failed to push some refs to 'origin'".
Proof.
  apply (push_status_follows_diagnostic
           Sim.git Sim.runtime "claude/add-x" Worlds.push_rejected
           (Sim.failed 1 "error: failed to push some refs to 'origin'")).
  vm_compute. do 10 right. left. reflexivity.
Defined.

Lemma rebase_conflict_rolls_back_witness :
  let x := exec Sim.git (process_branch Sim.runtime "claude/add-x")
                Worlds.conflict in
  r_status (value_of x) = "REBASE_CONFLICT"
  /\ Sim.head (world_of x) = "main"
  /\ Sim.has_branch (world_of x) "fix/x" = false
  /\ Sim.clean (world_of x) = true.
Proof.
  edestruct (rebase_conflict_rolls_back
               Sim.git Sim.head Sim.has_branch Sim.clean SimFacts.sim_contract
               Sim.runtime "claude/add-x" Worlds.conflict)
    as [Hx Hs];
    [vm_compute; reflexivity | vm_compute; reflexivity | reflexivity
     | vm_compute; reflexivity | |
     vm_compute; reflexivity | vm_compute; reflexivity
     | vm_compute; reflexivity | ].
  { cbn. discriminate. }
  cbv zeta. rewrite Hx.
  destruct Hs as (A & B & C); try reflexivity.
  repeat split; assumption.
Defined.



(** C8, as the specification states it, fails: the stytch record a
    first run has repaired is read, and the very same record is written
    back, because the org-page block reports its entry on every run. *)
Lemma unchanged_record_rewritten :
  let path := "servers/com.stytch-mcp.json" in
  let x := exec Sim.git
                (fix_definition Sim.runtime path (JStr "com.stytch-mcp"))
                Worlds.stytch_settled in
  on_load Sim.git path Worlds.stytch_settled = inr Scenario.stytch_fixed
  /\ In (EvDump path Scenario.stytch_fixed None) (trace_of x)
  /\ value_of x = ok ["repo URL: org page -> specific repo"].
Proof. vm_compute. repeat split. right. left. reflexivity. Qed.


Lemma unnamed_offender_is_parse_error_witness :
  exec Sim.git (process_file Sim.runtime "servers/bad.json") Worlds.bad_input
  = ([("servers/bad.json", "PARSE_ERROR: 'id'")], Worlds.bad_input,
     [EvExists "servers/bad.json" true;
      EvLoad "servers/bad.json" (inr Scenario.unnamed_record);
      EvLoad "servers/bad.json" (inr Scenario.unnamed_record)]).
Proof.
  assert (D : declares_inputs Scenario.unnamed_record
                              [JObj [("type", JStr "dir")]]).
  { do 3 eexists. repeat split; reflexivity. }
  exact (proj1 (proj2 (proj2
           (unnamed_offender_is_parse_error
              Sim.git Sim.runtime "servers/bad.json" Worlds.bad_input
              Scenario.unnamed_record [JObj [("type", JStr "dir")]]
              eq_refl eq_refl eq_refl D eq_refl eq_refl)))).
Defined.

End PipelineScenarios.

(** * The specification's claims about the rename script *)

Section RenameClaims.
Import RenameFiles ExecFacts.
Context {W : Type} (h : handler W) (lib : pylib).

(** C3, amended: a stdio record whose file is not exempt and has no
    suffix yet, and whose launcher command is missing or empty, is left
    untouched (no write, no move) and flagged with [SKIP ...: unknown
    tool].  A non-empty command other than [npx], [uvx], [docker],
    [snyk] and [http] is itself taken as the suffix: the record is
    written back with [-<command>] appended to its id, and moved to
    [servers/<stem>-<command>.json]; its name is kept (the empty string
    when it had none), except that the command [cli] appends [ (CLI)] to
    it. *)
Theorem unrecognized_command_handling branch f w d td :
  let basename := os_path_basename lib f in
  let name_no_ext := PyStr.replace ".json" "" basename in
  let cmd := match Dict.get "command" td with
             | Some c => c
             | None => JStr ""
             end in
  let old_name := match Dict.get "name" d with
                  | Some n => n
                  | None => JStr ""
                  end in
  PyStr.mem basename HTTP_ONLY_FILES = false ->
  existsb (PyStr.endswith name_no_ext) KNOWN_SUFFIXES = false ->
  on_load h f w = inr (JObj d) ->
  Py.get (JObj d) "transport" (JObj []) = ok (JObj td) ->
  Py.eq_str (field_of "type" (JObj td)) "http" = false ->
  (Py.truthy cmd = false ->
   exec h (rename_file lib branch f) w
   = (ok None, w,
      [EvLoad f (inr (JObj d));
       EvPrint ("SKIP " ++ branch ++ "/" ++ basename ++ ": unknown tool")]))
  /\ (forall c old_id w1 r w2,
        cmd = JStr c -> c <> "" ->
        PyStr.mem c ["npx"; "uvx"; "docker"; "snyk"; "http"] = false ->
        Dict.get "id" d = Some (JStr old_id) ->
        let new_name := if String.eqb c "cli"
                        then JStr (Py.str lib old_name ++ " (CLI)")
                        else old_name in
        let new_id := JStr (old_id ++ "-" ++ c) in
        let defn' := JObj (Dict.set "name" new_name (Dict.set "id" new_id d)) in
        let new_basename := (name_no_ext ++ "-" ++ c ++ ".json")%string in
        let new_path := ("servers/" ++ new_basename)%string in
        let mv := Argv ["git"; "mv"; f; new_path] in
        on_dump h f defn' w = (None, w1) ->
        on_run h mv w1 = (r, w2) ->
        exec h (rename_file lib branch f) w
        = (if Z.eqb (returncode r) 0
           then ok (Some (basename, new_basename, new_id)) else ok None,
           w2,
           [EvLoad f (inr (JObj d)); EvDump f defn' None; EvRun mv r]
             ++ (if Z.eqb (returncode r) 0 then []
                 else [EvPrint ("ERROR " ++ branch ++ ": git mv " ++ f
                                ++ " -> " ++ new_path
                                ++ " failed: " ++ stderr r)]))).
Proof.
  intros basename name_no_ext cmd old_name Hh Hs Hl Ht Hty.
  split.
  - intros Hf.
    assert (G : get_tool_suffix (JObj td) = ok JNull).
    { unfold get_tool_suffix. simpl in *. rewrite Hty. simpl. fold cmd.
      destruct cmd as [| | |c| |]; simpl in *; try (now rewrite ?Hf).
      apply negb_false_iff, String.eqb_eq in Hf. now subst c. }
    unfold rename_file. fold basename. rewrite Hh.
    fold name_no_ext. rewrite Hs. cbn [pbind json_load]. cbn [exec].
    rewrite Hl, Ht. cbn [rbind ok]. rewrite G. reflexivity.
  - intros c old_id w1 r w2 Hc Hne Hm Hid new_name new_id defn' new_basename
           new_path mv Hd Hr.
    cbn [PyStr.mem existsb] in Hm.
    repeat (apply orb_false_elim in Hm as [? Hm]).
    assert (Hc' : (c =? "")%string = false) by now apply String.eqb_neq.
    assert (G : get_tool_suffix (JObj td) = ok (JStr c)).
    { unfold get_tool_suffix. simpl in *. rewrite Hty. simpl. fold cmd.
      rewrite Hc. unfold PyStr.mem. simpl.
      repeat match goal with E : (c =? _)%string = false |- _ =>
               rewrite E; clear E end.
      reflexivity. }
    assert (P : plan_rename lib name_no_ext (JObj d) (JStr c)
                = ok (new_basename, new_path, new_id, defn')).
    { unfold plan_rename, labelled_name. simpl. rewrite Hid. simpl.
      fold old_name.
      repeat match goal with E : (c =? _)%string = false |- _ =>
               rewrite E; clear E end.
      reflexivity. }
    unfold rename_file. fold basename. rewrite Hh.
    fold name_no_ext. rewrite Hs. cbn [pbind json_load]. cbn [exec].
    rewrite Hl, Ht. cbn [rbind ok]. rewrite G.
    unfold ok at 1. cbn [Py.truthy Py.eq_str]. rewrite Hc'.
    match goal with E : (c =? "http")%string = false |- _ => rewrite E end.
    unfold mv in Hr. clearbody defn' new_id new_basename new_path.
    rewrite P. unfold ok.
    cbn [negb andb pbind json_dump exec]. rewrite Hd.
    unfold run, subprocess_run. cbn [pbind exec]. rewrite Hr.
    destruct (Z.eqb (returncode r) 0); reflexivity.
Qed.

(** What [plan_rename] computes: the new id is the old one with the
    suffix appended, and the updated record carries it. *)
Lemma plan_rename_id name_no_ext defn suffix nb np nid defn' :
  plan_rename lib name_no_ext defn suffix = ok (nb, np, nid, defn') ->
  Py.getitem defn' "id" = ok nid
  /\ np = ("servers/" ++ nb)%string
  /\ exists old_id,
      Py.getitem defn "id" = ok (JStr old_id)
      /\ nid = JStr (old_id ++ "-" ++ Py.str lib suffix).
Proof.
  unfold plan_rename. destruct defn as [| | | | |d]; try discriminate.
  cbn. destruct (Dict.get "id" d) as [[| | |s| |]|]; try discriminate.
  cbn. intros H. injection H as <- <- <- <-. cbn.
  rewrite DictFacts.get_set_other by discriminate.
  rewrite DictFacts.get_set_same. eauto.
Qed.

Hypothesis K : store_contract h.

(** C2, amended: when [git mv] fails after the record has been
    rewritten, the rename script reports the error and does not record
    the renaming, but it does not undo the write: the file keeps its old
    name and holds the record with the new id.  The script writes to the
    old path only, so the new name with the old id never arises. *)
Theorem failed_move_keeps_rewritten_record
        branch f w defn suffix nb np nid defn' w1 r w2 :
  let basename := os_path_basename lib f in
  let name_no_ext := PyStr.replace ".json" "" basename in
  PyStr.mem basename HTTP_ONLY_FILES = false ->
  existsb (PyStr.endswith name_no_ext) KNOWN_SUFFIXES = false ->
  on_load h f w = inr defn ->
  (transport <- Py.get defn "transport" (JObj []) ;;
   get_tool_suffix transport)%res = ok suffix ->
  Py.truthy suffix = true ->
  Py.eq_str suffix "http" = false ->
  plan_rename lib name_no_ext defn suffix = ok (nb, np, nid, defn') ->
  on_dump h f defn' w = (None, w1) ->
  on_run h (Argv ["git"; "mv"; f; np]) w1 = (r, w2) ->
  returncode r <> 0%Z ->
  exec h (rename_file lib branch f) w
  = (ok None, w2,
     [EvLoad f (inr defn); EvDump f defn' None;
      EvRun (Argv ["git"; "mv"; f; np]) r;
      EvPrint ("ERROR " ++ branch ++ ": git mv " ++ f ++ " -> " ++ np
               ++ " failed: " ++ stderr r)])
  /\ on_load h f w2 = inr defn'
  /\ Py.getitem defn' "id" = ok nid
  /\ exists old_id,
      Py.getitem defn "id" = ok (JStr old_id)
      /\ nid = JStr (old_id ++ "-" ++ Py.str lib suffix).
Proof.
  intros basename name_no_ext Hh Hs Hl Hsuf Htr Hnh Hp Hd Hm Hr.
  destruct (plan_rename_id _ _ _ _ _ _ _ Hp) as (Hid & _ & Hold).
  repeat split; auto.
  - unfold rename_file. fold basename. rewrite Hh.
    fold name_no_ext. rewrite Hs. cbn [pbind json_load]. cbn [exec].
    rewrite Hl, Hsuf. unfold ok at 1. rewrite Htr, Hnh, Hp. unfold ok.
    cbn [negb andb pbind json_dump exec]. rewrite Hd.
    unfold run, subprocess_run. cbn [pbind exec]. rewrite Hm.
    apply Z.eqb_neq in Hr. rewrite Hr. reflexivity.
  - pose proof (failed_move_keeps_files K f np w1 f) as Kf.
    pose proof (read_after_write K f defn' w) as Kw.
    rewrite Hm in Kf. rewrite Hd in Kw. cbn [fst snd] in *.
    rewrite (Kf Hr). now apply Kw.
Qed.

End RenameClaims.

Section RenameScenarios.
Import RenameFiles.

(** C3, as the specification states it, fails: the command [node] is
    none of the known runners and not the special launcher, and the
    script derives the suffix [node] from it, rewrites id and moves the
    file. *)
Lemma unknown_command_becomes_suffix :
  let x := exec Sim.git
                (rename_file Sim.runtime "fix/x" "servers/com.x-mcp.json")
                Worlds.node_tool in
  value_of x
  = ok (Some ("com.x-mcp.json", "com.x-mcp-node.json", JStr "com.x-mcp-node"))
  /\ on_load Sim.git "servers/com.x-mcp-node.json" (world_of x)
     = inr Scenario.node_renamed
  /\ on_exists Sim.git "servers/com.x-mcp.json" (world_of x) = false.
Proof. vm_compute. auto. Qed.

Lemma unrecognized_command_handling_witness :
  exec Sim.git (rename_file Sim.runtime "fix/z" "servers/com.z-mcp.json")
       Worlds.no_command
  = (ok None, Worlds.no_command,
     [EvLoad "servers/com.z-mcp.json" (inr Scenario.bare_record);
      EvPrint "SKIP fix/z/com.z-mcp.json: unknown tool"])
  /\ value_of (exec Sim.git
                    (rename_file Sim.runtime "fix/x" "servers/com.x-mcp.json")
                    Worlds.node_tool)
     = ok (Some ("com.x-mcp.json", "com.x-mcp-node.json",
                 JStr "com.x-mcp-node")).
Proof.
  split.
  - exact (proj1 (unrecognized_command_handling
                    Sim.git Sim.runtime "fix/z" "servers/com.z-mcp.json"
                    Worlds.no_command
                    [("id", JStr "com.z-mcp"); ("name", JStr "Z");
                     ("transport", JObj [("type", JStr "stdio")])]
                    [("type", JStr "stdio")]
                    eq_refl eq_refl eq_refl eq_refl eq_refl)
                 eq_refl).
  - erewrite (proj2 (unrecognized_command_handling
                       Sim.git Sim.runtime "fix/x" "servers/com.x-mcp.json"
                       Worlds.node_tool
                       [("id", JStr "com.x-mcp"); ("name", JStr "X");
                        ("transport", JObj [("type", JStr "stdio");
                                            ("command", JStr "node")])]
                       [("type", JStr "stdio"); ("command", JStr "node")]
                       eq_refl eq_refl eq_refl eq_refl eq_refl)
                    "node" "com.x-mcp"
                    (snd (on_dump Sim.git "servers/com.x-mcp.json"
                                  Scenario.node_renamed Worlds.node_tool))
                    (Sim.done "")
                    (snd (on_run Sim.git
                            (Argv ["git"; "mv"; "servers/com.x-mcp.json";
                                   "servers/com.x-mcp-node.json"])
                            (snd (on_dump Sim.git "servers/com.x-mcp.json"
                                          Scenario.node_renamed
                                          Worlds.node_tool)))));
      [reflexivity | reflexivity | discriminate | reflexivity | reflexivity
       | vm_compute; reflexivity | vm_compute; reflexivity].
Defined.

(** C2, as the specification states it, fails: the move is refused
    because the destination exists, and the old file name is left
    holding the record with the new id. *)
Lemma failed_move_leaves_new_id :
  let x := exec Sim.git
                (rename_file Sim.runtime "fix/y" "servers/com.y-mcp.json")
                Worlds.move_blocked in
  value_of x = ok None
  /\ In (EvRun (Argv ["git"; "mv"; "servers/com.y-mcp.json";
                      "servers/com.y-mcp-npx.json"])
               (Sim.failed 128 "fatal: destination exists"))
        (trace_of x)
  /\ on_load Sim.git "servers/com.y-mcp.json" (world_of x)
     = inr Scenario.npx_renamed.
Proof. vm_compute. repeat split. do 2 right. left. reflexivity. Qed.

Lemma failed_move_keeps_rewritten_record_witness :
  let x := exec Sim.git
                (rename_file Sim.runtime "fix/y" "servers/com.y-mcp.json")
                Worlds.move_blocked in
  value_of x = ok None
  /\ on_load Sim.git "servers/com.y-mcp.json" (world_of x)
     = inr Scenario.npx_renamed.
Proof.
  edestruct (failed_move_keeps_rewritten_record
               Sim.git Sim.runtime SimStoreFacts.sim_store_contract
               "fix/y" "servers/com.y-mcp.json" Worlds.move_blocked)
    as (Hx & Hl & _);
    [reflexivity | reflexivity | vm_compute; reflexivity
     | vm_compute; reflexivity | reflexivity | reflexivity
     | vm_compute; reflexivity | vm_compute; reflexivity
     | vm_compute; reflexivity | | ].
  { cbn. discriminate. }
  cbv zeta. rewrite Hx. split; [reflexivity|exact Hl].
Defined.

End RenameScenarios.

(** * Further properties of the Fix Engine *)

Section FixEngineExtras.
Import FixEngine FixEngineFacts DictFacts.
Variable lib : pylib.

Lemma fix_input_unchanged inp inp' :
  fix_input lib inp = ok (inp', []) -> inp' = inp.
Proof.
  unfold fix_input. destruct inp as [| | | | |d]; simpl; try discriminate.
  destruct (Py.in_strs _ VALID_INPUT_TYPES); simpl.
  - intros H. now inv_ok.
  - rewrite get_set_other by discriminate.
    destruct (Dict.get "id" d); simpl; discriminate.
Qed.

Lemma fix_input_list_unchanged l : forall l',
  fix_input_list lib l = ok (l', []) -> l' = l.
Proof.
  induction l as [|inp l IH]; simpl; intros l' H.
  - now inv_ok.
  - destruct (fix_input lib inp) as [e|[inp1 f1]] eqn:E1; simpl in H;
      [discriminate|].
    destruct (fix_input_list lib l) as [e|[l1 f2]] eqn:E2; simpl in H;
      [discriminate|].
    unfold ok in H. injection H as <- H.
    apply app_eq_nil in H as [-> ->].
    apply fix_input_unchanged in E1 as ->. now rewrite (IH _ eq_refl).
Qed.

Lemma fix_inputs_unchanged i i' :
  fix_inputs lib i = ok (i', []) -> i' = i.
Proof.
  destruct i as [| | |s|l|d]; simpl; try discriminate.
  - destruct s; [|discriminate]. intros H. now inv_ok.
  - destruct (fix_input_list lib l) as [e|[l1 f1]] eqn:E; simpl;
      [discriminate|].
    intros H. inv_ok. now apply fix_input_list_unchanged in E as ->.
  - destruct d as [|[k v] d]; [|discriminate]. intros H. now inv_ok.
Qed.

Lemma fix_input_types_unchanged data d1 tr :
  fix_input_types lib data = ok (d1, tr, []) -> d1 = data.
Proof.
  unfold fix_input_types.
  destruct data as [| | | | |d]; simpl; try discriminate.
  destruct (Dict.get "transport" d) as [t|] eqn:T; simpl.
  2:{ intros H. now inv_ok. }
  destruct t as [| | | | |td]; simpl; try discriminate.
  destruct (Dict.get "metadata" td) as [m|] eqn:M; simpl.
  2:{ intros H. inv_ok. now rewrite (set_same _ _ _ T). }
  destruct m as [| | | | |md]; simpl; try discriminate.
  destruct (Dict.get "inputs" md) as [i|] eqn:I; simpl.
  2:{ intros H. inv_ok.
      now rewrite (set_same _ _ _ M), (set_same _ _ _ T). }
  destruct (fix_inputs lib i) as [e|[i' f]] eqn:F; simpl; [discriminate|].
  intros H. inv_ok. apply fix_inputs_unchanged in F as ->.
  now rewrite (set_same _ _ _ I), (set_same _ _ _ M), (set_same _ _ _ T).
Qed.

Lemma fix_icon_unchanged data sid data' :
  fix_icon data sid = ok (data', []) -> data' = data.
Proof.
  unfold fix_icon. destruct data as [| | | | |d]; simpl; try discriminate.
  destruct (Py.lookup sid ICON_FIXES) as [?|[u|]]; simpl; try discriminate.
  - destruct (negb _); simpl; intros H; now inv_ok.
  - intros H. now inv_ok.
Qed.

Lemma fix_link_unchanged data field url e data' :
  fix_link data field url e = ok (data', []) -> data' = data.
Proof.
  unfold fix_link. destruct data as [| | | | |d]; simpl; try discriminate.
  destruct (match Dict.get "links" d with Some v => v | None => JObj [] end)
    as [| | | | |ld]; simpl; try discriminate.
  destruct (negb _); simpl; intros H; now inv_ok.
Qed.

Lemma fix_stytch_unchanged data sid data' :
  fix_stytch data sid = ok (data', []) -> data' = data.
Proof.
  unfold fix_stytch. destruct (Py.eq_str sid "com.stytch-mcp").
  - destruct (Py.get data "links" (JObj [])) as [?|links]; simpl;
      [discriminate|].
    destruct (Py.setitem links "repository" _) as [?|links']; simpl;
      [discriminate|].
    destruct (Py.setitem data "links" links'); simpl; discriminate.
  - intros H. now inv_ok.
Qed.

Lemma fix_package_unchanged data tr sid data' :
  fix_package data tr sid = ok (data', []) -> data' = data.
Proof.
  unfold fix_package.
  destruct (Py.lookup sid PACKAGE_FIXES) as [?|[a|]]; simpl;
    try discriminate.
  - destruct (Py.setitem tr "args" _); simpl; discriminate.
  - intros H. now inv_ok.
Qed.

Lemma fix_repo_url_unchanged data sid data' :
  fix_repo_url data sid = ok (data', []) -> data' = data.
Proof.
  unfold fix_repo_url.
  destruct (Py.lookup sid REPO_FIXES) as [?|[u|]]; simpl; try discriminate.
  - apply fix_link_unchanged.
  - intros H. now inv_ok.
Qed.

Lemma fix_doc_url_unchanged data sid data' :
  fix_doc_url data sid = ok (data', []) -> data' = data.
Proof.
  unfold fix_doc_url.
  destruct (Py.lookup sid DOC_FIXES) as [?|[u|]]; simpl; try discriminate.
  - apply fix_link_unchanged.
  - intros H. now inv_ok.
Qed.

(** X1: an empty fix list means an untouched record: whenever the Fix
    Engine returns without a fix, the record it holds in memory is the
    record it was given, so skipping the write loses nothing. *)
Theorem no_fix_no_change data sid d1 :
  fix_data lib data sid = ok (d1, []) -> d1 = data.
Proof.
  unfold fix_data. intros H.
  destruct (fix_input_types lib data) as [?|[[da tr] fx1]] eqn:S1;
    simpl in H; [discriminate|].
  destruct (fix_icon da sid) as [?|[db fx2]] eqn:S2;
    simpl in H; [discriminate|].
  destruct (fix_repo_url db sid) as [?|[dc fx3]] eqn:S3;
    simpl in H; [discriminate|].
  destruct (fix_doc_url dc sid) as [?|[de fx4]] eqn:S4;
    simpl in H; [discriminate|].
  destruct (fix_stytch de sid) as [?|[df fx5]] eqn:S5;
    simpl in H; [discriminate|].
  destruct (fix_package df tr sid) as [?|[dg fx6]] eqn:S6;
    simpl in H; [discriminate|].
  unfold ok in H. injection H as <- H.
  apply app_eq_nil in H as [N1 H]. apply app_eq_nil in H as [N2 H].
  apply app_eq_nil in H as [N3 H]. apply app_eq_nil in H as [N4 H].
  apply app_eq_nil in H as [N5 N6]. subst.
  apply fix_package_unchanged in S6. apply fix_stytch_unchanged in S5.
  apply fix_doc_url_unchanged in S4. apply fix_repo_url_unchanged in S3.
  apply fix_icon_unchanged in S2. apply fix_input_types_unchanged in S1.
  congruence.
Qed.

Lemma fix_input_types_frame data d1 tr fx :
  fix_input_types lib data = ok (d1, tr, fx) ->
  (forall k, k <> "transport" -> key_of k d1 = key_of k data)
  /\ tr = transport_of d1
  /\ (forall k, k <> "metadata" ->
                key_of k (transport_of d1) = key_of k (transport_of data)).
Proof.
  unfold fix_input_types, transport_of.
  destruct data as [| | | | |d]; simpl; try discriminate.
  destruct (Dict.get "transport" d) as [t|] eqn:T; simpl.
  2:{ intros H. inv_ok. simpl. rewrite T. auto. }
  destruct t as [| | | | |td]; simpl; try discriminate.
  destruct (Dict.get "metadata" td) as [m|] eqn:M; simpl.
  2:{ intros H. inv_ok. rewrite (set_same _ _ _ T). simpl. rewrite T. auto. }
  destruct m as [| | | | |md]; simpl; try discriminate.
  destruct (Dict.get "inputs" md) as [i|] eqn:I; simpl.
  2:{ intros H. inv_ok.
      rewrite (set_same _ _ _ M), (set_same _ _ _ T). simpl. rewrite T.
      auto. }
  destruct (fix_inputs lib i) as [e|[i' f]] eqn:F; simpl; [discriminate|].
  intros H. inv_ok. simpl. rewrite get_set_same. repeat split.
  - intros k Hk. apply get_set_other. congruence.
  - intros k Hk. simpl. apply get_set_other. congruence.
Qed.

Lemma fix_package_frame data sid data' fx :
  fix_package data (transport_of data) sid = ok (data', fx) ->
  (forall k, k <> "transport" -> key_of k data' = key_of k data)
  /\ (forall k, k <> "args" ->
                key_of k (transport_of data') = key_of k (transport_of data)).
Proof.
  unfold fix_package.
  destruct (Py.lookup sid PACKAGE_FIXES) as [?|[a|]]; simpl;
    try discriminate.
  2:{ intros H. inv_ok. auto. }
  unfold transport_of.
  destruct data as [| | | | |d]; simpl;
    try (intros H; inv_ok; simpl; now auto).
  destruct (Dict.get "transport" d) as [t|] eqn:T; simpl.
  2:{ intros H. inv_ok. simpl. rewrite T. auto. }
  destruct t as [| | | | |td]; simpl; try discriminate.
  intros H. inv_ok. simpl. rewrite get_set_same. split.
  - intros k Hk. apply get_set_other. congruence.
  - intros k Hk. simpl. apply get_set_other. congruence.
Qed.

Lemma transport_of_frame d d' :
  Dict.get "transport" d' = Dict.get "transport" d ->
  transport_of (JObj d') = transport_of (JObj d).
Proof. unfold transport_of. simpl. now intros ->. Qed.

(** X2: the Fix Engine only ever touches the icon, the links, the
    declared inputs and the launcher arguments.  Every other top-level
    key of the record (its id and name among them) and every other key
    of the transport object (its type, command and url among them) has
    the value it had. *)
Theorem fix_engine_frame data sid d1 f1 :
  fix_data lib data sid = ok (d1, f1) ->
  (forall k, k <> "transport" -> k <> "icon" -> k <> "links" ->
             key_of k d1 = key_of k data)
  /\ (forall k, k <> "metadata" -> k <> "args" ->
                key_of k (transport_of d1) = key_of k (transport_of data)).
Proof.
  unfold fix_data. intros H.
  destruct (fix_input_types lib data) as [?|[[da tr] fx1]] eqn:S1;
    simpl in H; [discriminate|].
  pose proof (fix_input_types_frame _ _ _ _ S1) as (Fr1 & Etr & Tr1).
  apply fix_input_types_spec in S1
    as (d & dd & tt & -> & -> & -> & _).
  destruct (fix_icon (JObj dd) sid) as [?|[db fx2]] eqn:S2;
    simpl in H; [discriminate|].
  apply fix_icon_spec in S2 as (d2 & oi & _ & -> & Fr2 & _).
  destruct (fix_repo_url (JObj d2) sid) as [?|[dc fx3]] eqn:S3;
    simpl in H; [discriminate|].
  apply fix_repo_url_spec in S3 as (d3 & orp & _ & -> & Fr3 & _).
  destruct (fix_doc_url (JObj d3) sid) as [?|[de fx4]] eqn:S4;
    simpl in H; [discriminate|].
  apply fix_doc_url_spec in S4 as (d4 & od & _ & -> & Fr4 & _).
  destruct (fix_stytch (JObj d4) sid) as [?|[df fx5]] eqn:S5;
    simpl in H; [discriminate|].
  apply fix_stytch_spec in S5 as (d5 & -> & Fr5 & _).
  assert (T5 : transport_of (JObj d5) = transport_of (JObj dd)).
  { apply transport_of_frame.
    rewrite Fr5, Fr4, Fr3, Fr2 by discriminate. reflexivity. }
  rewrite Etr, <- T5 in H.
  destruct (fix_package (JObj d5) (transport_of (JObj d5)) sid)
    as [?|[dg fx6]] eqn:S6; simpl in H; [discriminate|].
  apply fix_package_frame in S6 as (Fr6 & Tr6).
  unfold ok in H. injection H as <- _. split.
  - intros k K1 K2 K3. rewrite (Fr6 k K1). simpl.
    rewrite Fr5, Fr4, Fr3, Fr2 by assumption. exact (Fr1 k K1).
  - intros k K1 K2. rewrite (Tr6 k K2), T5. exact (Tr1 k K1).
Qed.

(** X3: the Fix Engine returns on every well-formed record (objects
    where it calls [get], a list of input objects, an identifier on every
    input with a type outside the enumeration, links an object or absent,
    a hashable identifier); a record that is not a JSON object makes it
    raise [AttributeError] at its first [get]. *)
Theorem fix_engine_returns data sid :
  (well_formed data sid = true ->
   exists d1 f1, fix_data lib data sid = ok (d1, f1))
  /\ (is_obj data = false ->
      fix_data lib data sid = raise (AttributeError data "get")).
Proof.
  split.
  - apply fix_data_total.
  - destruct data; simpl; try discriminate; reflexivity.
Qed.

End FixEngineExtras.

Section FixEngineExtraWitnesses.
Import FixEngine.

Lemma no_fix_no_change_witness :
  fix_data Sim.runtime Scenario.dir_fixed (JStr "community.example")
  = ok (Scenario.dir_fixed, [])
  /\ Scenario.dir_fixed = Scenario.dir_fixed.
Proof.
  split; [reflexivity|].
  apply (no_fix_no_change Sim.runtime Scenario.dir_fixed (JStr "community.example")).
  reflexivity.
Defined.

Lemma fix_engine_frame_witness :
  key_of "id" Scenario.dir_fixed = key_of "id" Scenario.dir_record
  /\ key_of "command" (transport_of Scenario.dir_fixed)
     = key_of "command" (transport_of Scenario.dir_record).
Proof.
  pose proof (fix_engine_frame
                Sim.runtime Scenario.dir_record (JStr "community.example")
                Scenario.dir_fixed ["input type 'dir' -> 'text' for path"]
                eq_refl) as [A B].
  split; [apply A|apply B]; discriminate.
Defined.

Lemma fix_engine_returns_witness :
  (exists d1 f1,
      fix_data Sim.runtime Scenario.dir_record (JStr "community.example") = ok (d1, f1))
  /\ fix_data Sim.runtime (JArr []) (JStr "community.example")
     = raise (AttributeError (JArr []) "get").
Proof.
  split.
  - exact (proj1 (fix_engine_returns Sim.runtime Scenario.dir_record
                                     (JStr "community.example")) eq_refl).
  - exact (proj2 (fix_engine_returns Sim.runtime (JArr []) (JStr "community.example"))
                 eq_refl).
Defined.

End FixEngineExtraWitnesses.

(** * Further properties of the branch pipeline *)

Section PipelineExtras.
Import FixEngine FixBranches ExecFacts PipelineFacts.
Context {W : Type} (h : handler W) (lib : pylib).

(** X4: when the checkout of the contributed branch fails, the
    pipeline stops there: the result is [ERROR] with the message
    [checkout failed: <stripped diagnostic>], and the only two commands
    issued are the deletion of a stale fix branch and the checkout. *)
Theorem failed_checkout_stops b w r1 w1 r2 w2 :
  let fixb := fix_branch_name b in
  let checkout_b := ("git checkout -b " ++ fixb ++ " origin/" ++ b)%string in
  on_run h (Shell (delete_branch fixb)) w = (r1, w1) ->
  on_run h (Shell checkout_b) w1 = (r2, w2) ->
  returncode r2 <> 0%Z ->
  exec h (process_branch lib b) w
  = (BranchResult b None "ERROR"
       (Some ("checkout failed: " ++ PyStr.strip (stderr r2))%string)
       None None,
     w2,
     [EvRun (Shell (delete_branch fixb)) r1; EvRun (Shell checkout_b) r2]).
Proof.
  intros fixb checkout_b E1 E2 H2.
  exact (path_checkout_error h lib b w w1 w2 r1 r2 E1 E2 H2).
Qed.

(** X5: when the diff against trunk is empty, and also when the diff
    command itself fails, the pipeline checks out trunk, deletes the fix
    branch and returns [NO_CHANGES]: no record is read, nothing is
    committed and nothing is pushed. *)
Theorem empty_or_failed_diff_is_no_changes
        b w r1 w1 r2 w2 r3 w3 r4 w4 r5 w5 r6 w6 :
  let fixb := fix_branch_name b in
  let checkout_b := ("git checkout -b " ++ fixb ++ " origin/" ++ b)%string in
  on_run h (Shell (delete_branch fixb)) w = (r1, w1) ->
  on_run h (Shell checkout_b) w1 = (r2, w2) ->
  returncode r2 = 0%Z ->
  on_run h (Shell "git rebase main") w2 = (r3, w3) ->
  returncode r3 = 0%Z ->
  on_run h (Shell "git diff main --name-only -- servers/") w3 = (r4, w4) ->
  returncode r4 <> 0%Z \/ PyStr.strip (stdout r4) = "" ->
  on_run h (Shell checkout_main) w4 = (r5, w5) ->
  on_run h (Shell (delete_branch fixb)) w5 = (r6, w6) ->
  exec h (process_branch lib b) w
  = (BranchResult b None "NO_CHANGES"
       (Some "No server files differ from main") None None,
     w6,
     [EvRun (Shell (delete_branch fixb)) r1; EvRun (Shell checkout_b) r2;
      EvRun (Shell "git rebase main") r3;
      EvRun (Shell "git diff main --name-only -- servers/") r4;
      EvRun (Shell checkout_main) r5;
      EvRun (Shell (delete_branch fixb)) r6]).
Proof.
  intros fixb checkout_b E1 E2 H2 E3 H3 E4 H4 E5 E6.
  apply (path_no_changes h lib b w w1 w2 r1 r2 E1 E2 w3 r3 H2 E3 w4 r4 H3 E4
                         r5 w5 r6 w6); auto.
  unfold run_answer. cbn [andb].
  destruct (Z.eqb (returncode r4) 0) eqn:Z4; cbn [negb fst falsy];
    [|reflexivity].
  destruct H4 as [H4| ->]; [|reflexivity].
  apply Z.eqb_eq in Z4. contradiction.
Qed.

(** The events of [commit_fixes] are subprocess runs. *)
Lemma commit_fixes_only_runs all_fixes w e :
  In e (trace_of (exec h (commit_fixes all_fixes) w)) ->
  exists c r, e = EvRun c r.
Proof.
  unfold commit_fixes. destruct all_fixes as [|x l]; [intros []|].
  rewrite exec_bind, exec_run.
  destruct (on_run h (Shell "git add -A") w) as [ra wa].
  rewrite exec_bind, exec_run.
  destruct (on_run h _ wa) as [rc wc]. cbn.
  intros [E|[E|[]]]; subst; eauto.
Qed.

Lemma dumps_of_fix_definition path sid w p d r :
  In (EvDump p d r) (trace_of (exec h (fix_definition lib path sid) w)) ->
  p = path.
Proof.
  unfold fix_definition. simpl.
  destruct (on_load h path w) as [e|data]; simpl.
  { intros [E|[]]. discriminate. }
  destruct (fix_data lib data sid) as [e|[d' [|fx fixes]]]; simpl;
    try (intros [E|[]]; discriminate).
  destruct (on_dump h path d' w) as [[e|] w1]; simpl;
    (intros [E|[E|[]]]; [discriminate|]; now injection E).
Qed.

Lemma dumps_of_process_file f w p d r :
  In (EvDump p d r) (trace_of (exec h (process_file lib f) w)) ->
  p = os_path_join lib REPO_DIR f /\ PyStr.endswith f ".json" = true.
Proof.
  unfold process_file. cbn -[fix_definition].
  destruct (on_exists h (os_path_join lib REPO_DIR f) w); cbn -[fix_definition];
    [|intros [E|[]]; discriminate].
  destruct (PyStr.endswith f ".json") eqn:J; cbn -[fix_definition];
    [|intros [E|[]]; discriminate].
  destruct (on_load h (os_path_join lib REPO_DIR f) w) as [e|data];
    cbn -[fix_definition];
    [intros [E|[E|[]]]; discriminate|].
  destruct (Py.get data "id" (JStr "")) as [e|sid]; cbn -[fix_definition];
    [intros [E|[E|[]]]; discriminate|].
  rewrite exec_bind.
  pose proof (dumps_of_fix_definition
                (os_path_join lib REPO_DIR f) sid w p d r) as D.
  destruct (exec h (fix_definition lib _ sid) w) as [[fx w1] t1].
  unfold trace_of in *. cbn [snd] in *.
  destruct fx as [e|[|x l]]; cbn;
    (intros [E|[E|Hin]]; [discriminate|discriminate|]);
    rewrite app_nil_r in Hin; auto.
Qed.

Lemma dumps_of_process_files files : forall acc w p d r,
  In (EvDump p d r) (trace_of (exec h (process_files lib files acc) w)) ->
  exists f, In f files
            /\ p = os_path_join lib REPO_DIR f
            /\ PyStr.endswith f ".json" = true.
Proof.
  induction files as [|f files IH]; intros acc w p d r.
  - intros [].
  - cbn [process_files]. rewrite exec_bind.
    pose proof (dumps_of_process_file f w p d r) as D.
    destruct (exec h (process_file lib f) w) as [[added w1] t1].
    specialize (IH (acc ++ added) w1 p d r).
    destruct (exec h (process_files lib files (acc ++ added)) w1)
      as [[res w2] t2].
    unfold trace_of in *. cbn [snd] in *.
    intros Hin. apply in_app_or in Hin as [Hin|Hin].
    + exists f. split; [now left|auto].
    + destruct (IH Hin) as (f' & Hf & Hp). exists f'. split; [now right|auto].
Qed.

(** X6: every file the pipeline writes while it processes a branch is
    one of the [.json] files that [git diff] listed as changed, at its
    path under the repository directory; no other file is ever
    written. *)
Theorem writes_only_changed_records b w p d r :
  In (EvDump p d r) (trace_of (exec h (process_branch lib b) w)) ->
  exists f r4,
    In (EvRun (Shell "git diff main --name-only -- servers/") r4)
       (trace_of (exec h (process_branch lib b) w))
    /\ In f (nonblank_lines (PyStr.strip (PyStr.strip (stdout r4))))
    /\ PyStr.endswith f ".json" = true
    /\ p = os_path_join lib REPO_DIR f.
Proof.
  branch_paths h lib b w; unfold trace_of; cbn [fst snd]; intros Hin.
  - repeat (destruct Hin as [Hin|Hin]; [discriminate Hin|]). contradiction.
  - cbn [app] in Hin.
    do 4 (destruct Hin as [Hin|Hin]; [discriminate Hin|]).
    apply in_app_or in Hin as [Hin|Hin].
    + change t5 with (trace_of (all_fixes, w5, t5)) in Hin.
      rewrite <- E5 in Hin.
      apply dumps_of_process_files in Hin as (f & Hf & -> & Hj).
      exists f, r4. repeat split; auto.
      * cbn [app]. do 3 right. now left.
      * unfold run_answer in A. cbn [andb] in A.
        destruct (negb (Z.eqb (returncode r4) 0)); [discriminate|].
        cbn [fst] in A. injection A as <-. exact Hf.
    + apply in_app_or in Hin as [Hin|Hin].
      * change t6 with (trace_of (tt, w6, t6)) in Hin. rewrite <- E6 in Hin.
        apply commit_fixes_only_runs in Hin as (c & r' & E). discriminate.
      * destruct Hin as [Hin|[Hin|[]]]; discriminate.
  - repeat (destruct Hin as [Hin|Hin]; [discriminate Hin|]). contradiction.
  - repeat (destruct Hin as [Hin|Hin]; [discriminate Hin|]). contradiction.
Qed.

(** X7: once the checkout and the rebase have succeeded and the diff
    is not empty, the pipeline always goes on to the push, whatever the
    repair of the records and the commit did (their failures are not
    looked at); it reports the fix branch, and as its fixes the entries
    that the loop over the changed files collected. *)
Theorem push_always_attempted b w r1 w1 r2 w2 r3 w3 r4 w4 :
  let fixb := fix_branch_name b in
  let checkout_b := ("git checkout -b " ++ fixb ++ " origin/" ++ b)%string in
  let diff_files := nonblank_lines (PyStr.strip (PyStr.strip (stdout r4))) in
  on_run h (Shell (delete_branch fixb)) w = (r1, w1) ->
  on_run h (Shell checkout_b) w1 = (r2, w2) ->
  returncode r2 = 0%Z ->
  on_run h (Shell "git rebase main") w2 = (r3, w3) ->
  returncode r3 = 0%Z ->
  on_run h (Shell "git diff main --name-only -- servers/") w3 = (r4, w4) ->
  returncode r4 = 0%Z ->
  PyStr.strip (stdout r4) <> "" ->
  let x := exec h (process_branch lib b) w in
  exists tr0 p c,
    trace_of x = tr0 ++ [EvRun (Shell (push_command fixb)) p;
                         EvRun (Shell checkout_main) c]
    /\ r_fix_branch (value_of x) = Some fixb
    /\ r_fixes (value_of x)
       = Some (value_of (exec h (process_files lib diff_files []) w4)).
Proof.
  intros fixb checkout_b diff_files E1 E2 H2 E3 H3 E4 H4 Hne x.
  assert (A : fst (run_answer true r4) = Some (PyStr.strip (stdout r4))).
  { now rewrite (run_answer_ok true r4 H4). }
  apply String.eqb_neq in Hne.
  destruct (exec h (process_files lib diff_files []) w4)
    as [[all_fixes w5] t5] eqn:E5.
  destruct (exec_commit_fixes h all_fixes w5) as (w6 & t6 & E6).
  destruct (on_run h (Shell (push_command fixb)) w6) as [r7 w7] eqn:E7.
  destruct (on_run h (Shell checkout_main) w7) as [r8 w8] eqn:E8.
  subst x.
  rewrite (path_push h lib b w w1 w2 r1 r2 E1 E2 w3 r3 H2 E3 w4 r4 H3 E4
                     (PyStr.strip (stdout r4)) all_fixes w5 t5 w6 t6
                     r7 w7 r8 w8 A Hne E5 E6 E7 E8).
  unfold trace_of, value_of. cbn [fst snd].
  eexists _, r7, r8. split.
  - rewrite !app_assoc. reflexivity.
  - destruct (push_error_seen r7); auto.
Qed.

(** X8: what the loop over the changed files does with a file it
    cannot repair.  A path that no longer exists or does not end in
    [.json] is passed over without being read.  A file that cannot be
    loaded, or whose content is not a JSON object, adds one entry
    [PARSE_ERROR: <text of the exception>] and is not written. *)
Theorem process_file_skips_and_diagnoses f w :
  let filepath := os_path_join lib REPO_DIR f in
  (on_exists h filepath w = false \/ PyStr.endswith f ".json" = false ->
   exec h (process_file lib f) w
   = ([], w, [EvExists filepath (on_exists h filepath w)]))
  /\ (forall e,
        on_exists h filepath w = true -> PyStr.endswith f ".json" = true ->
        on_load h filepath w = inl e ->
        exec h (process_file lib f) w
        = ([(f, ("PARSE_ERROR: " ++ Py.exc_str lib e)%string)], w,
           [EvExists filepath true; EvLoad filepath (inl e)]))
  /\ (forall data,
        on_exists h filepath w = true -> PyStr.endswith f ".json" = true ->
        on_load h filepath w = inr data -> is_obj data = false ->
        exec h (process_file lib f) w
        = ([(f, ("PARSE_ERROR: "
                   ++ Py.exc_str lib (AttributeError data "get"))%string)],
           w, [EvExists filepath true; EvLoad filepath (inr data)])).
Proof.
  intros filepath. unfold process_file. fold filepath.
  cbn -[fix_definition]. repeat split.
  - intros [He|Hj].
    + rewrite He. reflexivity.
    + rewrite Hj, andb_false_r. reflexivity.
  - intros e He Hj Hl. rewrite He, Hj. cbn -[fix_definition].
    rewrite Hl. reflexivity.
  - intros data He Hj Hl Ho. rewrite He, Hj. cbn -[fix_definition].
    rewrite Hl. destruct data; try discriminate; reflexivity.
Qed.

(** No command of the pipeline other than the push starts with
    [git push]. *)
Ltac not_a_push :=
  match goal with
  | E : EvRun (Shell _) _ = EvRun (Shell ?c) _,
    P : PyStr.has_prefix "git push" ?c = true |- _ =>
      exfalso; injection E as E _; rewrite <- E in P;
      unfold delete_branch, checkout_main in P; cbn in P; discriminate P
  end.

(** X9: the only command line starting with [git push] that the
    pipeline issues is the push of the fix branch of the branch it
    processes, to [origin] and with [--force]; that line starts with
    [git push -u origin fix/]. *)
Theorem only_fix_branch_is_pushed b w c r :
  In (EvRun (Shell c) r) (trace_of (exec h (process_branch lib b) w)) ->
  PyStr.has_prefix "git push" c = true ->
  c = push_command (fix_branch_name b)
  /\ PyStr.has_prefix "git push -u origin fix/" c = true.
Proof.
  assert (Hp : PyStr.has_prefix "git push -u origin fix/"
                 (push_command (fix_branch_name b)) = true) by reflexivity.
  branch_paths h lib b w; unfold trace_of; cbn [fst snd]; intros Hin P.
  - repeat (destruct Hin as [Hin|Hin]; [not_a_push|]). contradiction.
  - cbn [app] in Hin.
    do 4 (destruct Hin as [Hin|Hin]; [not_a_push|]).
    apply in_app_or in Hin as [Hin|Hin].
    { exfalso. revert Hin.
      change t5 with (trace_of (all_fixes, w5, t5)). rewrite <- E5.
      apply quiet_trace, quiet_process_files. }
    apply in_app_or in Hin as [Hin|Hin].
    { exfalso.
      change t6 with (trace_of (tt, w6, t6)) in Hin. rewrite <- E6 in Hin.
      apply commit_fixes_runs in Hin as [E|(m & E)];
        injection E as ->; cbn in P; discriminate P. }
    destruct Hin as [Hin|[Hin|[]]].
    + injection Hin as <- _. auto.
    + not_a_push.
  - repeat (destruct Hin as [Hin|Hin]; [not_a_push|]). contradiction.
  - repeat (destruct Hin as [Hin|Hin]; [not_a_push|]). contradiction.
Qed.

End PipelineExtras.

Section PipelineExtraWitnesses.
Import FixBranches.

Lemma failed_checkout_stops_witness :
  exec Sim.git (process_branch Sim.runtime "claude/add-x") Worlds.no_remote
  = (BranchResult "claude/add-x" None "ERROR"
       (Some "checkout failed: fatal: 'claude/add-x' is not a commit")
       None None,
     Worlds.no_remote,
     [EvRun (Shell "git branch -D fix/x")
            (Sim.failed 1 "error: branch 'fix/x' not found.");
      EvRun (Shell "git checkout -b fix/x origin/claude/add-x")
            (Sim.failed 128 "fatal: 'claude/add-x' is not a commit")]).
Proof.
  apply (failed_checkout_stops
           Sim.git Sim.runtime "claude/add-x" Worlds.no_remote
           (Sim.failed 1 "error: branch 'fix/x' not found.") Worlds.no_remote
           (Sim.failed 128 "fatal: 'claude/add-x' is not a commit")
           Worlds.no_remote);
    [reflexivity|reflexivity|cbn; discriminate].
Defined.

Lemma empty_or_failed_diff_is_no_changes_witness :
  let x := exec Sim.git (process_branch Sim.runtime "claude/add-x")
                Worlds.nothing_changed in
  r_status (value_of x) = "NO_CHANGES"
  /\ List.length (trace_of x) = 6.
Proof.
  cbv zeta.
  erewrite (empty_or_failed_diff_is_no_changes
              Sim.git Sim.runtime "claude/add-x" Worlds.nothing_changed);
    [split; reflexivity
    | vm_compute; reflexivity | vm_compute; reflexivity | reflexivity
    | vm_compute; reflexivity | reflexivity
    | vm_compute; reflexivity | right; reflexivity
    | vm_compute; reflexivity | vm_compute; reflexivity].
Defined.

Lemma writes_only_changed_records_witness :
  exists f r4,
    In (EvRun (Shell "git diff main --name-only -- servers/") r4)
       (trace_of (exec Sim.git (process_branch Sim.runtime "claude/add-x")
                       Worlds.push_refused))
    /\ In f (nonblank_lines (PyStr.strip (PyStr.strip (stdout r4))))
    /\ PyStr.endswith f ".json" = true
    /\ "servers/x.json" = os_path_join Sim.runtime FixEngine.REPO_DIR f.
Proof.
  apply (writes_only_changed_records
           Sim.git Sim.runtime "claude/add-x" Worlds.push_refused
           "servers/x.json" Scenario.dir_fixed None).
  vm_compute. do 7 right. left. reflexivity.
Defined.

Lemma push_always_attempted_witness :
  let x := exec Sim.git (process_branch Sim.runtime "claude/add-x")
                Worlds.push_refused in
  exists tr0 p c,
    trace_of x = tr0 ++ [EvRun (Shell (push_command "fix/x")) p;
                         EvRun (Shell checkout_main) c]
    /\ r_fix_branch (value_of x) = Some "fix/x"
    /\ r_fixes (value_of x)
       = Some [("servers/x.json", "input type 'dir' -> 'text' for path")].
Proof.
  cbv zeta.
  edestruct (push_always_attempted
               Sim.git Sim.runtime "claude/add-x" Worlds.push_refused)
    as (tr0 & p & c & Ht & Hb & Hf);
    [vm_compute; reflexivity | vm_compute; reflexivity | reflexivity
    | vm_compute; reflexivity | reflexivity
    | vm_compute; reflexivity | reflexivity | cbn; discriminate | ].
  exists tr0, p, c. split; [exact Ht|split; [exact Hb|]].
  rewrite Hf. vm_compute. reflexivity.
Defined.

Lemma process_file_skips_and_diagnoses_witness :
  exec Sim.git (process_file Sim.runtime "servers/README.md") Worlds.bad_input
  = ([], Worlds.bad_input, [EvExists "servers/README.md" false]).
Proof.
  apply (proj1 (process_file_skips_and_diagnoses
                  Sim.git Sim.runtime "servers/README.md" Worlds.bad_input)).
  left. reflexivity.
Defined.

Lemma only_fix_branch_is_pushed_witness :
  "git push -u origin fix/x --force" = push_command (fix_branch_name "claude/add-x")
  /\ PyStr.has_prefix "git push -u origin fix/"
                      "git push -u origin fix/x --force" = true.
Proof.
  apply (only_fix_branch_is_pushed
           Sim.git Sim.runtime "claude/add-x" Worlds.push_refused
           "git push -u origin fix/x --force"
           (Sim.failed 128
              "fatal: unable to access 'https://github.com/': timed out")).
  - vm_compute. do 10 right. left. reflexivity.
  - reflexivity.
Defined.

End PipelineExtraWitnesses.

(** * Further properties of the rename script *)


Section RenameExtras.
Import RenameFiles ExecFacts.
Context {W : Type} (h : handler W) (lib : pylib).

(** X10: a file of the exemption list, and a file whose name (without
    [.json]) already ends in one of [-npx], [-uvx], [-docker], [-http],
    [-cli], is passed over before it is even read: running the script
    again on what it has renamed changes nothing. *)
Theorem exempt_or_suffixed_untouched branch f w :
  let basename := os_path_basename lib f in
  let name_no_ext := PyStr.replace ".json" "" basename in
  PyStr.mem basename HTTP_ONLY_FILES = true
  \/ existsb (PyStr.endswith name_no_ext) KNOWN_SUFFIXES = true ->
  exec h (rename_file lib branch f) w = (ok None, w, []).
Proof.
  intros basename name_no_ext H. unfold rename_file.
  fold basename. fold name_no_ext.
  destruct (PyStr.mem basename HTTP_ONLY_FILES); [reflexivity|].
  destruct H as [H|H]; [discriminate|]. now rewrite H.
Qed.


(** X12: when the move succeeds, the renaming is
    [(basename, new_basename, new_id)] with the suffix appended to the
    file name (before [.json]) and to the id, the file goes to
    [servers/<new_basename>], and a record whose id was its file name
    still has its file name as id. *)
Theorem rename_keeps_name_and_id_in_step
        branch f w defn suffix nb np nid defn' w1 r w2 :
  let basename := os_path_basename lib f in
  let name_no_ext := PyStr.replace ".json" "" basename in
  PyStr.mem basename HTTP_ONLY_FILES = false ->
  existsb (PyStr.endswith name_no_ext) KNOWN_SUFFIXES = false ->
  on_load h f w = inr defn ->
  (transport <- Py.get defn "transport" (JObj []) ;;
   get_tool_suffix transport)%res = ok suffix ->
  Py.truthy suffix = true ->
  Py.eq_str suffix "http" = false ->
  plan_rename lib name_no_ext defn suffix = ok (nb, np, nid, defn') ->
  on_dump h f defn' w = (None, w1) ->
  on_run h (Argv ["git"; "mv"; f; np]) w1 = (r, w2) ->
  returncode r = 0%Z ->
  exec h (rename_file lib branch f) w
  = (ok (Some (basename, nb, nid)), w2,
     [EvLoad f (inr defn); EvDump f defn' None;
      EvRun (Argv ["git"; "mv"; f; np]) r])
  /\ nb = (name_no_ext ++ "-" ++ Py.str lib suffix ++ ".json")%string
  /\ np = ("servers/" ++ nb)%string
  /\ Py.getitem defn' "id" = ok nid
  /\ (Py.getitem defn "id" = ok (JStr name_no_ext) ->
      nb = (Py.str lib nid ++ ".json")%string).
Proof.
  intros basename name_no_ext Hh Hs Hl Hsuf Htr Hnh Hp Hd Hm Hr.
  assert (Hnb : nb = (name_no_ext ++ "-" ++ Py.str lib suffix ++ ".json")%string
                /\ np = ("servers/" ++ nb)%string
                /\ Py.getitem defn' "id" = ok nid
                /\ (Py.getitem defn "id" = ok (JStr name_no_ext) ->
                    nid = JStr (name_no_ext ++ "-" ++ Py.str lib suffix))).
  { revert Hp. unfold plan_rename.
    destruct defn as [| | | | |d]; try discriminate. cbn.
    destruct (Dict.get "id" d) as [[| | |s| |]|]; try discriminate.
    cbn. intros H. injection H as <- <- <- <-. cbn.
    rewrite DictFacts.get_set_other by discriminate.
    rewrite DictFacts.get_set_same. repeat split.
    intros E. unfold ok in E. injection E as ->. reflexivity. }
  destruct Hnb as (Hb & Hpth & Hid & Hinv).
  split; [|repeat split; auto].
  - unfold rename_file. fold basename. rewrite Hh.
    fold name_no_ext. rewrite Hs. cbn [pbind json_load]. cbn [exec].
    rewrite Hl, Hsuf. unfold ok at 1. rewrite Htr, Hnh, Hp. unfold ok.
    cbn [negb andb pbind json_dump exec]. rewrite Hd.
    unfold run, subprocess_run. cbn [pbind exec]. rewrite Hm, Hr.
    reflexivity.
  - intros E. rewrite (Hinv E), Hb. cbn [Py.str].
    now rewrite !append_assoc.
Qed.

(** X13: a record without [id] ends the script: the [KeyError] of
    [defn['id']] escapes from the iteration before anything is written,
    and the loop over the files of the branch returns it at once,
    leaving the remaining files unread. *)
Theorem missing_id_ends_the_loop branch f rest renames w defn suffix :
  let basename := os_path_basename lib f in
  let name_no_ext := PyStr.replace ".json" "" basename in
  PyStr.mem basename HTTP_ONLY_FILES = false ->
  existsb (PyStr.endswith name_no_ext) KNOWN_SUFFIXES = false ->
  on_load h f w = inr defn ->
  (transport <- Py.get defn "transport" (JObj []) ;;
   get_tool_suffix transport)%res = ok suffix ->
  Py.truthy suffix = true ->
  Py.eq_str suffix "http" = false ->
  key_of "id" defn = None ->
  exec h (rename_file lib branch f) w
  = (raise (KeyError "id"), w, [EvLoad f (inr defn)])
  /\ exec h (rename_files lib branch (f :: rest) renames) w
     = (raise (KeyError "id"), w, [EvLoad f (inr defn)]).
Proof.
  intros basename name_no_ext Hh Hs Hl Hsuf Htr Hnh Hid.
  assert (Hp : plan_rename lib name_no_ext defn suffix = raise (KeyError "id")).
  { unfold plan_rename. destruct defn as [| | | | |d].
    1-5: (revert Hsuf; cbn; discriminate).
    cbn in *. now rewrite Hid. }
  assert (R : exec h (rename_file lib branch f) w
              = (raise (KeyError "id"), w, [EvLoad f (inr defn)])).
  { unfold rename_file. fold basename. rewrite Hh.
    fold name_no_ext. rewrite Hs. cbn [pbind json_load]. cbn [exec].
    rewrite Hl, Hsuf. unfold ok at 1. rewrite Htr, Hnh, Hp. reflexivity. }
  split; [exact R|].
  cbn [rename_files]. rewrite exec_bind, R. reflexivity.
Qed.

End RenameExtras.

Section RenameExtraWitnesses.
Import RenameFiles.

Lemma exempt_or_suffixed_untouched_witness :
  exec Sim.git (rename_file Sim.runtime "fix/y" "servers/com.y-mcp-npx.json")
       Worlds.move_blocked
  = (ok None, Worlds.move_blocked, []).
Proof.
  apply (exempt_or_suffixed_untouched Sim.git Sim.runtime "fix/y"
           "servers/com.y-mcp-npx.json" Worlds.move_blocked).
  right. vm_compute. reflexivity.
Defined.


Lemma rename_keeps_name_and_id_in_step_witness :
  let x := exec Sim.git
                (rename_file Sim.runtime "fix/m" "servers/com.y-mcp.json")
                Worlds.mixed_files in
  value_of x
  = ok (Some ("com.y-mcp.json", "com.y-mcp-npx.json", JStr "com.y-mcp-npx"))
  /\ on_load Sim.git "servers/com.y-mcp-npx.json" (world_of x)
     = inr Scenario.npx_renamed
  /\ on_exists Sim.git "servers/com.y-mcp.json" (world_of x) = false.
Proof.
  edestruct (rename_keeps_name_and_id_in_step
               Sim.git Sim.runtime "fix/m" "servers/com.y-mcp.json"
               Worlds.mixed_files Scenario.npx_record (JStr "npx")
               "com.y-mcp-npx.json" "servers/com.y-mcp-npx.json"
               (JStr "com.y-mcp-npx") Scenario.npx_renamed)
    as (E & _);
    [vm_compute; reflexivity ..|].
  cbv zeta. rewrite E. vm_compute. repeat split.
Defined.

Lemma missing_id_ends_the_loop_witness :
  exec Sim.git
       (rename_files Sim.runtime "fix/m"
          ["servers/com.a-mcp.json"; "servers/com.y-mcp.json"] [])
       Worlds.mixed_files
  = (raise (KeyError "id"), Worlds.mixed_files,
     [EvLoad "servers/com.a-mcp.json" (inr Scenario.anonymous_record)]).
Proof.
  exact (proj2 (missing_id_ends_the_loop
                  Sim.git Sim.runtime "fix/m" "servers/com.a-mcp.json"
                  ["servers/com.y-mcp.json"] [] Worlds.mixed_files
                  Scenario.anonymous_record (JStr "npx")
                  eq_refl eq_refl eq_refl eq_refl eq_refl eq_refl eq_refl)).
Defined.

End RenameExtraWitnesses.

(** * Further properties of the id remap script *)

Section FixIdsExtras.
Import FixIds ExecFacts.
Context {W : Type} (h : handler W) (lib : pylib).

(** X14: the remap script does not look at the outcome of [git mv].  A
    record of the table is rewritten with its new id, the move to
    [servers/<new_id>.json] is asked for, and the renaming
    [(stem, new_id, old_id)] is recorded whatever git answers; when the
    move has failed (and left the files alone), the file that still has
    the old name holds the new id. *)
Theorem remap_recorded_whatever_the_move f new_id w d old_id w1 r w2 :
  let defn' := JObj (Dict.set "id" (JStr new_id) d) in
  let mv := Argv ["git"; "mv"; f; ("servers/" ++ new_id ++ ".json")%string] in
  remap (stem lib f) = Some new_id ->
  on_load h f w = inr (JObj d) ->
  Dict.get "id" d = Some old_id ->
  on_dump h f defn' w = (None, w1) ->
  on_run h mv w1 = (r, w2) ->
  exec h (remap_file lib f) w
  = (ok (Some (stem lib f, new_id, old_id)), w2,
     [EvLoad f (inr (JObj d)); EvDump f defn' None; EvRun mv r])
  /\ key_of "id" defn' = Some (JStr new_id)
  /\ (store_contract h -> returncode r <> 0%Z -> on_load h f w2 = inr defn').
Proof.
  intros defn' mv Hm Hl Hid Hd Hr. split; [|split].
  - unfold remap_file. rewrite Hm. cbn [pbind json_load exec]. rewrite Hl.
    cbn [Py.getitem Py.setitem rbind]. rewrite Hid. cbn [rbind ok].
    cbn [pbind json_dump exec]. fold defn'. rewrite Hd.
    cbn [pbind subprocess_run exec]. fold mv. rewrite Hr. reflexivity.
  - cbn. apply DictFacts.get_set_same.
  - intros K Hrc.
    pose proof (failed_move_keeps_files K f ("servers/" ++ new_id ++ ".json")%string
                  w1 f) as Hk.
    fold mv in Hk. rewrite Hr in Hk. cbn [fst snd] in Hk.
    rewrite (Hk Hrc).
    pose proof (read_after_write K f defn' w) as Hw.
    rewrite Hd in Hw. cbn [fst snd] in Hw. now apply Hw.
Qed.

Lemma remap_files_nothing_to_do fs acc w :
  (forall f, In f fs -> remap (stem lib f) = None) ->
  exec h (remap_files lib fs acc) w = (ok acc, w, []).
Proof.
  induction fs as [|f fs IH]; intros H; [reflexivity|].
  cbn [remap_files]. rewrite exec_bind. unfold remap_file at 1.
  rewrite (H f (or_introl eq_refl)). cbn [exec fst snd ok].
  rewrite IH by (intros g Hg; apply H; now right). reflexivity.
Qed.

(** X15: a branch none of whose new files is in the remap table is left
    alone: the script lists its files and goes on to the next branch
    with the results it had, without checking the branch out. *)
Theorem branch_without_remap_not_checked_out
        main_files branch results w r w1 :
  let ls := Argv ["git"; "ls-tree"; "-r"; "--name-only"; branch; "--";
                  "servers/"] in
  on_run h ls w = (r, w1) ->
  (forall f,
      In f (PyStr.split_lines (PyStr.strip (stdout r))) ->
      PyStr.mem f main_files = false ->
      PyStr.endswith f ".json" = true ->
      remap (stem lib f) = None) ->
  exec h (remap_branch lib main_files branch results) w
  = (ok results, w1, [EvRun ls r]).
Proof.
  intros ls Hr Hn. unfold remap_branch.
  cbn [pbind subprocess_run exec]. fold ls. rewrite Hr.
  destruct (negb (returncode r =? 0)%Z); [reflexivity|].
  set (new_files := filter _ _).
  assert (Hx : existsb (fun f => match remap (stem lib f) with
                                 | Some _ => true
                                 | None => false
                                 end) new_files = false).
  { destruct (existsb _ new_files) eqn:E; [|reflexivity].
    apply existsb_exists in E. destruct E as (f & Hin & Hf).
    apply filter_In in Hin. destruct Hin as (Hin & Hc).
    apply andb_prop in Hc. destruct Hc as (Hc1 & Hc2).
    rewrite (Hn f Hin) in Hf; [discriminate| |exact Hc2].
    now destruct (PyStr.mem f main_files). }
  destruct new_files; [reflexivity|]. rewrite Hx. reflexivity.
Qed.

Lemma remap_report_spec branch pushed renames_done results w :
  exec h (report lib branch pushed renames_done results) w
  = (results ++ map (fun x : remapping =>
                       (branch, snd x, snd (fst x))) renames_done,
     w,
     map (fun x : remapping =>
            EvPrint ((if pushed then "OK" else "PUSH_FAIL") ++ " " ++ branch
                     ++ ": " ++ Py.str lib (snd x) ++ " -> "
                     ++ snd (fst x))%string) renames_done).
Proof.
  revert results. induction renames_done as [|[[o n] i] l IH]; intros results.
  - cbn. now rewrite app_nil_r.
  - cbn [report]. rewrite exec_bind, exec_print, IH. cbn [map fst snd app].
    now rewrite <- app_assoc.
Qed.

(** X16: once the loop over the files of a branch has recorded
    renamings, the remap script stages, commits and pushes without
    looking at the outcome of the checkout, of the commit or of the
    push: every recorded renaming is added to the results as
    [(branch, old id, new id)], and so to the number of ids the script
    says it has fixed, whether the push went through or not; the answer
    of the push only selects the printed word, [OK] or [PUSH_FAIL]. *)
Theorem unpushed_remaps_are_counted
        main_files branch results w r1 w1 r2 w2 rd w3 t3 r4 w4 r5 w5 r6 w6 :
  let ls := Argv ["git"; "ls-tree"; "-r"; "--name-only"; branch; "--";
                  "servers/"] in
  let new_files :=
    filter (fun f => negb (PyStr.mem f main_files)
                     && PyStr.endswith f ".json")
           (PyStr.split_lines (PyStr.strip (stdout r1))) in
  let commit :=
    Argv ["git"; "commit"; "-s";
          "--author=Mohammod Al Amin Ashik <maa.ashik00@gmail.com>";
          "-m"; commit_message lib rd] in
  let push := Argv ["git"; "push"; "origin"; branch] in
  on_run h ls w = (r1, w1) ->
  returncode r1 = 0%Z ->
  existsb (fun f => match remap (stem lib f) with
                    | Some _ => true
                    | None => false
                    end) new_files = true ->
  on_run h (Argv ["git"; "checkout"; branch]) w1 = (r2, w2) ->
  exec h (remap_files lib new_files []) w2 = (ok rd, w3, t3) ->
  rd <> [] ->
  on_run h (Argv ["git"; "add"; "-A"]) w3 = (r4, w4) ->
  on_run h commit w4 = (r5, w5) ->
  on_run h push w5 = (r6, w6) ->
  exec h (remap_branch lib main_files branch results) w
  = (ok (results ++ map (fun x : remapping =>
                           (branch, snd x, snd (fst x))) rd),
     w6,
     [EvRun ls r1; EvRun (Argv ["git"; "checkout"; branch]) r2] ++ t3
       ++ [EvRun (Argv ["git"; "add"; "-A"]) r4; EvRun commit r5;
           EvRun push r6]
       ++ map (fun x : remapping =>
                 EvPrint ((if Z.eqb (returncode r6) 0 then "OK"
                           else "PUSH_FAIL") ++ " " ++ branch
                          ++ ": " ++ Py.str lib (snd x) ++ " -> "
                          ++ snd (fst x))%string) rd).
Proof.
  intros ls new_files commit push H1 C1 Hx H2 H3 Hne H4 H5 H6.
  unfold remap_branch. cbn [pbind subprocess_run exec].
  fold ls. rewrite H1, C1. cbn [Z.eqb negb]. fold new_files.
  destruct new_files as [|f0 fs] eqn:En; [discriminate Hx|].
  rewrite Hx. cbn [negb pbind subprocess_run exec]. rewrite H2.
  rewrite exec_bind, H3.
  destruct rd as [|x rd']; [now contradiction Hne|].
  unfold ok. cbn [pbind subprocess_run exec]. rewrite H4.
  fold commit. rewrite H5. fold push. rewrite H6.
  rewrite exec_bind, remap_report_spec. cbn [exec fst snd].
  rewrite app_nil_r. reflexivity.
Qed.

End FixIdsExtras.

Section FixIdsExtraWitnesses.
Import FixIds.

Lemma remap_recorded_whatever_the_move_witness :
  let x := exec Sim.git
                (remap_file Sim.runtime "servers/community.jira-npx.json")
                Worlds.remap_blocked in
  value_of x
  = ok (Some ("community.jira-npx", "aashari.jira-mcp-npx",
              JStr "community.jira-npx"))
  /\ on_load Sim.git "servers/community.jira-npx.json" (world_of x)
     = inr Scenario.jira_remapped.
Proof.
  edestruct (remap_recorded_whatever_the_move
               Sim.git Sim.runtime "servers/community.jira-npx.json"
               "aashari.jira-mcp-npx" Worlds.remap_blocked
               [("id", JStr "community.jira-npx"); ("name", JStr "Jira (npx)")]
               (JStr "community.jira-npx"))
    as (E & _ & K);
    [vm_compute; reflexivity ..|].
  cbv zeta. rewrite E. split; [reflexivity|].
  apply (K SimStoreFacts.sim_store_contract). vm_compute. discriminate.
Defined.

Lemma branch_without_remap_not_checked_out_witness :
  exec Sim.git (remap_branch Sim.runtime [] "fix/x" []) Worlds.node_tool
  = (ok [], Worlds.node_tool,
     [EvRun (Argv ["git"; "ls-tree"; "-r"; "--name-only"; "fix/x"; "--";
                   "servers/"])
            (Sim.done "servers/com.x-mcp.json")]).
Proof.
  apply (branch_without_remap_not_checked_out
           Sim.git Sim.runtime [] "fix/x" [] Worlds.node_tool
           (Sim.done "servers/com.x-mcp.json") Worlds.node_tool eq_refl).
  intros f Hin _ _. vm_compute in Hin.
  destruct Hin as [<-|[]]. vm_compute. reflexivity.
Defined.

Lemma unpushed_remaps_are_counted_witness :
  let x := exec Sim.git (remap_branch Sim.runtime [] "fix/jira" [])
                Worlds.remap_unpushed in
  value_of x
  = ok [("fix/jira", JStr "community.jira-npx", "aashari.jira-mcp-npx")]
  /\ In (EvPrint "PUSH_FAIL fix/jira: community.jira-npx -> aashari.jira-mcp-npx")
        (trace_of x).
Proof.
  cbv zeta.
  erewrite (unpushed_remaps_are_counted
              Sim.git Sim.runtime [] "fix/jira" [] Worlds.remap_unpushed);
    [ | vm_compute; reflexivity | reflexivity | reflexivity
      | vm_compute; reflexivity | vm_compute; reflexivity | discriminate
      | vm_compute; reflexivity | vm_compute; reflexivity
      | vm_compute; reflexivity ].
  vm_compute. split; [reflexivity|]. do 8 right. left. reflexivity.
Defined.

End FixIdsExtraWitnesses.

(** * The branch loops of the rename script and of the pipeline *)

Section LoopExtras.
Import ExecFacts.
Context {W : Type} (h : handler W) (lib : pylib).

Lemma rename_report_spec branch renames results w :
  exec h (RenameFiles.report branch renames results) w
  = (results ++ map (fun x : RenameFiles.renaming =>
                       (branch, fst (fst x), snd (fst x))) renames,
     w,
     map (fun x : RenameFiles.renaming =>
            EvPrint ("OK " ++ branch ++ ": " ++ fst (fst x) ++ " -> "
                     ++ snd (fst x))%string) renames).
Proof.
  revert results. induction renames as [|[[o n] i] l IH]; intros results.
  - cbn. now rewrite app_nil_r.
  - cbn [RenameFiles.report]. rewrite exec_bind, exec_print, IH.
    cbn [map fst snd app]. now rewrite <- app_assoc.
Qed.

(** X17: in the rename script the renamings of a branch reach the
    results only when both the commit and the push have returned 0:
    then the results grow by one entry [(branch, old file, new file)] for
    each renaming that the loop over the files has recorded, in order;
    when the commit or the push fails the script goes on with the
    results it had. *)
Theorem renames_reported_only_after_push
        main_files branch results w r1 w1 r2 w2 renames w3 t3
        r4 w4 r5 w5 r6 w6 :
  let ls := Argv ["git"; "ls-tree"; "-r"; "--name-only"; branch; "--";
                  "servers/"] in
  let new_files :=
    filter (fun f => negb (PyStr.mem f main_files)
                     && PyStr.endswith f ".json")
           (PyStr.split_lines (PyStr.strip (stdout r1))) in
  let commit :=
    Argv ["git"; "commit"; "-s";
          "--author=Mohammod Al Amin Ashik <maa.ashik00@gmail.com>";
          "-m"; RenameFiles.commit_message lib renames] in
  on_run h ls w = (r1, w1) ->
  returncode r1 = 0%Z ->
  new_files <> [] ->
  on_run h (Argv ["git"; "checkout"; branch]) w1 = (r2, w2) ->
  returncode r2 = 0%Z ->
  exec h (RenameFiles.rename_files lib branch new_files []) w2
  = (ok renames, w3, t3) ->
  renames <> [] ->
  on_run h (Argv ["git"; "add"; "-A"]) w3 = (r4, w4) ->
  on_run h commit w4 = (r5, w5) ->
  on_run h (Argv ["git"; "push"; "origin"; branch]) w5 = (r6, w6) ->
  value_of (exec h (RenameFiles.rename_branch lib main_files branch results) w)
  = ok (if Z.eqb (returncode r5) 0 && Z.eqb (returncode r6) 0
        then results ++ map (fun y : RenameFiles.renaming =>
                               (branch, fst (fst y), snd (fst y))) renames
        else results).
Proof.
  intros ls new_files commit H1 C1 Hn H2 C2 H3 Hne H4 H5 H6.
  unfold RenameFiles.rename_branch, RenameFiles.run, value_of.
  change (PyStr.mem branch RenameFiles.SKIP_BRANCHES) with false.
  cbn [pbind subprocess_run exec]. fold ls. rewrite H1, C1.
  cbn [Z.eqb negb]. fold new_files.
  destruct new_files as [|f0 fs] eqn:En; [now contradiction Hn|].
  cbn [pbind subprocess_run exec]. rewrite H2, C2. cbn [Z.eqb negb].
  rewrite exec_bind, H3.
  destruct renames as [|y l]; [now contradiction Hne|].
  unfold ok. cbn [pbind subprocess_run exec fst].
  rewrite H4. fold commit. rewrite H5.
  destruct (Z.eqb (returncode r5) 0); cbn [negb andb]; [|reflexivity].
  cbn [pbind subprocess_run exec]. rewrite H6.
  destruct (Z.eqb (returncode r6) 0); cbn [negb andb]; [|reflexivity].
  rewrite exec_bind, rename_report_spec. reflexivity.
Qed.

(** X18: when [git for-each-ref] fails or prints nothing, the
    orchestrator finds no branch: it announces 0 branches, processes
    none and prints an empty summary; a failed enumeration is not told
    apart from an empty one. *)
Theorem failed_enumeration_is_no_branches w r0 w0 r w1 :
  let ls := Shell ("git for-each-ref --format=" ++ dquote
                   ++ "%(refname:short)" ++ dquote ++ " " ++ dquote
                   ++ "refs/remotes/origin/claude/add-*" ++ dquote) in
  on_run h (Shell FixBranches.checkout_main) w = (r0, w0) ->
  on_run h ls w0 = (r, w1) ->
  returncode r <> 0%Z \/ PyStr.strip (stdout r) = "" ->
  exec h (FixBranches.main lib) w
  = ([], w1,
     [EvRun (Shell FixBranches.checkout_main) r0; EvRun ls r;
      EvPrint "Found 0 branches to process";
      EvPrint (newline ++ newline ++ "=== SUMMARY ===")]).
Proof.
  intros ls H0 Hl Hf. unfold FixBranches.main.
  rewrite exec_bind. unfold FixBranches.run at 1.
  cbn [pbind subprocess_run exec]. rewrite H0.
  assert (G : exec h FixBranches.get_remote_branches w0 = ([], w1, [EvRun ls r])).
  { unfold FixBranches.get_remote_branches, FixBranches.run.
    cbn [pbind subprocess_run exec]. fold ls. rewrite Hl.
    cbn [andb]. destruct (negb (returncode r =? 0)%Z) eqn:E.
    - reflexivity.
    - destruct Hf as [Hf|Hf].
      + apply negb_false_iff, Z.eqb_eq in E. contradiction.
      + cbn [pbind exec]. rewrite Hf. reflexivity. }
  destruct (negb (returncode r0 =? 0)%Z); cbn [andb exec];
    rewrite exec_bind, G; reflexivity.
Qed.

End LoopExtras.

Section LoopExtraWitnesses.

Lemma renames_reported_only_after_push_witness :
  value_of (exec Sim.git
                 (RenameFiles.rename_branch Sim.runtime [] "fix/x" [])
                 Worlds.local_branch)
  = ok [("fix/x", "com.x-mcp.json", "com.x-mcp-node.json")].
Proof.
  erewrite (renames_reported_only_after_push
              Sim.git Sim.runtime [] "fix/x" [] Worlds.local_branch);
    [ | vm_compute; reflexivity | reflexivity | discriminate
      | vm_compute; reflexivity | reflexivity
      | vm_compute; reflexivity | discriminate
      | vm_compute; reflexivity | vm_compute; reflexivity
      | vm_compute; reflexivity ].
  reflexivity.
Defined.

Lemma failed_enumeration_is_no_branches_witness :
  value_of (exec Sim.git (FixBranches.main Sim.runtime) Worlds.no_branches)
  = [].
Proof.
  erewrite (failed_enumeration_is_no_branches Sim.git Sim.runtime
              Worlds.no_branches);
    [reflexivity|vm_compute; reflexivity|vm_compute; reflexivity|].
  right. vm_compute. reflexivity.
Defined.

End LoopExtraWitnesses.

(** * Running the rename script again *)

Local Open Scope string_scope.

Lemma length_append (a b : string) :
  String.length (a ++ b) = String.length a + String.length b.
Proof. induction a as [|c a IH]; cbn; [reflexivity|now rewrite IH]. Qed.

Lemma endswith_append (a b : string) : PyStr.endswith (a ++ b) b = true.
Proof.
  unfold PyStr.endswith. rewrite length_append.
  replace (String.length a + String.length b - String.length b)
    with (String.length a) by lia.
  rewrite drop_append, String.eqb_refl.
  apply andb_true_intro. split; [apply Nat.leb_le; lia|reflexivity].
Qed.

(** A tail that starts with a hyphen neither completes nor starts an
    occurrence of [.json]. *)
Lemma has_prefix_json_append (x t : string) :
  PyStr.has_prefix ".json" (x ++ String "-" t) = PyStr.has_prefix ".json" x.
Proof.
  do 5 (destruct x as [|? x]; [cbn; rewrite ?andb_false_r; reflexivity|
                               cbn [append PyStr.has_prefix]]).
  reflexivity.
Qed.

Lemma has_prefix_length (p s : string) :
  PyStr.has_prefix p s = true -> String.length p <= String.length s.
Proof.
  revert s. induction p as [|a p IH]; intros s H; cbn; [lia|].
  destruct s as [|c s]; [discriminate|]. cbn in *.
  apply andb_prop in H. destruct H as [_ H]. apply IH in H. lia.
Qed.

Lemma drop_append_le (n : nat) (x t : string) :
  n <= String.length x -> PyStr.drop n (x ++ t) = PyStr.drop n x ++ t.
Proof.
  revert x. induction n as [|n IH]; intros x H.
  - now destruct x.
  - destruct x as [|c x]; cbn in *; [lia|]. apply IH. lia.
Qed.

Lemma drop_length (n : nat) (x : string) :
  String.length (PyStr.drop n x) = String.length x - n.
Proof.
  revert x. induction n as [|n IH]; intros x.
  - destruct x; cbn; lia.
  - destruct x as [|c x]; cbn; [reflexivity|apply IH].
Qed.


Lemma replace_from_fuel (new : string) (fuel1 fuel2 : nat) (s : string) :
  String.length s <= fuel1 -> String.length s <= fuel2 ->
  PyStr.replace_from fuel1 ".json" new s = PyStr.replace_from fuel2 ".json" new s.
Proof.
  revert fuel2 s. induction fuel1 as [|f1 IH]; intros fuel2 s H1 H2.
  - destruct s; [now destruct fuel2|cbn in H1; lia].
  - destruct fuel2 as [|f2]; [destruct s; [reflexivity|cbn in H2; lia]|].
    destruct s as [|c r]; [reflexivity|].
    cbn [PyStr.replace_from]. cbn [String.length] in H1, H2.
    destruct (PyStr.has_prefix ".json" (String c r)).
    + f_equal. apply IH; rewrite drop_length; cbn; lia.
    + f_equal. apply IH; lia.
Qed.

Lemma replace_json_append (x t : string) :
  PyStr.replace ".json" "" (x ++ String "-" t)
  = PyStr.replace ".json" "" x ++ PyStr.replace ".json" "" (String "-" t).
Proof.
  unfold PyStr.replace.
  remember (String.length x) as n eqn:Hn.
  assert (Hle : String.length x <= n) by lia. rewrite Hn. clear Hn.
  revert x Hle. induction n as [|n IH]; intros x Hle.
  - destruct x; [reflexivity|cbn in Hle; lia].
  - destruct x as [|c r]; [reflexivity|].
    cbn [String.length] in Hle.
    change (String c r ++ String "-" t) with (String c (r ++ String "-" t)).
    cbn [String.length PyStr.replace_from].
    change (String c (r ++ String "-" t)) with (String c r ++ String "-" t).
    rewrite has_prefix_json_append.
    destruct (PyStr.has_prefix ".json" (String c r)) eqn:Hp.
    + apply has_prefix_length in Hp. cbn [String.length] in Hp.
      rewrite drop_append_le by exact Hp.
      set (x' := PyStr.drop 5 (String c r)).
      assert (Hx : String.length x' <= String.length r - 4)
        by (unfold x'; rewrite drop_length; cbn; lia).
      clearbody x'.
      rewrite (replace_from_fuel "" (String.length (r ++ String "-" t))
                 (String.length (x' ++ String "-" t)))
        by (rewrite ?length_append; lia).
      rewrite (replace_from_fuel "" (String.length r) (String.length x') x')
        by lia.
      cbn [append]. apply IH. lia.
    + cbn [append]. f_equal. apply IH. lia.
Qed.

Lemma suffixed_name_is_known (x sfx : string) :
  In sfx ["npx"; "uvx"; "docker"; "cli"] ->
  existsb (PyStr.endswith (PyStr.replace ".json" "" (x ++ "-" ++ sfx ++ ".json")))
          RenameFiles.KNOWN_SUFFIXES = true.
Proof.
  intros H. apply existsb_exists. exists ("-" ++ sfx).
  split.
  - cbn in H. destruct H as [<-|[<-|[<-|[<-|[]]]]]; cbn; auto 6.
  - replace (PyStr.replace ".json" "" (x ++ "-" ++ sfx ++ ".json"))
      with (PyStr.replace ".json" "" x ++ "-" ++ sfx).
    + apply endswith_append.
    + change (x ++ "-" ++ sfx ++ ".json") with (x ++ String "-" (sfx ++ ".json")).
      rewrite replace_json_append. f_equal.
      cbn in H. destruct H as [<-|[<-|[<-|[<-|[]]]]]; reflexivity.
Qed.

Section RerunExtras.
Import RenameFiles.
Context {W : Type} (h : handler W) (lib : pylib).

(** X19: a file that got one of the suffixes [-npx], [-uvx], [-docker],
    [-cli] is passed over when the script meets it again: the name
    [<stem>-<suffix>.json] the script builds for a renamed file is a
    name it skips, whatever the stem is, without reading the file. *)
Theorem renamed_file_skipped_next_time branch f w name_no_ext sfx :
  In sfx ["npx"; "uvx"; "docker"; "cli"] ->
  os_path_basename lib f = (name_no_ext ++ "-" ++ sfx ++ ".json")%string ->
  exec h (rename_file lib branch f) w = (ok None, w, []).
Proof.
  intros Hs Hb. unfold rename_file. rewrite Hb.
  destruct (PyStr.mem _ HTTP_ONLY_FILES); [reflexivity|].
  now rewrite (suffixed_name_is_known name_no_ext sfx Hs).
Qed.

End RerunExtras.

Section RerunExtraWitnesses.
Import RenameFiles.

Lemma renamed_file_skipped_next_time_witness :
  exec Sim.git (rename_file Sim.runtime "fix/m" "servers/io.q-mcp-docker.json")
       Worlds.mixed_files
  = (ok None, Worlds.mixed_files, []).
Proof.
  apply (renamed_file_skipped_next_time
           Sim.git Sim.runtime "fix/m" "servers/io.q-mcp-docker.json"
           Worlds.mixed_files "io.q-mcp" "docker").
  - do 2 right. left. reflexivity.
  - vm_compute. reflexivity.
Defined.

End RerunExtraWitnesses.
